(** * Post Room backend: token lifecycle, sessions, follows, publish fan-out
      and recent searches

    A shallow embedding of the request handlers of the Post Room backend
    (controllers/userController.ts, controllers/blogController.ts,
    middleware/authMiddleware.ts, lib/nodemailer.ts) over an explicit model
    of the relational store described by the Prisma schema.

    Conventions of the embedding:
    - a [Date] is its [getTime()] value, an integer number of milliseconds;
    - a JavaScript string is a [string]; its characters stand for code units
      below 256;
    - an [async] handler is a computation in the monad [M]: it threads the
      store and may throw; a thrown error leaves the writes already made in
      place (there is no transaction in the source);
    - [return res.status(c).send(x)] is the value [send c x];
    - the clock is read once per request ([now]), and the random UUIDs a
      handler draws are arguments of the handler;
    - [create] returns the row it wrote or throws, so the guards
      [if (!newUser)] and [if (!passwordReset)] that follow a [create] in
      the source never fire and have no counterpart here;
    - the libraries the handlers call (bcrypt, jsonwebtoken, the mail
      transporter, the store's referential actions) are the fields of the
      class [Collaborators]. *)

From Stdlib Require Import ZArith List String Ascii Bool Lia QArith Permutation Sorted.
Import ListNotations.
Local Open Scope string_scope.
Local Open Scope Z_scope.

Set Implicit Arguments.
Set Warnings "-register-all".

(** ** Schema (schema.prisma) *)

Inductive AccountType := DEFAULT | GOOGLE | FACEBOOK | APPLE.

Definition AccountType_eqb (a b : AccountType) : bool :=
  match a, b with
  | DEFAULT, DEFAULT | GOOGLE, GOOGLE | FACEBOOK, FACEBOOK | APPLE, APPLE => true
  | _, _ => false
  end.

Module User.
Record t := mk {
  id : Z;
  fullname : option string;
  username : option string;
  imageUrl : option string;
  bio : option string;
  email : string;
  isEmailVerified : bool;
  hashedPassword : option string;
  provider : AccountType;
  createdAt : Z;
  updatedAt : Z }.
End User.

Module ActivateToken.
Record t := mk {
  id : Z; token : string; activatedAt : option Z; userId : Z;
  createdAt : Z; updatedAt : Z }.
End ActivateToken.

Module PasswordResetToken.
Record t := mk {
  id : Z; token : string; resetAt : option Z; userId : Z;
  createdAt : Z; updatedAt : Z }.
End PasswordResetToken.

Module DeleteToken.
Record t := mk {
  id : Z; token : string; deleteAt : option Z; userId : Z;
  createdAt : Z; updatedAt : Z }.
End DeleteToken.

Module Blog.
Record t := mk {
  id : Z; blogId : string; title : string; content : string;
  imageUrl : option string; draft : bool; authorId : Z;
  updatedContentAt : option Z; createdAt : Z; updatedAt : Z }.
End Blog.

Module Notification.
Record t := mk {
  id : Z; userId : Z; blogId : Z; seen : bool; createdAt : Z }.
End Notification.

Module Searches.
Record t := mk {
  id : Z; userId : Z; content : string; createdAt : Z }.
End Searches.

Module Follow.
Record t := mk { id : Z; userId : Z; followerId : Z }.
End Follow.

(** The user attached to a request by [protect]
    (types/express/index.d.ts). *)
Module ReqUser.
Record t := mk {
  id : Z;
  imageUrl : option string;
  fullname : option string;
  username : option string;
  bio : option string;
  email : string;
  isEmailVerified : bool;
  createdAt : Z;
  updatedAt : Z }.
End ReqUser.

(** ** The store *)

(** A table is its rows in insertion order together with the next value of
    its [autoincrement()] sequence. *)
Record Table (A : Type) := mkTable { rows : list A; nextId : Z }.

Record DB := mkDB {
  users : Table User.t;
  activateTokens : Table ActivateToken.t;
  passwordResetTokens : Table PasswordResetToken.t;
  deleteTokens : Table DeleteToken.t;
  blogs : Table Blog.t;
  follows : Table Follow.t;
  notifications : Table Notification.t;
  searches : Table Searches.t }.

(** A table of the store, as the pair of its reader and its writer
    ([db.user], [db.follow], ...). *)
Record TableRef (A : Type) := mkRef {
  tget : DB -> Table A;
  tset : Table A -> DB -> DB }.

Definition db_user : TableRef User.t :=
  mkRef users (fun t d =>
    mkDB t (activateTokens d) (passwordResetTokens d) (deleteTokens d)
         (blogs d) (follows d) (notifications d) (searches d)).
Definition db_activateToken : TableRef ActivateToken.t :=
  mkRef activateTokens (fun t d =>
    mkDB (users d) t (passwordResetTokens d) (deleteTokens d)
         (blogs d) (follows d) (notifications d) (searches d)).
Definition db_passwordResetToken : TableRef PasswordResetToken.t :=
  mkRef passwordResetTokens (fun t d =>
    mkDB (users d) (activateTokens d) t (deleteTokens d)
         (blogs d) (follows d) (notifications d) (searches d)).
Definition db_deleteToken : TableRef DeleteToken.t :=
  mkRef deleteTokens (fun t d =>
    mkDB (users d) (activateTokens d) (passwordResetTokens d) t
         (blogs d) (follows d) (notifications d) (searches d)).
Definition db_blog : TableRef Blog.t :=
  mkRef blogs (fun t d =>
    mkDB (users d) (activateTokens d) (passwordResetTokens d) (deleteTokens d)
         t (follows d) (notifications d) (searches d)).
Definition db_follow : TableRef Follow.t :=
  mkRef follows (fun t d =>
    mkDB (users d) (activateTokens d) (passwordResetTokens d) (deleteTokens d)
         (blogs d) t (notifications d) (searches d)).
Definition db_notification : TableRef Notification.t :=
  mkRef notifications (fun t d =>
    mkDB (users d) (activateTokens d) (passwordResetTokens d) (deleteTokens d)
         (blogs d) (follows d) t (searches d)).
Definition db_searches : TableRef Searches.t :=
  mkRef searches (fun t d =>
    mkDB (users d) (activateTokens d) (passwordResetTokens d) (deleteTokens d)
         (blogs d) (follows d) (notifications d) t).

(** ** Handlers as computations *)

Inductive Outcome (A : Type) : Type :=
| Ok (a : A)
| Throw (message : string).
Arguments Ok {A} a.
Arguments Throw {A} message.

Definition M (A : Type) : Type := DB -> Outcome A * DB.

Definition ret {A} (a : A) : M A := fun d => (Ok a, d).
Definition throw {A} (message : string) : M A := fun d => (Throw message, d).
Definition bind {A B} (m : M A) (k : A -> M B) : M B :=
  fun d => match m d with
           | (Ok a, d') => k a d'
           | (Throw e, d') => (Throw e, d')
           end.

Declare Scope handler_scope.
Delimit Scope handler_scope with handler.
Notation "x <- m ;; k" := (bind m (fun x => k))
  (at level 61, m at next level, right associativity) : handler_scope.
Notation "m ;;; k" := (bind m (fun _ => k))
  (at level 61, right associativity) : handler_scope.

(** *** Store operations (the Prisma client) *)

Section Prisma.
Variable A : Type.
Variable r : TableRef A.

(** [findUnique] and [findFirst]: the first row satisfying [where]. *)
Definition findFirst (where_ : A -> bool) : M (option A) :=
  fun d => (Ok (find where_ (rows (tget r d))), d).
Definition findUnique := findFirst.

(** [findMany] without [orderBy]: the matching rows in table order. *)
Definition findMany (where_ : A -> bool) : M (list A) :=
  fun d => (Ok (filter where_ (rows (tget r d))), d).

(** [create]: draws the next id of the sequence; a row that clashes with
    a [@unique] constraint is refused with an error (the id is consumed
    all the same). *)
Definition create (clashes : A -> A -> bool) (data : Z -> A) : M A :=
  fun d =>
    let t := tget r d in
    let row := data (nextId t) in
    if existsb (clashes row) (rows t)
    then (Throw "Unique constraint failed",
          tset r (mkTable (rows t) (nextId t + 1)) d)
    else (Ok row, tset r (mkTable (rows t ++ [row]) (nextId t + 1)) d).

Fixpoint update_first (where_ : A -> bool) (data : A -> A) (l : list A)
  : option (A * list A) :=
  match l with
  | [] => None
  | x :: l' =>
      if where_ x then Some (data x, data x :: l')
      else match update_first where_ data l' with
           | Some (y, l'') => Some (y, x :: l'')
           | None => None
           end
  end.

(** [update] on a unique selector: rewrites the row and returns it;
    throws when there is none. *)
Definition update (where_ : A -> bool) (data : A -> A) : M A :=
  fun d =>
    let t := tget r d in
    match update_first where_ data (rows t) with
    | Some (y, l) => (Ok y, tset r (mkTable l (nextId t)) d)
    | None => (Throw "Record to update not found.", d)
    end.

(** [delete] on a unique selector: removes the row and returns it;
    throws when there is none. *)
Definition delete (where_ : A -> bool) : M A :=
  fun d =>
    let t := tget r d in
    match find where_ (rows t) with
    | Some y =>
        (Ok y,
         tset r (mkTable (filter (fun x => negb (where_ x)) (rows t)) (nextId t)) d)
    | None => (Throw "Record to delete does not exist.", d)
    end.
End Prisma.

(** ** Requests and responses *)

Inductive Json : Type :=
| JNull
| JBool (b : bool)
| JNum (n : Z)
| JDate (t : Z)
| JStr (s : string)
| JArr (l : list Json)
| JObj (fields : list (string * Json)).

Definition JOptStr (o : option string) : Json :=
  match o with Some s => JStr s | None => JNull end.

Inductive Body : Type :=
| Text (s : string)
| JsonBody (j : Json).

(** What a handler leaves in [res]: the status, the [Authorization] header
    when [res.setHeader] was called, and the body. *)
Record Response := mkResponse {
  status : Z;
  authorization : option string;
  body : Body }.

Definition send (code : Z) (s : string) : Response :=
  mkResponse code None (Text s).
Definition json (code : Z) (j : Json) : Response :=
  mkResponse code None (JsonBody j).
Definition setHeader_Authorization (v : string) (res : Response) : Response :=
  mkResponse (status res) (Some v) (body res).

(** [try { ... } catch (error) { return res.status(500).send({ message:
    error.message }) }], the frame of every controller. *)
Definition internal_error (message : string) : Response :=
  json 500 (JObj [("message", JStr message)]).
Definition try_catch (body_ : M Response) : DB -> Response * DB :=
  fun d => match body_ d with
           | (Ok res, d') => (res, d')
           | (Throw e, d') => (internal_error e, d')
           end.

(** [!x] on an optional string taken from the request: absent and empty
    are falsy. *)
Definition falsy (x : option string) : bool :=
  match x with
  | None => true
  | Some s => String.eqb s EmptyString
  end.

Definition str (x : option string) : string :=
  match x with Some s => s | None => "undefined" end.

(** ** Regular expressions of the controllers *)

Definition code (c : ascii) : N := N_of_ascii c.

(** [\s] *)
Definition is_space (c : ascii) : bool :=
  let n := code c in
  ((9 <=? n) && (n <=? 13) || (n =? 32) || (n =? 160))%N.

(** [[^\s@]] *)
Definition not_space_at (c : ascii) : bool :=
  negb (is_space c) && negb (Ascii.eqb c "@").

Fixpoint span (p : ascii -> bool) (s : string) : string * string :=
  match s with
  | String c s' =>
      if p c then let (a, b) := span p s' in (String c a, b) else (EmptyString, s)
  | EmptyString => (EmptyString, EmptyString)
  end.

Definition string_forallb (p : ascii -> bool) (s : string) : bool :=
  forallb p (list_ascii_of_string s).
Definition string_existsb (p : ascii -> bool) (s : string) : bool :=
  existsb p (list_ascii_of_string s).

(** [/^[^\s@]+@[^\s@]+\.[^\s@]+$/]: a non-empty run of [[^\s@]], an [@],
    and a run of [[^\s@]] to the end that has a dot strictly inside. *)
Definition emailRegex_test (s : string) : bool :=
  let (local_, rest) := span not_space_at s in
  match local_, rest with
  | String _ _, String "@" domain =>
      string_forallb not_space_at domain
      && existsb (fun c => Ascii.eqb c ".")
           (removelast (tl (list_ascii_of_string domain)))
  | _, _ => false
  end.

Definition is_letter (c : ascii) : bool :=
  let n := code c in
  ((65 <=? n) && (n <=? 90) || (97 <=? n) && (n <=? 122))%N.
Definition is_digit (c : ascii) : bool :=
  let n := code c in ((48 <=? n) && (n <=? 57))%N.
Definition double_quote : ascii := ascii_of_nat 34.
(** The class of the third look-ahead of the password pattern: the double
    quote and the punctuation listed below. *)
Definition is_special (c : ascii) : bool :=
  Ascii.eqb c double_quote
  || string_existsb (Ascii.eqb c) "!@#$%^&*(),.?:{}|<>".
(** [.] (no line terminator) *)
Definition is_dot_char (c : ascii) : bool :=
  let n := code c in negb ((n =? 10) || (n =? 13))%N.

(** [passwordRegex]: three look-aheads (a letter, a digit, a character of
    [is_special], each after [.*]) followed by [.{8,}$]. The last part makes
    the whole input one line of at least 8 characters, so each look-ahead
    asks for a character of its class anywhere in it. *)
Definition passwordRegex_test (s : string) : bool :=
  string_forallb is_dot_char s
  && (8 <=? Z.of_nat (String.length s))
  && string_existsb is_letter s
  && string_existsb is_digit s
  && string_existsb is_special s.

(** ** Collaborators *)

(** The three mail templates; each is determined by the link it embeds. *)
Inductive Html :=
| VerifyEmailHtml (activateUrl : string)
| ResetPasswordHtml (passwordResetUrl : string)
| DeleteAccountHtml (confirmDeletionUrl : string).

Record sendMailProps := mkProps {
  subject : string; email : string; html : Html }.

Record MailOptions := mkMailOptions {
  mail_from : string; mail_to : string; mail_subject : string; mail_html : Html }.

(** The errors of [jwt.verify]. *)
Inductive JwtError :=
| JsonWebTokenError (message : string)
| TokenExpiredError
| NotBeforeError.

Class Collaborators := {
  (** [process.env] *)
  JWT_SECRET : string;
  NODEMAILER_EMAIL : string;
  (** [bcrypt.hash(data, rounds)] and [bcrypt.compare(data, hash)] *)
  bcrypt_hash : string -> Z -> string;
  bcrypt_compare : string -> string -> bool;
  (** [jwt.sign({ id }, secret, { expiresIn })] at a clock reading, and
      [jwt.verify(token, secret)] on a non-empty token at a clock reading:
      the decoded id, or the error it throws. *)
  jwt_sign : Z -> string -> string -> Z -> string;
  jwt_verify : string -> string -> Z -> JwtError + Z;
  (** [transporter.sendMail(mailOptions, callback)]: the [err] handed to
      the callback, if any. *)
  transporter_sendMail : MailOptions -> option string;
  (** What the store does to the rows that reference a user when that user
      is deleted ([onDelete] of the relations), or the error it raises. *)
  referential_actions : Z -> DB -> Outcome DB;
  (** The blog query of [searchBlogs] (title [contains], case-insensitive,
      [skip], [take: 10]) shaped for the response; it only reads. *)
  blogsWithStarredAndSaved : DB -> string -> Z -> Z -> Json }.

(** ** Small JavaScript helpers *)

Definition catch {A} (m : M A) (handler : string -> M A) : M A :=
  fun d => match m d with
           | (Ok a, d') => (Ok a, d')
           | (Throw e, d') => handler e d'
           end.

(** Reading the store without changing it. *)
Definition read {A} (f : DB -> A) : M A := fun d => (Ok (f d), d).

(** [for (let i = 0; i < l.length; i++) { await body(l[i]) }] *)
Fixpoint for_each {A B} (l : list A) (body_ : A -> M B) : M unit :=
  match l with
  | [] => ret tt
  | x :: l' => bind (body_ x) (fun _ => for_each l' body_)
  end.

(** [s.split(sep)] for a one-character separator. *)
Fixpoint split_on (sep : ascii) (s : string) : list string :=
  match s with
  | EmptyString => [EmptyString]
  | String c s' =>
      if Ascii.eqb c sep then EmptyString :: split_on sep s'
      else match split_on sep s' with
           | h :: t => String c h :: t
           | [] => [String c EmptyString]
           end
  end.

(** [s.replace(/-/g, empty)]: every dash removed. *)
Fixpoint remove_dashes (s : string) : string :=
  match s with
  | EmptyString => EmptyString
  | String c s' =>
      if Ascii.eqb c "-" then remove_dashes s' else String c (remove_dashes s')
  end.

(** [isNumeric]: [/^\d+$/.test(value)] *)
Definition isNumeric (value : string) : bool :=
  negb (String.eqb value EmptyString) && string_forallb is_digit value.

(** [parseInt] on a string of decimal digits. *)
Definition parseInt (value : string) : Z :=
  fold_left (fun acc c => 10 * acc + (Z.of_N (code c) - 48))
            (list_ascii_of_string value) 0.

(** [orderBy: { key: "desc" }]: rows with equal keys keep their table
    order. *)
Section OrderBy.
Variable A : Type.
Variable key : A -> Z.

Fixpoint insert_desc (x : A) (l : list A) : list A :=
  match l with
  | [] => [x]
  | y :: l' => if key y <=? key x then x :: l else y :: insert_desc x l'
  end.

Definition orderBy_desc (l : list A) : list A :=
  fold_right insert_desc [] l.
End OrderBy.

(** [(a - b) / (1000 * 3600) > 24] on two [getTime()] readings, with the
    division taken exactly (on integral readings the floating-point
    quotient exceeds 24 in the same cases). *)
Definition hours_between (a b : Z) : Q :=
  (inject_Z (a - b) / inject_Z (1000 * 3600))%Q.
Definition more_than_24_hours (a b : Z) : bool :=
  negb (Qle_bool (hours_between a b) (inject_Z 24)).

Definition day : Z := 24 * 3600 * 1000.
Definition minute : Z := 60 * 1000.

(** ** lib/nodemailer.ts, middleware/authMiddleware.ts and the controllers *)

Inductive Middleware :=
| Next (user : ReqUser.t)
| Reply (res : Response).

Section Controllers.
Context `{Collaborators}.
Local Open Scope handler_scope.

(** *** lib/nodemailer.ts *)

Definition mailOptions_of (p : sendMailProps) : MailOptions :=
  mkMailOptions ("Post Room <" ++ NODEMAILER_EMAIL ++ ">")
                (email p) (subject p) (html p).

Definition sendMail (p : sendMailProps) : M unit :=
  let mailOptions := mailOptions_of p in
  match transporter_sendMail mailOptions with
  | Some err => throw err
  | None => ret tt
  end.

(** *** Generate JWT *)

Definition generateToken (id : Z) (now : Z) : string :=
  jwt_sign id JWT_SECRET "30d" now.

(** *** middleware/authMiddleware.ts *)

Definition select_req_user (u : User.t) : ReqUser.t :=
  ReqUser.mk (User.id u) (User.imageUrl u) (User.fullname u)
             (User.username u) (User.bio u) (User.email u)
             (User.isEmailVerified u) (User.createdAt u) (User.updatedAt u).

Definition unauthorized : M Middleware :=
  ret (Reply (send 401 "Unauthorized")).

(** [jwt.verify] throws [jwt must be provided] on an absent or empty
    token, so a request that reaches [next()] has a non-empty [token] and
    the closing [if (!token)] only fires when the [try] block was not
    entered. *)
Definition protect (authorization_ : option string) (now : Z) : M Middleware :=
  if negb (falsy authorization_) && prefix "Bearer" (str authorization_) then
    catch
      (let token := nth_error (split_on " " (str authorization_)) 1 in
       if falsy token then unauthorized
       else
         match jwt_verify (str token) JWT_SECRET now with
         | inl _ => unauthorized
         | inr decoded_id =>
             user <- findUnique db_user (fun u => User.id u =? decoded_id) ;;
             match user with
             | None => unauthorized
             | Some u => ret (Next (select_req_user u))
             end
         end)
      (fun _ => unauthorized)
  else ret (Reply (send 401 "Unauthorized, no token")).

(** *** controllers/userController.ts *)

Definition no_clash {A} (_ _ : A) : bool := false.

(** [@unique] on [email] and on [username] (absent usernames never
    clash). *)
Definition user_clashes (a b : User.t) : bool :=
  String.eqb (User.email a) (User.email b)
  || match User.username a, User.username b with
     | Some x, Some y => String.eqb x y
     | _, _ => false
     end.

(** [@@unique([userId, followerId])] *)
Definition follow_clashes (a b : Follow.t) : bool :=
  (Follow.userId a =? Follow.userId b)
  && (Follow.followerId a =? Follow.followerId b).

Definition follow_json (f : Follow.t) : Json :=
  JObj [("id", JNum (Follow.id f)); ("userId", JNum (Follow.userId f));
        ("followerId", JNum (Follow.followerId f))].

(** The six-key and eight-key projections of a user that the handlers
    send back. *)
Definition account_json (user : User.t) : Json :=
  JObj [("id", JNum (User.id user));
        ("fullname", JOptStr (User.fullname user));
        ("username", JOptStr (User.username user));
        ("email", JStr (User.email user));
        ("createdAt", JDate (User.createdAt user));
        ("updatedAt", JDate (User.updatedAt user))].
Definition profile_json (user : User.t) : Json :=
  JObj [("id", JNum (User.id user));
        ("fullname", JOptStr (User.fullname user));
        ("username", JOptStr (User.username user));
        ("bio", JOptStr (User.bio user));
        ("imageUrl", JOptStr (User.imageUrl user));
        ("email", JStr (User.email user));
        ("createdAt", JDate (User.createdAt user));
        ("updatedAt", JDate (User.updatedAt user))].

(** Follow an account: POST /api/follow/:username *)
Definition followUser (req_user : ReqUser.t) (username : string)
  : DB -> Response * DB :=
  try_catch (
    user <- findUnique db_user
              (fun u => match User.username u with
                        | Some n => String.eqb n username
                        | None => false
                        end) ;;
    match user with
    | None => ret (send 404 "Account not found")
    | Some user =>
        if User.id user =? ReqUser.id req_user
        then ret (send 403 "You cannot follow yourself")
        else
          isUserFollowing <-
            findFirst db_follow
              (fun f => (Follow.userId f =? User.id user)
                        && (Follow.followerId f =? ReqUser.id req_user)) ;;
          match isUserFollowing with
          | Some _ => ret (send 400 "You already follow this account")
          | None =>
              follow <- create db_follow follow_clashes
                          (fun i => Follow.mk i (User.id user) (ReqUser.id req_user)) ;;
              ret (json 200 (follow_json follow))
          end
    end).

(** The messages of the three issuing handlers. *)
Definition activation_mail (to_ url token_ : string) : sendMailProps :=
  mkProps "Verify your Post Room account email" to_
          (VerifyEmailHtml (url ++ "/activate/" ++ token_)).
Definition reset_mail (to_ url token_ : string) : sendMailProps :=
  mkProps "Password reset request for Post Room account" to_
          (ResetPasswordHtml (url ++ "/reset-password/" ++ token_)).
Definition deletion_mail (to_ token_ : string) : sendMailProps :=
  mkProps "Account delete confirmation for Post Room account" to_
          (DeleteAccountHtml ("http://localhost:3000/delete-account/" ++ token_)).

(** The token string of the three issuing handlers: two
    [crypto.randomUUID()] draws, each with its dashes removed,
    concatenated. *)
Definition tokenString (uuid1 uuid2 : string) : string :=
  remove_dashes uuid1 ++ remove_dashes uuid2.

(** Request a password reset email: POST /api/user/reset-password *)
Definition resetPasswordRequest (email_ origin : option string)
    (uuid1 uuid2 : string) (now : Z) : DB -> Response * DB :=
  try_catch (
    if falsy email_ then ret (send 400 "Missing email address")
    else if negb (emailRegex_test (str email_))
    then ret (send 422 "Invalid email format")
    else
      doesUserExist <- findUnique db_user
                         (fun u => String.eqb (User.email u) (str email_)) ;;
      match doesUserExist with
      | None => ret (send 404 "Email cannot be found or signed in using a provider")
      | Some doesUserExist =>
          if negb (AccountType_eqb (User.provider doesUserExist) DEFAULT)
          then ret (send 404 "Email cannot be found or signed in using a provider")
          else
            let passwordResetTokenString := tokenString uuid1 uuid2 in
            passwordReset <-
              create db_passwordResetToken
                (fun a b => String.eqb (PasswordResetToken.token a)
                                       (PasswordResetToken.token b))
                (fun i => PasswordResetToken.mk i passwordResetTokenString None
                            (User.id doesUserExist) now now) ;;
            let url := str origin in
            let passwordResetUrl :=
              url ++ "/reset-password/" ++ PasswordResetToken.token passwordReset in
            sendMail (mkProps "Password reset request for Post Room account"
                              (User.email doesUserExist)
                              (ResetPasswordHtml passwordResetUrl)) ;;;
            ret (send 200 "Password reset link sent to email")
      end).

Definition user_set_hashedPassword (h : string) (now : Z) (u : User.t) : User.t :=
  User.mk (User.id u) (User.fullname u) (User.username u) (User.imageUrl u)
          (User.bio u) (User.email u) (User.isEmailVerified u) (Some h)
          (User.provider u) (User.createdAt u) now.

Definition user_set_isEmailVerified (v : bool) (now : Z) (u : User.t) : User.t :=
  User.mk (User.id u) (User.fullname u) (User.username u) (User.imageUrl u)
          (User.bio u) (User.email u) v (User.hashedPassword u)
          (User.provider u) (User.createdAt u) now.

Definition token_set_resetAt (at_ : Z) (now : Z) (t : PasswordResetToken.t)
  : PasswordResetToken.t :=
  PasswordResetToken.mk (PasswordResetToken.id t) (PasswordResetToken.token t)
    (Some at_) (PasswordResetToken.userId t) (PasswordResetToken.createdAt t) now.

(** Change an account password: POST /api/user/reset-password/:token *)
Definition resetAccountPassword (token_param : string) (password : option string)
    (now : Z) : DB -> Response * DB :=
  try_catch (
    if falsy password then ret (send 400 "Missing new password")
    else
      token <- findUnique db_passwordResetToken
                 (fun t => String.eqb (PasswordResetToken.token t) token_param) ;;
      match token with
      | None => ret (send 400 "Token expired or not valid")
      | Some token =>
          if more_than_24_hours now (PasswordResetToken.createdAt token)
          then ret (send 400 "Token expired or not valid")
          else if negb (passwordRegex_test (str password))
          then ret (send 422 "Password does not meet security requirments")
          else
            let hashedPassword := bcrypt_hash (str password) 12 in
            user <- update db_user
                      (fun u => User.id u =? PasswordResetToken.userId token)
                      (user_set_hashedPassword hashedPassword now) ;;
            update db_passwordResetToken
              (fun t => PasswordResetToken.id t =? PasswordResetToken.id token)
              (token_set_resetAt now now) ;;;
            ret (json 200 (profile_json user))
      end).

(** Activate an account: POST /api/activate/:token *)
Definition activateAccount (token_param : string) (now : Z)
  : DB -> Response * DB :=
  try_catch (
    token <- findUnique db_activateToken
               (fun t => String.eqb (ActivateToken.token t) token_param) ;;
    match token with
    | None => ret (send 400 "Token not valid")
    | Some token =>
        isUserVerified <-
          findFirst db_user
            (fun u => (User.id u =? ActivateToken.userId token)
                      && Bool.eqb (User.isEmailVerified u) true) ;;
        match isUserVerified with
        | Some _ => ret (send 400 "Email is already verified")
        | None =>
            user <- update db_user
                      (fun u => User.id u =? ActivateToken.userId token)
                      (user_set_isEmailVerified true now) ;;
            ret (json 200 (account_json user))
        end
    end).

Definition new_user_json (newUser : User.t) : Json :=
  JObj [("id", JNum (User.id newUser));
        ("email", JStr (User.email newUser));
        ("createdAt", JDate (User.createdAt newUser));
        ("updatedAt", JDate (User.updatedAt newUser))].

(** Register new user: POST /api/register *)
Definition registerUser (email_ password origin : option string)
    (uuid1 uuid2 : string) (now : Z) : DB -> Response * DB :=
  try_catch (
    if falsy email_ || falsy password then ret (send 400 "Missing required fields")
    else if negb (emailRegex_test (str email_))
    then ret (send 422 "Invalid email format")
    else
      userExists <- findFirst db_user
                      (fun u => String.eqb (User.email u) (str email_)) ;;
      match userExists with
      | Some _ => ret (send 400 "User already exists")
      | None =>
          if negb (passwordRegex_test (str password))
          then ret (send 422 "Password does not meet security requirments")
          else
            let hashedPassword := bcrypt_hash (str password) 12 in
            newUser <- create db_user user_clashes
                         (fun i => User.mk i None None None None (str email_) false
                                     (Some hashedPassword) DEFAULT now now) ;;
            let authTokenString := tokenString uuid1 uuid2 in
            authToken <-
              create db_activateToken
                (fun a b => String.eqb (ActivateToken.token a) (ActivateToken.token b))
                (fun i => ActivateToken.mk i authTokenString None
                            (User.id newUser) now now) ;;
            let url := str origin in
            let activateUrl := url ++ "/activate/" ++ ActivateToken.token authToken in
            sendMail (mkProps "Verify your Post Room account email"
                              (User.email newUser)
                              (VerifyEmailHtml activateUrl)) ;;;
            let token := generateToken (User.id newUser) now in
            ret (setHeader_Authorization ("Bearer " ++ token)
                   (json 201 (new_user_json newUser)))
      end).

(** Authenticate a user: POST /api/login *)
Definition loginUser (email_ password : option string) (now : Z)
  : DB -> Response * DB :=
  try_catch (
    if falsy email_ || falsy password then ret (send 400 "Missing required fields")
    else if negb (emailRegex_test (str email_))
    then ret (send 422 "Invalid email format")
    else
      user <- findFirst db_user
                (fun u => String.eqb (User.email u) (str email_)) ;;
      match user with
      | None => ret (send 400 "Incorrect email or password")
      | Some user =>
          if negb (AccountType_eqb (User.provider user) DEFAULT)
             || falsy (User.hashedPassword user)
          then ret (send 400 "Account signed up using a provider")
          else
            let passwordMatch :=
              bcrypt_compare (str password) (str (User.hashedPassword user)) in
            if negb passwordMatch
            then ret (send 400 "Incorrect email or password")
            else
              let token := generateToken (User.id user) now in
              ret (setHeader_Authorization ("Bearer " ++ token)
                     (json 200 (account_json user)))
      end).

(** Send an account delete email confirmation: DELETE /api/user *)
Definition sendAccountDeleteEmail (req_user : ReqUser.t)
    (uuid1 uuid2 : string) (now : Z) : DB -> Response * DB :=
  try_catch (
    let id := ReqUser.id req_user in
    let email_ := ReqUser.email req_user in
    let deleteTokenString := tokenString uuid1 uuid2 in
    deleteToken <-
      create db_deleteToken
        (fun a b => String.eqb (DeleteToken.token a) (DeleteToken.token b))
        (fun i => DeleteToken.mk i deleteTokenString None id now now) ;;
    let confirmDeletionUrl :=
      "http://localhost:3000/delete-account/" ++ DeleteToken.token deleteToken in
    sendMail (mkProps "Account delete confirmation for Post Room account"
                      email_ (DeleteAccountHtml confirmDeletionUrl)) ;;;
    ret (send 200 "email sent")).

(** [db.user.delete]: the store first applies the referential actions of
    the rows that reference the user, then removes the user's row. *)
Definition user_delete (id : Z) : M User.t :=
  fun d =>
    match find (fun u => User.id u =? id) (rows (users d)) with
    | None => (Throw "Record to delete does not exist.", d)
    | Some _ =>
        match referential_actions id d with
        | Throw e => (Throw e, d)
        | Ok d' => delete db_user (fun u => User.id u =? id) d'
        end
    end.

(** Delete an account using deletion token: DELETE /api/user/:token *)
Definition deleteUser (req_user : ReqUser.t) (token_param : string) (now : Z)
  : DB -> Response * DB :=
  try_catch (
    let id := ReqUser.id req_user in
    deleteToken <- findUnique db_deleteToken
                     (fun t => String.eqb (DeleteToken.token t) token_param) ;;
    match deleteToken with
    | None => ret (send 404 "Token not found")
    | Some deleteToken =>
        if DeleteToken.createdAt deleteToken <? now - 24 * 60 * 60 * 1000
        then ret (send 400 "Token is expired")
        else if negb (DeleteToken.userId deleteToken =? id)
        then ret (send 403 "Forbidden")
        else
          user_delete (DeleteToken.userId deleteToken) ;;;
          ret (json 200 (JObj [("message", JStr "account deleted")]))
    end).

(** *** controllers/blogController.ts *)

(** Search for blogs: GET /api/search?query=&skip=0 *)
Definition searchBlogs (req_user : ReqUser.t) (query skip_param : option string)
    (now : Z) : DB -> Response * DB :=
  try_catch (
    if falsy query then ret (send 400 "Please provide a search query")
    else
      let query := str query in
      let skip :=
        if falsy skip_param || negb (isNumeric (str skip_param)) then 0
        else parseInt (str skip_param) in
      view <- read (fun d => blogsWithStarredAndSaved d query skip
                               (ReqUser.id req_user)) ;;
      found <- findMany db_searches
                 (fun s => Searches.userId s =? ReqUser.id req_user) ;;
      let recentSearches := orderBy_desc Searches.createdAt found in
      (if 5 <=? Z.of_nat (List.length recentSearches)
       then for_each (skipn 4 recentSearches)
              (fun s => delete db_searches
                          (fun x => Searches.id x =? Searches.id s))
       else ret tt) ;;;
      isSearchDuplicated <-
        findFirst db_searches
          (fun s => String.eqb (Searches.content s) query
                    && (Searches.userId s =? ReqUser.id req_user)) ;;
      create db_searches no_clash
        (fun i => Searches.mk i (ReqUser.id req_user) query now) ;;;
      match isSearchDuplicated with
      | Some dup =>
          delete db_searches (fun x => Searches.id x =? Searches.id dup) ;;;
          ret tt
      | None => ret tt
      end ;;;
      ret (json 200 view)).

Definition blog_set_draft (v : bool) (now : Z) (b : Blog.t) : Blog.t :=
  Blog.mk (Blog.id b) (Blog.blogId b) (Blog.title b) (Blog.content b)
          (Blog.imageUrl b) v (Blog.authorId b) (Blog.updatedContentAt b)
          (Blog.createdAt b) now.

Definition JOptDate (o : option Z) : Json :=
  match o with Some t => JDate t | None => JNull end.

(** [const { draft, ...rest } = publishedBlog] *)
Definition rest_json (b : Blog.t) : Json :=
  JObj [("id", JNum (Blog.id b));
        ("blogId", JStr (Blog.blogId b));
        ("title", JStr (Blog.title b));
        ("content", JStr (Blog.content b));
        ("imageUrl", JOptStr (Blog.imageUrl b));
        ("authorId", JNum (Blog.authorId b));
        ("updatedContentAt", JOptDate (Blog.updatedContentAt b));
        ("createdAt", JDate (Blog.createdAt b));
        ("updatedAt", JDate (Blog.updatedAt b))].

(** Publish a draft blog: PATCH /api/blog/:id *)
Definition publishBlog (req_user : ReqUser.t) (blogId : string) (now : Z)
  : DB -> Response * DB :=
  try_catch (
    blog <- findUnique db_blog
              (fun b => String.eqb (Blog.blogId b) blogId
                        && Bool.eqb (Blog.draft b) true) ;;
    match blog with
    | None => ret (send 404 "Blog not found")
    | Some blog =>
        if negb (Blog.authorId blog =? ReqUser.id req_user)
        then ret (send 403 "Forbidden")
        else if String.eqb (Blog.title blog) EmptyString
                || String.eqb (Blog.content blog) EmptyString
        then ret (send 400 "Blog title and content cannot be empty")
        else
          publishedBlog <- update db_blog
                             (fun b => String.eqb (Blog.blogId b) blogId)
                             (blog_set_draft false now) ;;
          followers <- findMany db_follow
                         (fun f => Follow.userId f =? Blog.authorId blog) ;;
          (if 0 <? Z.of_nat (List.length followers)
           then for_each followers
                  (fun follower =>
                     create db_notification no_clash
                       (fun i => Notification.mk i (Follow.followerId follower)
                                   (Blog.id blog) false now))
           else ret tt) ;;;
          ret (json 200 (rest_json publishedBlog))
    end).
End Controllers.

(** ** Vocabulary of the statements *)

(** The notification rows written for a list of followers, the first one
    with sequence value [i]. *)
Fixpoint fanout (i : Z) (followers : list Follow.t) (blog_id now : Z)
  : list Notification.t :=
  match followers with
  | [] => []
  | f :: fs =>
      Notification.mk i (Follow.followerId f) blog_id false now
      :: fanout (i + 1) fs blog_id now
  end.

(** The selector [{ blogId, draft: true }] of [publishBlog]. *)
Definition draft_with (blogId : string) (b : Blog.t) : bool :=
  String.eqb (Blog.blogId b) blogId && Bool.eqb (Blog.draft b) true.

(** [blogId String @unique] *)
Definition unique_blogIds (d : DB) : Prop :=
  NoDup (map Blog.blogId (rows (blogs d))).

(** The selectors of [followUser]: the account with a given username, and
    the edge from a follower to a followed account. *)
Definition named (username : string) (u : User.t) : bool :=
  match User.username u with
  | Some n => String.eqb n username
  | None => false
  end.
Definition edge (followed follower : Z) (f : Follow.t) : bool :=
  (Follow.userId f =? followed) && (Follow.followerId f =? follower).

(** The followers of a user: the [Follow] rows that point at them. *)
Definition followers_of (author : Z) (d : DB) : list Follow.t :=
  filter (fun f => Follow.userId f =? author) (rows (follows d)).

(** The recent searches of a user, in table order. *)
Definition searches_of (uid : Z) (d : DB) : list Searches.t :=
  filter (fun s => Searches.userId s =? uid) (rows (searches d)).

(** [id Int @id @default(autoincrement())] on [Searches]: ids are distinct
    and below the next value of the sequence. *)
Definition searches_wf (d : DB) : Prop :=
  NoDup (map Searches.id (rows (searches d)))
  /\ Forall (fun s => Searches.id s < nextId (searches d)) (rows (searches d)).

(** The rows [searchBlogs] deletes before it records a search: those past
    the fourth in the requester's searches ordered by [createdAt]
    descending, when there are five or more. *)
Definition dropped (uid : Z) (d : DB) : list Searches.t :=
  let recent := orderBy_desc Searches.createdAt (searches_of uid d) in
  if 5 <=? Z.of_nat (List.length recent) then skipn 4 recent else [].

(** A row survives the deletion of the rows [del] when its id is none of
    theirs. *)
Definition kept (del : list Searches.t) (x : Searches.t) : bool :=
  negb (existsb (fun s => Searches.id x =? Searches.id s) del).

(** The selector [{ content: query, userId }] of [searchBlogs]. *)
Definition same_search (query : string) (uid : Z) (s : Searches.t) : bool :=
  String.eqb (Searches.content s) query && (Searches.userId s =? uid).

(** The ordering [{ key: desc }]: [a] may come before [b]. *)
Definition descending (A : Type) (key : A -> Z) (a b : A) : Prop :=
  key b <= key a.

(** A row passes [searchBlogs] when it is not trimmed and is not the
    duplicate the handler found. *)
Definition not_row (dup : option Searches.t) (x : Searches.t) : bool :=
  match dup with
  | Some s => negb (Searches.id x =? Searches.id s)
  | None => true
  end.
Definition survives (del : list Searches.t) (dup : option Searches.t)
           (x : Searches.t) : bool :=
  kept del x && not_row dup x.

(** ** Sample collaborators and stores

    Stand-ins for the external libraries, used to run the handlers on
    concrete requests. *)

Module Sample.
(** A session token in the clear: secret, id and expiry (in milliseconds),
    separated by dots. *)
Fixpoint digits (fuel : nat) (n : Z) (acc : string) : string :=
  match fuel with
  | O => acc
  | S fuel' =>
      let acc' := String (ascii_of_N (Z.to_N (48 + n mod 10))) acc in
      if n / 10 =? 0 then acc' else digits fuel' (n / 10) acc'
  end.
Definition decimal (n : Z) : string := digits 40 n EmptyString.

Definition sign (id : Z) (secret expiresIn : string) (now : Z) : string :=
  let span := if String.eqb expiresIn "30d" then 30 * 24 * 3600 * 1000 else 0 in
  secret ++ "." ++ decimal id ++ "." ++ decimal (now + span).

Definition verify (token secret : string) (now : Z) : JwtError + Z :=
  match split_on "." token with
  | [s; i; e] =>
      if negb (String.eqb s secret) then inl (JsonWebTokenError "invalid signature")
      else if parseInt e <=? now then inl TokenExpiredError
      else inr (parseInt i)
  | _ => inl (JsonWebTokenError "jwt malformed")
  end.

(** The referential actions on the deletion of a user, as schema.prisma
    declares them for the relations kept in the store: the user relations
    of AccountDeleteToken and of Blog carry no [onDelete], so the store
    refuses to delete a user while such a row references it; those of
    ActivateToken, PasswordResetToken, Follow (both ends), Notification
    and Searches are [onDelete: Cascade]. *)
Definition references {A} (owner : A -> Z) (id : Z) (t : Table A) : bool :=
  existsb (fun x => owner x =? id) (rows t).

Definition without {A} (owner : A -> Z) (id : Z) (t : Table A) : Table A :=
  mkTable (filter (fun x => negb (owner x =? id)) (rows t)) (nextId t).

Definition foreign_key (constraint : string) : string :=
  "Foreign key constraint failed on the field: " ++ constraint.

Definition onDelete (id : Z) (d : DB) : Outcome DB :=
  if references DeleteToken.userId id (deleteTokens d)
  then Throw (foreign_key "AccountDeleteToken_userId_fkey (index)")
  else if references Blog.authorId id (blogs d)
  then Throw (foreign_key "Blog_authorId_fkey (index)")
  else
    Ok (mkDB (users d)
             (without ActivateToken.userId id (activateTokens d))
             (without PasswordResetToken.userId id (passwordResetTokens d))
             (deleteTokens d)
             (blogs d)
             (without Follow.followerId id (without Follow.userId id (follows d)))
             (without Notification.userId id (notifications d))
             (without Searches.userId id (searches d))).

Definition titles (d : DB) (query : string) (skip uid : Z) : Json :=
  JArr (map (fun b => JStr (Blog.title b))
            (firstn 10 (skipn (Z.to_nat skip)
               (filter (fun b => negb (Blog.draft b)
                                 && String.eqb (Blog.title b) query)
                       (rows (blogs d)))))).

Definition collaborators (mail : MailOptions -> option string) : Collaborators :=
  {| JWT_SECRET := "s3cret";
     NODEMAILER_EMAIL := "noreply@postroom.test";
     bcrypt_hash := fun data _ => "$2b$" ++ data;
     bcrypt_compare := fun data hash => String.eqb ("$2b$" ++ data) hash;
     jwt_sign := sign;
     jwt_verify := verify;
     transporter_sendMail := mail;
     referential_actions := onDelete;
     blogsWithStarredAndSaved := titles |}.

Definition mail_up : Collaborators := collaborators (fun _ => None).
Definition mail_down : Collaborators :=
  collaborators (fun _ => Some "connect ECONNREFUSED").

Definition hour : Z := 3600 * 1000.

Definition alice : User.t :=
  User.mk 1 (Some "Alice") (Some "alice") None None "alice@example.com"
          false (Some "$2b$Old-pass1") DEFAULT 0 0.
Definition bob : User.t :=
  User.mk 2 (Some "Bob") (Some "bob") None None "bob@example.com"
          true (Some "$2b$Bobs-pass2") DEFAULT 0 0.
Definition carol : User.t :=
  User.mk 3 None (Some "carol") None None "carol@example.com"
          true None GOOGLE 0 0.
Definition dave : User.t :=
  User.mk 4 None (Some "dave") None None "dave@example.com"
          true (Some "$2b$Daves-pass4") DEFAULT 0 0.

Definition req (u : User.t) : ReqUser.t :=
  ReqUser.mk (User.id u) (User.imageUrl u) (User.fullname u) (User.username u)
             (User.bio u) (User.email u) (User.isEmailVerified u)
             (User.createdAt u) (User.updatedAt u).

Definition empty {A} : Table A := mkTable [] 1.

(** Alice holds one token of each kind, all created at time 0; Bob has a
    draft and is followed by Alice, Carol and Dave. *)
Definition store : DB :=
  mkDB (mkTable [alice; bob; carol; dave] 5)
       (mkTable [ActivateToken.mk 1 "act-alice" None 1 0 0] 2)
       (mkTable [PasswordResetToken.mk 1 "reset-alice" None 1 0 0] 2)
       (mkTable [DeleteToken.mk 1 "del-alice" None 1 0 0] 2)
       (mkTable [Blog.mk 1 "draft-1" "Hello" "World" None true 2 None 0 0;
                 Blog.mk 2 "draft-2" "" "Body" None true 2 None 0 0;
                 Blog.mk 3 "post-3" "Old" "News" None false 2 None 0 0] 4)
       (mkTable [Follow.mk 1 2 1; Follow.mk 2 2 3; Follow.mk 3 2 4] 4)
       empty
       (mkTable [Searches.mk 1 1 "a" 10; Searches.mk 2 1 "b" 20;
                 Searches.mk 3 1 "c" 30; Searches.mk 4 1 "d" 40;
                 Searches.mk 5 1 "e" 50; Searches.mk 6 2 "a" 60] 7).
End Sample.

(** * The other handlers over the same tables *)

(** ** More JavaScript and Prisma helpers *)

(** [parseInt(string)] without a radix, on any string: leading white space
    is skipped, a sign is read, a [0x] or [0X] prefix selects radix 16, and
    the longest run of digits is converted; [None] stands for [NaN]. *)
Fixpoint trimStart (s : string) : string :=
  match s with
  | String c s' => if is_space c then trimStart s' else s
  | EmptyString => EmptyString
  end.

Definition digit_value (radix : Z) (c : ascii) : option Z :=
  let n := Z.of_N (code c) in
  let v := if (48 <=? n) && (n <=? 57) then n - 48
           else if (97 <=? n) && (n <=? 122) then n - 87
           else if (65 <=? n) && (n <=? 90) then n - 55
           else radix in
  if v <? radix then Some v else None.

Fixpoint digits_value (radix : Z) (s : string) (acc : option Z) : option Z :=
  match s with
  | String c s' =>
      match digit_value radix c with
      | Some v =>
          digits_value radix s'
            (Some (radix * match acc with Some a => a | None => 0 end + v))
      | None => acc
      end
  | EmptyString => acc
  end.

Definition parseInt_js (s : string) : option Z :=
  let s1 := trimStart s in
  let (sign, s2) :=
    match s1 with
    | String "-" rest => (-1, rest)
    | String "+" rest => (1, rest)
    | _ => (1, s1)
    end in
  let (radix, s3) :=
    match s2 with
    | String "0" (String "x" rest) => (16, rest)
    | String "0" (String "X" rest) => (16, rest)
    | _ => (10, s2)
    end in
  match digits_value radix s3 None with
  | Some m => Some (sign * m)
  | None => None
  end.

(** A number handed to the store where the schema has an [Int]: [NaN] and
    values outside 32 bits are refused with an error. (A value that
    [parseInt] rounds is beyond 32 bits before and after rounding, so the
    exact value decides.) *)
Definition int_arg (v : option Z) : M Z :=
  match v with
  | Some z =>
      if (- 2 ^ 31 <=? z) && (z <? 2 ^ 31) then ret z
      else throw "Unable to fit integer value into an INT4"
  | None => throw "Invalid value provided. Expected Int, provided NaN"
  end.

(** [updateMany]: rewrites every row satisfying [where] and returns their
    number. *)
Definition updateMany (A : Type) (r : TableRef A) (where_ : A -> bool)
           (data : A -> A) : M Z :=
  fun d =>
    let t := tget r d in
    (Ok (Z.of_nat (List.length (filter where_ (rows t)))),
     tset r (mkTable (map (fun x => if where_ x then data x else x) (rows t))
                     (nextId t)) d).

(** [findMany] with [orderBy: { key: desc }]. *)
Definition findMany_desc (A : Type) (r : TableRef A) (where_ : A -> bool)
           (key : A -> Z) : M (list A) :=
  fun d => (Ok (orderBy_desc key (filter where_ (rows (tget r d)))), d).

(** A list of optional values, when none is missing. *)
Fixpoint all_some (A : Type) (l : list (option A)) : option (list A) :=
  match l with
  | [] => Some []
  | Some x :: l' =>
      match all_some l' with Some xs => Some (x :: xs) | None => None end
  | None :: _ => None
  end.

(** [s.toLowerCase()] on code units below 256. *)
Definition lower (c : ascii) : ascii :=
  let n := code c in
  if ((65 <=? n) && (n <=? 90)
      || (192 <=? n) && (n <=? 222) && negb (n =? 215))%N
  then ascii_of_N (n + 32) else c.
Fixpoint toLowerCase (s : string) : string :=
  match s with
  | String c s' => String (lower c) (toLowerCase s')
  | EmptyString => EmptyString
  end.

(** [s[2]], or the empty string that [join] puts for [undefined]. *)
Definition third (s : string) : string :=
  match String.get 2 s with
  | Some c => String c EmptyString
  | None => EmptyString
  end.

(** [[a-z]] *)
Definition is_lower (c : ascii) : bool :=
  let n := code c in ((97 <=? n) && (n <=? 122))%N.

(** The username pattern of [editUser]: not starting with a digit, and one
    or more characters among the lower-case letters, the digits and the
    dot, to the end of the input. *)
Definition usernameRegex_test (s : string) : bool :=
  match s with
  | String c _ =>
      negb (is_digit c)
      && string_forallb (fun c => is_lower c || is_digit c || Ascii.eqb c ".") s
  | EmptyString => false
  end.

Definition len (s : string) : Z := Z.of_nat (String.length s).

(** ** What the store holds beyond the tables modelled here *)

(** The categories, stars, comments and saved lists of a blog, as the
    handlers read them. *)
Class Relations := {
  (** [categories: { include: { category: true } }] of a blog *)
  categories_of : Z -> Json;
  (** [_count.stars] and [_count.comments] of a blog *)
  count_stars : Z -> Z;
  count_comments : Z -> Z;
  (** whether [stars] and [saves] of a blog, restricted to a user, are
      non-empty *)
  starred_by : Z -> Z -> bool;
  saved_by : Z -> Z -> bool }.

(** ** controllers/userController.ts, continued *)

Section MoreControllers.
Context `{Collaborators}.
Context `{Relations}.
Local Open Scope handler_scope.

(** Unfollow an account: DELETE /api/follow/:username *)
Definition unFollowUser (req_user : ReqUser.t) (username : string)
  : DB -> Response * DB :=
  try_catch (
    user <- findUnique db_user (named username) ;;
    match user with
    | None => ret (send 404 "Account not found")
    | Some user =>
        isUserFollowing <-
          findFirst db_follow (edge (User.id user) (ReqUser.id req_user)) ;;
        match isUserFollowing with
        | None => ret (send 400 "You do not follow this account")
        | Some isUserFollowing =>
            follow <- delete db_follow
                        (fun f => Follow.id f =? Follow.id isUserFollowing) ;;
            ret (json 200 (follow_json follow))
        end
    end).

Definition search_json (s : Searches.t) : Json :=
  JObj [("id", JNum (Searches.id s)); ("userId", JNum (Searches.userId s));
        ("content", JStr (Searches.content s));
        ("createdAt", JDate (Searches.createdAt s))].

(** Get user's recent searches: GET /api/search/recent *)
Definition recentSearches (req_user : ReqUser.t) : DB -> Response * DB :=
  try_catch (
    searches_ <- findMany_desc db_searches
                   (fun s => Searches.userId s =? ReqUser.id req_user)
                   Searches.createdAt ;;
    ret (json 200 (JArr (map search_json searches_)))).

(** Remove a user's recent search: DELETE /api/search/:id *)
Definition deleteSearch (req_user : ReqUser.t) (id_param : string)
  : DB -> Response * DB :=
  try_catch (
    searchId <- int_arg (parseInt_js id_param) ;;
    search <- findUnique db_searches (fun s => Searches.id s =? searchId) ;;
    match search with
    | None => ret (send 404 "Recent search not found")
    | Some search =>
        if negb (Searches.userId search =? ReqUser.id req_user)
        then ret (send 403 "Forbidden")
        else
          delete db_searches (fun s => Searches.id s =? Searches.id search) ;;;
          ret (json 200 (search_json search))
    end).

(** The [select] of [getNotifications] on one row: the notification with
    its blog and the blog's author. Both relations are required ones. *)
Definition notification_json (d : DB) (n : Notification.t) : option Json :=
  match find (fun b => Blog.id b =? Notification.blogId n) (rows (blogs d)) with
  | None => None
  | Some blog =>
      match find (fun u => User.id u =? Blog.authorId blog) (rows (users d)) with
      | None => None
      | Some author =>
          Some (JObj [("id", JNum (Notification.id n));
                      ("blog",
                       JObj [("id", JNum (Blog.id blog));
                             ("blogId", JStr (Blog.blogId blog));
                             ("imageUrl", JOptStr (Blog.imageUrl blog));
                             ("title", JStr (Blog.title blog));
                             ("author",
                              JObj [("id", JNum (User.id author));
                                    ("fullname", JOptStr (User.fullname author));
                                    ("username", JOptStr (User.username author));
                                    ("imageUrl", JOptStr (User.imageUrl author))])]);
                      ("createdAt", JDate (Notification.createdAt n));
                      ("seen", JBool (Notification.seen n))])
      end
  end.

(** Get all user notifications: GET /api/notification *)
Definition getNotifications (req_user : ReqUser.t) : DB -> Response * DB :=
  try_catch (
    found <- findMany_desc db_notification
               (fun n => Notification.userId n =? ReqUser.id req_user)
               Notification.createdAt ;;
    selected <- read (fun d => all_some (map (notification_json d) found)) ;;
    match selected with
    | Some notifications_ => ret (json 200 (JArr notifications_))
    | None => throw "Inconsistent query result: a required relation is missing"
    end).

Definition notification_set_seen (v : bool) (n : Notification.t) : Notification.t :=
  Notification.mk (Notification.id n) (Notification.userId n)
                  (Notification.blogId n) v (Notification.createdAt n).

(** Mark all user notifications as seen: PATCH /api/notification *)
Definition markNotificationsAsSeen (req_user : ReqUser.t) : DB -> Response * DB :=
  try_catch (
    count <- updateMany db_notification
               (fun n => Notification.userId n =? ReqUser.id req_user)
               (notification_set_seen true) ;;
    ret (json 200 (JObj [("count", JNum count)]))).

Definition user_set_profile (fullname_ username_ bio_ imageUrl_ : option string)
           (now : Z) (u : User.t) : User.t :=
  User.mk (User.id u) fullname_ username_ imageUrl_ bio_ (User.email u)
          (User.isEmailVerified u) (User.hashedPassword u) (User.provider u)
          (User.createdAt u) now.

(** [db.user.update] by id when the data may touch a [@unique] column: the
    store refuses a row that would clash with another user's. *)
Definition user_update_unique (id : Z) (data : User.t -> User.t) : M User.t :=
  fun d =>
    match find (fun u => User.id u =? id) (rows (users d)) with
    | None => (Throw "Record to update not found.", d)
    | Some u =>
        if existsb (fun x => negb (User.id x =? id) && user_clashes (data u) x)
                   (rows (users d))
        then (Throw "Unique constraint failed", d)
        else update db_user (fun u => User.id u =? id) data d
    end.

Definition edited_json (user : User.t) : Json :=
  JObj [("id", JNum (User.id user));
        ("fullname", JOptStr (User.fullname user));
        ("username", JOptStr (User.username user));
        ("email", JStr (User.email user));
        ("bio", JOptStr (User.bio user));
        ("imageUrl", JOptStr (User.imageUrl user))].

(** Edit user data: PUT /api/user *)
Definition editUser (req_user : ReqUser.t)
    (fullname_ username_ bio_ imageUrl_ : option string) (now : Z)
  : DB -> Response * DB :=
  try_catch (
    if falsy fullname_ && falsy username_ && falsy bio_ && falsy imageUrl_
    then ret (send 400 "Missing fields")
    else if negb (falsy fullname_)
            && ((50 <? len (str fullname_)) || (len (str fullname_) <? 3))
    then ret (send 400 "Fullname length is not supported")
    else
      let defaultFullname :=
        if negb (falsy fullname_) then fullname_ else ReqUser.fullname req_user in
      let continue_ (defaultUsername : option string) : M Response :=
        if negb (falsy bio_) && (250 <? len (str bio_))
        then ret (send 422 "Bio is too long")
        else
          let defaultBio :=
            if negb (falsy bio_) then bio_ else ReqUser.bio req_user in
          let defaultImageUrl :=
            if falsy imageUrl_ then ReqUser.imageUrl req_user
            else if String.eqb (str imageUrl_) "none" then None
            else imageUrl_ in
          user <- user_update_unique (ReqUser.id req_user)
                    (user_set_profile defaultFullname defaultUsername defaultBio
                                      defaultImageUrl now) ;;
          ret (json 200 (edited_json user)) in
      if negb (falsy username_) then
        if negb (usernameRegex_test (str username_))
           || (50 <? len (str username_)) || (len (str username_) <? 3)
        then ret (send 422 "Username format is not supported")
        else
          usernameTaken <- findUnique db_user (named (str username_)) ;;
          match usernameTaken with
          | Some _ => ret (send 400 "Username is taken")
          | None => continue_ username_
          end
      else continue_ (ReqUser.username req_user)).

Definition provider_json (p : AccountType) : Json :=
  JStr match p with
       | DEFAULT => "DEFAULT" | GOOGLE => "GOOGLE"
       | FACEBOOK => "FACEBOOK" | APPLE => "APPLE"
       end.

(** Register or Login new user with provider: POST /api/oauth. [userRes] is
    what [axios.get] on Google's [userinfo] gives for the token: the
    [data.email] of the answer, if it has one, or the error thrown. *)
Definition authorizeUserWithProvider (token provider_ : option string)
    (userRes : Outcome (option string)) (now : Z) : DB -> Response * DB :=
  try_catch (
    if falsy token || falsy provider_ then ret (send 400 "Missing required fields")
    else if String.eqb (toLowerCase (str provider_)) "google" then
      match userRes with
      | Throw e => throw e
      | Ok data_email =>
          userExists <-
            findFirst db_user
              (fun u => match data_email with
                        | Some e => String.eqb (User.email u) e
                        | None => true
                        end) ;;
          match userExists with
          | Some userExists =>
              let JWTToken := generateToken (User.id userExists) now in
              ret (setHeader_Authorization ("Bearer " ++ JWTToken)
                     (json 200
                        (JObj [("id", JNum (User.id userExists));
                               ("fullname", JOptStr (User.fullname userExists));
                               ("username", JOptStr (User.username userExists));
                               ("email", JStr (User.email userExists));
                               ("provider", provider_json (User.provider userExists));
                               ("createdAt", JDate (User.createdAt userExists));
                               ("updatedAt", JDate (User.updatedAt userExists))])))
          | None =>
              match data_email with
              | None => throw "Argument email is missing"
              | Some e =>
                  newUser <- create db_user user_clashes
                               (fun i => User.mk i None None None None e true None
                                           GOOGLE now now) ;;
                  let JWTToken := generateToken (User.id newUser) now in
                  ret (setHeader_Authorization ("Bearer " ++ JWTToken)
                         (json 201
                            (JObj [("id", JNum (User.id newUser));
                                   ("email", JStr (User.email newUser));
                                   ("fullname", JOptStr (User.fullname newUser));
                                   ("username", JOptStr (User.username newUser));
                                   ("provider", provider_json (User.provider newUser));
                                   ("createdAt", JDate (User.createdAt newUser));
                                   ("updatedAt", JDate (User.updatedAt newUser))])))
              end
          end
      end
    else ret (send 400 "Invalid provider name")).

(** Get user data: GET /api/me *)
Definition getUser (req_user : ReqUser.t) : DB -> Response * DB :=
  try_catch (
    ret (json 200
           (JObj [("id", JNum (ReqUser.id req_user));
                  ("imageUrl", JOptStr (ReqUser.imageUrl req_user));
                  ("fullname", JOptStr (ReqUser.fullname req_user));
                  ("username", JOptStr (ReqUser.username req_user));
                  ("email", JStr (ReqUser.email req_user));
                  ("createdAt", JDate (ReqUser.createdAt req_user));
                  ("updatedAt", JDate (ReqUser.updatedAt req_user))]))).
End MoreControllers.

Section MoreControllers2.
Context `{Collaborators}.
Context `{Relations}.
Local Open Scope handler_scope.

(** The rows of the relations [followers] and [followed] of a user.
    [followers] is the relation [UserFollowers], whose key is
    [Follow.followerId]; [followed] is [UserFollowed], whose key is
    [Follow.userId]. *)
Definition user_followers (id : Z) (d : DB) : list Follow.t :=
  filter (fun f => Follow.followerId f =? id) (rows (follows d)).
Definition user_followed (id : Z) (d : DB) : list Follow.t :=
  filter (fun f => Follow.userId f =? id) (rows (follows d)).

Definition profile_blog_json (b : Blog.t) : Json :=
  JObj [("id", JNum (Blog.id b));
        ("blogId", JStr (Blog.blogId b));
        ("title", JStr (Blog.title b));
        ("content", JStr (Blog.content b));
        ("imageUrl", JOptStr (Blog.imageUrl b));
        ("createdAt", JDate (Blog.createdAt b));
        ("updatedAt", JDate (Blog.updatedAt b));
        ("categories", categories_of (Blog.id b));
        ("_count", JObj [("stars", JNum (count_stars (Blog.id b)))])].

(** Get a user profile: GET /api/user/:username *)
Definition getProfile (req_user : ReqUser.t) (username : string)
  : DB -> Response * DB :=
  try_catch (
    user <- findUnique db_user (named username) ;;
    match user with
    | None => ret (send 404 "Account not found")
    | Some user =>
        followers_ <- read (user_followers (User.id user)) ;;
        followed_ <- read (user_followed (User.id user)) ;;
        userBlogs <- findMany_desc db_blog
                       (fun b => (Blog.authorId b =? User.id user)
                                 && Bool.eqb (Blog.draft b) false)
                       Blog.createdAt ;;
        let response :=
          [("id", JNum (User.id user));
           ("fullname", JOptStr (User.fullname user));
           ("bio", JOptStr (User.bio user));
           ("username", JOptStr (User.username user));
           ("imageUrl", JOptStr (User.imageUrl user));
           ("_count",
            JObj [("followers", JNum (Z.of_nat (List.length followers_)));
                  ("followed", JNum (Z.of_nat (List.length followed_)))]);
           ("blogs", JArr (map profile_blog_json userBlogs))] in
        if negb (User.id user =? ReqUser.id req_user) then
          isFollowing <-
            findFirst db_follow (edge (User.id user) (ReqUser.id req_user)) ;;
          ret (json 200
                 (JObj (response
                        ++ [("following",
                             JBool match isFollowing with
                                   | Some _ => true
                                   | None => false
                                   end)])))
        else ret (json 200 (JObj response))
    end).

(** *** controllers/blogController.ts, continued *)

Definition blog_json (b : Blog.t) : Json :=
  JObj [("id", JNum (Blog.id b));
        ("blogId", JStr (Blog.blogId b));
        ("title", JStr (Blog.title b));
        ("content", JStr (Blog.content b));
        ("imageUrl", JOptStr (Blog.imageUrl b));
        ("draft", JBool (Blog.draft b));
        ("authorId", JNum (Blog.authorId b));
        ("updatedContentAt", JOptDate (Blog.updatedContentAt b));
        ("createdAt", JDate (Blog.createdAt b));
        ("updatedAt", JDate (Blog.updatedAt b))].

(** The 16-character id of [createBlog], from the successive values of
    [Math.random().toString(36)]: the third character of each of the first
    16. *)
Definition randomBlogId (draws : list string) : string :=
  String.concat EmptyString (map third (firstn 16 draws)).

(** Create a blog: POST /api/blog *)
Definition createBlog (req_user : ReqUser.t) (title_ content_ : option string)
    (draws : list string) (now : Z) : DB -> Response * DB :=
  try_catch (
    if falsy title_ || falsy content_ then ret (send 400 "Missing required fields")
    else
      let blogId := randomBlogId draws in
      blog <- create db_blog
                (fun a b => String.eqb (Blog.blogId a) (Blog.blogId b))
                (fun i => Blog.mk i blogId (str title_) (str content_) None true
                            (ReqUser.id req_user) None now now) ;;
      ret (json 201 (blog_json blog))).

(** [db.blog.delete]: the notifications of the blog go with it
    ([onDelete: Cascade]). *)
Definition blog_delete (id : Z) : M Blog.t :=
  deleted <- delete db_blog (fun b => Blog.id b =? id) ;;
  (fun d =>
     (Ok deleted,
      tset db_notification
        (mkTable (filter (fun n => negb (Notification.blogId n =? id))
                         (rows (notifications d)))
                 (nextId (notifications d))) d)).

(** Delete a blog: DELETE /api/blog/:id *)
Definition deleteBlog (req_user : ReqUser.t) (id_param : string)
  : DB -> Response * DB :=
  try_catch (
    blogId <- int_arg (parseInt_js id_param) ;;
    blog <- findUnique db_blog (fun b => Blog.id b =? blogId) ;;
    match blog with
    | None => ret (send 404 "Blog not found")
    | Some blog =>
        if negb (Blog.authorId blog =? ReqUser.id req_user)
        then ret (send 403 "Forbidden")
        else
          deletedBlog <- blog_delete blogId ;;
          ret (json 200 (blog_json deletedBlog))
    end).

(** Get a blog: GET /api/blog/:id. The requester is [{ id: 0 }] without a
    token; with a token that verifies it is the stored user of the decoded
    id, or [null] when there is none, and reading [user.id] of [null]
    throws. *)
Definition getBlog (authorization_ : option string) (blogId : string) (now : Z)
  : DB -> Response * DB :=
  try_catch (
    let token :=
      match authorization_ with
      | Some h => nth_error (split_on " " h) 1
      | None => None
      end in
    requester <-
      (if negb (falsy token) then
         catch
           (match jwt_verify (str token) JWT_SECRET now with
            | inl _ => ret (inl (send 401 "Invalid token"))
            | inr decoded_id =>
                user <- findUnique db_user (fun u => User.id u =? decoded_id) ;;
                ret (inr (option_map User.id user))
            end)
           (fun _ => ret (inl (send 401 "Invalid token")))
       else ret (inr (Some 0))) ;;
    match requester with
    | inl res => ret res
    | inr None => throw "Cannot read properties of null (reading 'id')"
    | inr (Some user_id) =>
        blog <- findUnique db_blog (fun b => String.eqb (Blog.blogId b) blogId) ;;
        match blog with
        | None => ret (send 404 "Blog not found")
        | Some blog =>
            author <- findUnique db_user (fun u => User.id u =? Blog.authorId blog) ;;
            match author with
            | None =>
                throw "Inconsistent query result: a required relation is missing"
            | Some author =>
                if Blog.draft blog && negb (User.id author =? user_id)
                then ret (send 404 "Blog not found")
                else
                  isFollowingAuthor <-
                    (if negb (user_id =? 0) then
                       follow <- findFirst db_follow (edge (User.id author) user_id) ;;
                       ret match follow with Some _ => true | None => false end
                     else ret false) ;;
                  ret (json 200
                         (JObj [("id", JNum (Blog.id blog));
                                ("blogId", JStr (Blog.blogId blog));
                                ("title", JStr (Blog.title blog));
                                ("content", JStr (Blog.content blog));
                                ("imageUrl", JOptStr (Blog.imageUrl blog));
                                ("draft", JBool (Blog.draft blog));
                                ("createdAt", JDate (Blog.createdAt blog));
                                ("updatedAt", JDate (Blog.updatedAt blog));
                                ("categories", categories_of (Blog.id blog));
                                ("author",
                                 JObj [("id", JNum (User.id author));
                                       ("imageUrl", JOptStr (User.imageUrl author));
                                       ("fullname", JOptStr (User.fullname author));
                                       ("username", JOptStr (User.username author))]);
                                ("_count",
                                 JObj [("stars", JNum (count_stars (Blog.id blog)));
                                       ("comments",
                                        JNum (count_comments (Blog.id blog)))]);
                                ("starred", JBool (starred_by (Blog.id blog) user_id));
                                ("saved", JBool (saved_by (Blog.id blog) user_id));
                                ("following", JBool isFollowingAuthor)]))
            end
        end
    end).
End MoreControllers2.

(** ** Vocabulary of the further statements *)

(** [id Int @id @default(autoincrement())] on a table: ids are distinct and
    below the next value of the sequence. *)
Definition table_wf (A : Type) (id : A -> Z) (t : Table A) : Prop :=
  NoDup (map id (rows t)) /\ Forall (fun x => id x < nextId t) (rows t).

(** The notifications of a user, in table order. *)
Definition notifications_of (uid : Z) (d : DB) : list Notification.t :=
  filter (fun n => Notification.userId n =? uid) (rows (notifications d)).

(** What [markNotificationsAsSeen] does to one row when [rid] asks. *)
Definition seen_by_requester (rid : Z) (n : Notification.t) : Notification.t :=
  if Notification.userId n =? rid then notification_set_seen true n else n.

(** The searches of a user left when the one with id [sid] is removed. *)
Definition without_search (sid : Z) (d : DB) : list Searches.t :=
  filter (fun s => negb (Searches.id s =? sid)) (rows (searches d)).

(** The columns of an account that a profile edit never touches. *)
Definition credentials (u : User.t)
  : Z * string * bool * option string * AccountType * Z :=
  (User.id u, User.email u, User.isEmailVerified u, User.hashedPassword u,
   User.provider u, User.createdAt u).

(** The selectors of a user by id and by email. *)
Definition with_id (id : Z) (u : User.t) : bool := User.id u =? id.
Definition with_email (e : string) (u : User.t) : bool :=
  String.eqb (User.email u) e.

(** Sample relations: no category, star, comment or saved list. *)
Module Sample2.
Definition relations : Relations :=
  {| categories_of := fun _ => JArr [];
     count_stars := fun _ => 0;
     count_comments := fun _ => 0;
     starred_by := fun _ _ => false;
     saved_by := fun _ _ => false |}.
End Sample2.

(** * Properties *)

(** ** The store operations *)

Section StoreFacts.
Variable A : Type.

Lemma update_first_found (p : A -> bool) (f : A -> A) (l : list A) (x : A) :
  find p l = Some x ->
  exists l', update_first p f l = Some (f x, l') /\ In (f x) l'
             /\ List.length l' = List.length l.
Proof.
  induction l as [|y l IH]; simpl; [discriminate|].
  destruct (p y) eqn:E; intros Hx.
  - inversion Hx; subst. eexists; repeat split; simpl; auto.
  - destruct (IH Hx) as (l' & -> & Hin & Hlen).
    eexists; repeat split; simpl; auto.
Qed.

End StoreFacts.

(** ** Clock arithmetic *)

Lemma more_than_24_hours_spec (a b : Z) :
  more_than_24_hours a b = (24 * 3600 * 1000 <? a - b).
Proof.
  unfold more_than_24_hours, hours_between, Qle_bool, Qdiv, Qmult, Qinv, inject_Z.
  simpl. destruct (Z.leb_spec ((a - b) * 1 * 1) 86400000);
    destruct (Z.ltb_spec 86400000 (a - b)); simpl; try reflexivity; lia.
Qed.

(** Unfolding the handler frame. *)
Ltac proj :=
  cbn [tget tset db_user db_activateToken db_passwordResetToken db_deleteToken
       db_blog db_follow db_notification db_searches rows nextId
       users activateTokens passwordResetTokens deleteTokens blogs follows
       notifications searches fst snd negb orb andb AccountType_eqb].
Ltac run_reads :=
  unfold try_catch, bind, ret, throw, catch, read,
         findUnique, findFirst, findMany, update;
  proj.
Ltac run := run_reads; unfold delete, create; proj.

(** ** Single-use tokens *)

Section Tokens.
Context `{Collaborators}.

Lemma reset_token_expired (p : string) (pw : option string) (now : Z) (d : DB)
      (tok : PasswordResetToken.t) :
  falsy pw = false ->
  find (fun t => String.eqb (PasswordResetToken.token t) p)
       (rows (passwordResetTokens d)) = Some tok ->
  now - PasswordResetToken.createdAt tok > day ->
  resetAccountPassword p pw now d = (send 400 "Token expired or not valid", d).
Proof.
  intros Hpw Hf Hage. unfold resetAccountPassword. rewrite Hpw. run.
  rewrite Hf, more_than_24_hours_spec.
  unfold day in Hage.
  destruct (Z.ltb_spec (24 * 3600 * 1000) (now - PasswordResetToken.createdAt tok));
    [reflexivity | lia].
Qed.

(** Nothing here depends on [resetAt]: a token that was already used passes
    like a fresh one. *)
Lemma reset_token_in_time (p : string) (pw : option string) (now : Z) (d : DB)
      (tok : PasswordResetToken.t) (u : User.t) :
  falsy pw = false ->
  find (fun t => String.eqb (PasswordResetToken.token t) p)
       (rows (passwordResetTokens d)) = Some tok ->
  now - PasswordResetToken.createdAt tok <= day ->
  passwordRegex_test (str pw) = true ->
  find (fun u => User.id u =? PasswordResetToken.userId tok)
       (rows (users d)) = Some u ->
  exists d',
    resetAccountPassword p pw now d
    = (json 200 (profile_json
                   (user_set_hashedPassword (bcrypt_hash (str pw) 12) now u)), d')
    /\ In (user_set_hashedPassword (bcrypt_hash (str pw) 12) now u)
          (rows (users d')).
Proof.
  intros Hpw Hf Hage Hre Hu. unfold resetAccountPassword. rewrite Hpw. run.
  rewrite Hf, more_than_24_hours_spec.
  unfold day in Hage.
  destruct (Z.ltb_spec (24 * 3600 * 1000) (now - PasswordResetToken.createdAt tok));
    [lia|].
  rewrite Hre. cbn [negb].
  destruct (update_first_found _ (user_set_hashedPassword (bcrypt_hash (str pw) 12) now)
              _ Hu) as (l' & -> & Hin & _).
  run.
  assert (Hself : find (fun t => PasswordResetToken.id t =? PasswordResetToken.id tok)
                    (rows (passwordResetTokens d)) <> None).
  { apply find_some in Hf. destruct Hf as [Hin' _].
    intros Hn. apply (find_none _ _ Hn) in Hin'. rewrite Z.eqb_refl in Hin'.
    discriminate. }
  destruct (find (fun t => PasswordResetToken.id t =? PasswordResetToken.id tok)
              (rows (passwordResetTokens d))) as [tk|] eqn:Ft; [|congruence].
  destruct (update_first_found _ (token_set_resetAt now now) _ Ft) as (l2 & -> & _).
  eexists; split; [reflexivity|]. exact Hin.
Qed.

Lemma delete_token_expired (r : ReqUser.t) (p : string) (now : Z) (d : DB)
      (tok : DeleteToken.t) :
  find (fun t => String.eqb (DeleteToken.token t) p)
       (rows (deleteTokens d)) = Some tok ->
  now - DeleteToken.createdAt tok > day ->
  deleteUser r p now d = (send 400 "Token is expired", d).
Proof.
  intros Hf Hage. unfold deleteUser. run. rewrite Hf. unfold day in Hage.
  destruct (Z.ltb_spec (DeleteToken.createdAt tok) (now - 24 * 60 * 60 * 1000));
    [reflexivity | lia].
Qed.

Lemma delete_token_in_time (r : ReqUser.t) (p : string) (now : Z) (d : DB)
      (tok : DeleteToken.t) :
  find (fun t => String.eqb (DeleteToken.token t) p)
       (rows (deleteTokens d)) = Some tok ->
  now - DeleteToken.createdAt tok <= day ->
  deleteUser r p now d
  = if DeleteToken.userId tok =? ReqUser.id r
    then try_catch
           (bind (user_delete (DeleteToken.userId tok))
                 (fun _ => ret (json 200 (JObj [("message", JStr "account deleted")]))))
           d
    else (send 403 "Forbidden", d).
Proof.
  intros Hf Hage. unfold deleteUser. run. rewrite Hf. unfold day in Hage.
  destruct (Z.ltb_spec (DeleteToken.createdAt tok) (now - 24 * 60 * 60 * 1000));
    [lia|].
  destruct (DeleteToken.userId tok =? ReqUser.id r); reflexivity.
Qed.

(** Past its checks the handler answers with what [db.user.delete] does:
    the error of the store when the referential actions refuse the
    deletion, and otherwise 200 once the row of the user is gone. *)
Lemma delete_token_in_time_outcome (r : ReqUser.t) (p : string) (now : Z) (d : DB)
      (tok : DeleteToken.t) (u : User.t) :
  find (fun t => String.eqb (DeleteToken.token t) p)
       (rows (deleteTokens d)) = Some tok ->
  now - DeleteToken.createdAt tok <= day ->
  DeleteToken.userId tok = ReqUser.id r ->
  find (fun u => User.id u =? DeleteToken.userId tok) (rows (users d)) = Some u ->
  match referential_actions (DeleteToken.userId tok) d with
  | Throw e =>
      deleteUser r p now d = (json 500 (JObj [("message", JStr e)]), d)
  | Ok d1 =>
      users d1 = users d ->
      deleteUser r p now d
      = (json 200 (JObj [("message", JStr "account deleted")]),
         tset db_user
              (mkTable (filter (fun x => negb (User.id x =? DeleteToken.userId tok))
                               (rows (users d)))
                       (nextId (users d)))
              d1)
  end.
Proof.
  intros Hf Hage Hown Hu.
  rewrite (delete_token_in_time r p now d Hf Hage), Hown, Z.eqb_refl.
  rewrite <- Hown. unfold try_catch, bind, user_delete. rewrite Hu.
  destruct (referential_actions (DeleteToken.userId tok) d) as [d1|e];
    [|reflexivity].
  intros Husers. unfold delete. proj. rewrite Husers, Hu. reflexivity.
Qed.

Lemma activation_token_any_age (p : string) (now : Z) (d : DB)
      (tok : ActivateToken.t) (u : User.t) :
  find (fun t => String.eqb (ActivateToken.token t) p)
       (rows (activateTokens d)) = Some tok ->
  find (fun u => (User.id u =? ActivateToken.userId tok)
                 && Bool.eqb (User.isEmailVerified u) true)
       (rows (users d)) = None ->
  find (fun u => User.id u =? ActivateToken.userId tok)
       (rows (users d)) = Some u ->
  exists d',
    activateAccount p now d
    = (json 200 (account_json (user_set_isEmailVerified true now u)), d')
    /\ In (user_set_isEmailVerified true now u) (rows (users d')).
Proof.
  intros Hf Hv Hu. unfold activateAccount. run. rewrite Hf, Hv.
  destruct (update_first_found _ (user_set_isEmailVerified true now) _ Hu)
    as (l' & -> & Hin & _).
  eexists; split; [reflexivity | exact Hin].
Qed.
End Tokens.

(** C1, as the handlers have it. A password-reset token and a deletion
    token are refused as expired once more than 24 hours have passed since
    their creation. At 23 hours 59 minutes an unconsumed token passes: the
    reset handler (given a password that meets the policy) answers 200 with
    the token's user, whose password hash it has replaced; the deletion
    handler, called by the token's user, calls [db.user.delete] on that
    user and answers with the outcome of the call, 200 with the row of the
    user removed when the store carries the deletion out and 500 with the
    store as it was when the store refuses it. An unconsumed activation
    token carries no validity window: whatever its age, it activates its
    user as long as that user is not verified yet. *)
Theorem single_use_token_window `{Collaborators} (d : DB) (now : Z) :
  (forall p pw tok,
      falsy pw = false ->
      find (fun t => String.eqb (PasswordResetToken.token t) p)
           (rows (passwordResetTokens d)) = Some tok ->
      (now - PasswordResetToken.createdAt tok > day ->
       resetAccountPassword p pw now d = (send 400 "Token expired or not valid", d))
      /\ (PasswordResetToken.resetAt tok = None ->
          now - PasswordResetToken.createdAt tok = day - minute ->
          passwordRegex_test (str pw) = true ->
          forall u,
            find (fun u => User.id u =? PasswordResetToken.userId tok)
                 (rows (users d)) = Some u ->
            exists u' d',
              resetAccountPassword p pw now d = (json 200 (profile_json u'), d')
              /\ User.id u' = PasswordResetToken.userId tok
              /\ User.hashedPassword u' = Some (bcrypt_hash (str pw) 12)
              /\ In u' (rows (users d'))))
  /\ (forall r p tok,
      find (fun t => String.eqb (DeleteToken.token t) p)
           (rows (deleteTokens d)) = Some tok ->
      (now - DeleteToken.createdAt tok > day ->
       deleteUser r p now d = (send 400 "Token is expired", d))
      /\ (DeleteToken.deleteAt tok = None ->
          now - DeleteToken.createdAt tok = day - minute ->
          DeleteToken.userId tok = ReqUser.id r ->
          forall u,
            find (fun u => User.id u =? DeleteToken.userId tok)
                 (rows (users d)) = Some u ->
            match referential_actions (DeleteToken.userId tok) d with
            | Throw e =>
                deleteUser r p now d = (json 500 (JObj [("message", JStr e)]), d)
            | Ok d1 =>
                users d1 = users d ->
                exists d',
                  deleteUser r p now d
                  = (json 200 (JObj [("message", JStr "account deleted")]), d')
                  /\ (forall x, In x (rows (users d')) <->
                                In x (rows (users d))
                                /\ User.id x <> DeleteToken.userId tok)
                  /\ ~ In u (rows (users d'))
            end))
  /\ (forall p tok u,
      find (fun t => String.eqb (ActivateToken.token t) p)
           (rows (activateTokens d)) = Some tok ->
      ActivateToken.activatedAt tok = None ->
      find (fun u => (User.id u =? ActivateToken.userId tok)
                     && Bool.eqb (User.isEmailVerified u) true)
           (rows (users d)) = None ->
      find (fun u => User.id u =? ActivateToken.userId tok)
           (rows (users d)) = Some u ->
      exists u' d',
        activateAccount p now d = (json 200 (account_json u'), d')
        /\ User.id u' = ActivateToken.userId tok
        /\ User.isEmailVerified u' = true
        /\ In u' (rows (users d'))).
Proof.
  split; [|split].
  - intros p pw tok Hpw Hf; split.
    + now apply reset_token_expired.
    + intros _ Hage Hre u Hu.
      assert (Hle : now - PasswordResetToken.createdAt tok <= day)
        by (unfold day, minute in *; lia).
      destruct (reset_token_in_time p pw now d Hpw Hf Hle Hre Hu) as (d' & E & Hin).
      exists (user_set_hashedPassword (bcrypt_hash (str pw) 12) now u), d'.
      apply find_some in Hu. destruct Hu as [_ Hid].
      repeat split; auto. simpl. lia.
  - intros r p tok Hf; split.
    + now apply delete_token_expired.
    + intros _ Hage Hown u Hu.
      assert (Hle : now - DeleteToken.createdAt tok <= day)
        by (unfold day, minute in *; lia).
      pose proof (delete_token_in_time_outcome r p now d Hf Hle Hown Hu) as E.
      destruct (referential_actions (DeleteToken.userId tok) d) as [d1|e];
        [|exact E].
      intros Husers. specialize (E Husers). eexists; split; [exact E|].
      assert (Hrows : forall x,
                 In x (filter (fun x => negb (User.id x =? DeleteToken.userId tok))
                              (rows (users d)))
                 <-> In x (rows (users d)) /\ User.id x <> DeleteToken.userId tok).
      { intros x. rewrite filter_In.
        destruct (Z.eqb_spec (User.id x) (DeleteToken.userId tok)); simpl;
          intuition congruence. }
      proj. split; [exact Hrows|].
      intros Hin. apply Hrows in Hin. destruct Hin as [_ Hne].
      apply find_some in Hu. destruct Hu as [_ Hid]. lia.
  - intros p tok u Hf _ Hv Hu.
    destruct (activation_token_any_age p now d Hf Hv Hu) as (d' & E & Hin).
    exists (user_set_isEmailVerified true now u), d'.
    apply find_some in Hu. destruct Hu as [_ Hid].
    repeat split; auto. simpl. lia.
Qed.

(** Instance of C1 on the sample store: Alice's reset and deletion tokens
    25 hours and 23 hours 59 minutes after their creation, and her
    activation token 23 hours 59 minutes after its creation. The deletion
    token is past its checks, and the store, which applies the referential
    actions of schema.prisma, refuses to delete a user whom a deletion
    token still references. *)
Lemma single_use_token_window_witness :
  (@resetAccountPassword Sample.mail_up "reset-alice" (Some "Passw0rd!")
     (25 * Sample.hour) Sample.store
   = (send 400 "Token expired or not valid", Sample.store))
  /\ (exists u' d',
        @resetAccountPassword Sample.mail_up "reset-alice" (Some "Passw0rd!")
          (day - minute) Sample.store = (json 200 (profile_json u'), d')
        /\ User.id u' = 1
        /\ User.hashedPassword u' = Some "$2b$Passw0rd!"
        /\ In u' (rows (users d')))
  /\ (@deleteUser Sample.mail_up (Sample.req Sample.alice) "del-alice"
        (25 * Sample.hour) Sample.store
      = (send 400 "Token is expired", Sample.store))
  /\ (@deleteUser Sample.mail_up (Sample.req Sample.alice) "del-alice"
        (day - minute) Sample.store
      = (json 500 (JObj [("message",
                          JStr (Sample.foreign_key
                                  "AccountDeleteToken_userId_fkey (index)"))]),
         Sample.store))
  /\ (exists u' d',
        activateAccount "act-alice" (day - minute) Sample.store
        = (json 200 (account_json u'), d')
        /\ User.id u' = 1 /\ User.isEmailVerified u' = true
        /\ In u' (rows (users d'))).
Proof.
  pose proof (@single_use_token_window Sample.mail_up Sample.store (25 * Sample.hour))
    as (R25 & D25 & _).
  pose proof (@single_use_token_window Sample.mail_up Sample.store (day - minute))
    as (R & D & A).
  split; [|split; [|split; [|split]]].
  - apply (proj1 (R25 "reset-alice" (Some "Passw0rd!") _ eq_refl eq_refl)).
    vm_compute; reflexivity.
  - apply (proj2 (R "reset-alice" (Some "Passw0rd!") _ eq_refl eq_refl)
             eq_refl eq_refl eq_refl Sample.alice eq_refl).
  - apply (proj1 (D25 (Sample.req Sample.alice) "del-alice" _ eq_refl)).
    vm_compute; reflexivity.
  - exact (proj2 (D (Sample.req Sample.alice) "del-alice" _ eq_refl)
             eq_refl eq_refl eq_refl Sample.alice eq_refl).
  - apply (A "act-alice" _ Sample.alice eq_refl eq_refl eq_refl eq_refl).
Defined.

(** C1 as stated fails for activation tokens: 48 hours after its creation
    Alice's activation token is still accepted. *)
Lemma activation_token_accepted_after_48_hours :
  find (fun t => String.eqb (ActivateToken.token t) "act-alice")
       (rows (activateTokens Sample.store))
  = Some (ActivateToken.mk 1 "act-alice" None 1 0 0)
  /\ 48 * Sample.hour - 0 > day
  /\ fst (activateAccount "act-alice" (48 * Sample.hour) Sample.store)
     = json 200 (account_json
                   (user_set_isEmailVerified true (48 * Sample.hour) Sample.alice)).
Proof. repeat split. Qed.

(** C2 fails on the code: [resetAccountPassword] stamps [resetAt] on the
    token it has used, but no handler ever reads that stamp. On the sample
    store, Alice's reset token is used one hour after its creation; the
    token then carries [resetAt], and presenting it again an hour later
    with another password is answered 200 and replaces the hash again. *)
Theorem consumed_reset_token_is_accepted_again :
  let first := @resetAccountPassword Sample.mail_up "reset-alice" (Some "Passw0rd!")
                 Sample.hour Sample.store in
  let second := @resetAccountPassword Sample.mail_up "reset-alice" (Some "Hijack3d!")
                  (2 * Sample.hour) (snd first) in
  status (fst first) = 200
  /\ rows (passwordResetTokens (snd first))
     = [PasswordResetToken.mk 1 "reset-alice" (Some Sample.hour) 1 0 Sample.hour]
  /\ status (fst second) = 200
  /\ option_map User.hashedPassword
       (find (fun u => User.id u =? 1) (rows (users (snd second))))
     = Some (Some "$2b$Hijack3d!").
Proof. vm_compute. repeat split. Qed.

(** ** Password login *)

Section Login.
Context `{Collaborators}.

Lemma login_wrong_password (email_ pw : option string) (now : Z) (d : DB)
      (u : User.t) (h : string) :
  falsy email_ = false -> falsy pw = false ->
  emailRegex_test (str email_) = true ->
  find (fun u => String.eqb (User.email u) (str email_)) (rows (users d)) = Some u ->
  User.provider u = DEFAULT ->
  User.hashedPassword u = Some h -> h <> EmptyString ->
  bcrypt_compare (str pw) h = false ->
  loginUser email_ pw now d = (send 400 "Incorrect email or password", d).
Proof.
  intros He Hp Hre Hu Hprov Hh Hne Hcmp. unfold loginUser. rewrite He, Hp, Hre. run.
  rewrite Hu, Hprov, Hh. simpl.
  destruct (String.eqb_spec h EmptyString) as [->|_]; [congruence|].
  simpl. rewrite Hcmp. reflexivity.
Qed.

Lemma login_provider_account (email_ pw : option string) (now : Z) (d : DB)
      (u : User.t) :
  falsy email_ = false -> falsy pw = false ->
  emailRegex_test (str email_) = true ->
  find (fun u => String.eqb (User.email u) (str email_)) (rows (users d)) = Some u ->
  User.provider u <> DEFAULT \/ User.hashedPassword u = None ->
  loginUser email_ pw now d = (send 400 "Account signed up using a provider", d).
Proof.
  intros He Hp Hre Hu Hprov. unfold loginUser. rewrite He, Hp, Hre. run.
  rewrite Hu. destruct Hprov as [Hprov | Hnone].
  - destruct (User.provider u); [congruence| | |]; reflexivity.
  - rewrite Hnone. simpl. now rewrite orb_true_r.
Qed.
End Login.

(** C3. For a stored user reached by a well-formed email and a non-empty
    password, a wrong password and a provider-created account without a
    password hash are both refused with status 400, no session header and
    the store untouched; the two answers have the same status (their
    message texts are the ones shown). *)
Theorem login_failures_share_status `{Collaborators}
        (email_ pw : option string) (now : Z) (d : DB) (u : User.t) :
  falsy email_ = false -> falsy pw = false ->
  emailRegex_test (str email_) = true ->
  find (fun u => String.eqb (User.email u) (str email_)) (rows (users d)) = Some u ->
  (forall h,
      User.provider u = DEFAULT -> User.hashedPassword u = Some h ->
      h <> EmptyString -> bcrypt_compare (str pw) h = false ->
      loginUser email_ pw now d = (send 400 "Incorrect email or password", d))
  /\ (User.provider u <> DEFAULT /\ User.hashedPassword u = None ->
      loginUser email_ pw now d = (send 400 "Account signed up using a provider", d))
  /\ status (send 400 "Incorrect email or password")
     = status (send 400 "Account signed up using a provider")
  /\ authorization (send 400 "Incorrect email or password") = None
  /\ authorization (send 400 "Account signed up using a provider") = None.
Proof.
  intros He Hp Hre Hu. repeat split.
  - intros h Hprov Hh Hne Hcmp. now apply login_wrong_password with (u := u) (h := h).
  - intros [Hprov Hnone]. apply login_provider_account with (u := u); auto.
Qed.

(** Instance of C3 on the sample store: Bob with a wrong password, and
    Carol, who signed up with Google. *)
Lemma login_failures_share_status_witness :
  @loginUser Sample.mail_up (Some "bob@example.com") (Some "not-bobs-pass") 5
     Sample.store
  = (send 400 "Incorrect email or password", Sample.store)
  /\ @loginUser Sample.mail_up (Some "carol@example.com") (Some "whatever") 5
       Sample.store
     = (send 400 "Account signed up using a provider", Sample.store).
Proof.
  split.
  - apply (proj1 (@login_failures_share_status Sample.mail_up
                    (Some "bob@example.com") (Some "not-bobs-pass") 5 Sample.store
                    Sample.bob eq_refl eq_refl eq_refl eq_refl)
             "$2b$Bobs-pass2" eq_refl eq_refl).
    + discriminate.
    + reflexivity.
  - apply (proj1 (proj2 (@login_failures_share_status Sample.mail_up
                    (Some "carol@example.com") (Some "whatever") 5 Sample.store
                    Sample.carol eq_refl eq_refl eq_refl eq_refl))).
    split; [discriminate | reflexivity].
Defined.

(** ** Publishing and following *)

Section ListFacts.
Variable A : Type.

Lemma find_all_false (p : A -> bool) (l : list A) :
  (forall x, In x l -> p x = false) -> find p l = None.
Proof.
  induction l as [|y l IH]; simpl; intros Hall; [reflexivity|].
  rewrite (Hall y (or_introl eq_refl)). apply IH. intros x Hx. apply Hall. now right.
Qed.

Lemma existsb_all_false (p : A -> bool) (l : list A) :
  (forall x, In x l -> p x = false) -> existsb p l = false.
Proof.
  induction l as [|y l IH]; simpl; intros Hall; [reflexivity|].
  rewrite (Hall y (or_introl eq_refl)). apply IH. intros x Hx. apply Hall. now right.
Qed.

Lemma find_app_last (p : A -> bool) (l : list A) (x : A) :
  find p l = None -> p x = true -> find p (l ++ [x]) = Some x.
Proof.
  induction l as [|y l IH]; simpl; intros Hn Hx.
  - now rewrite Hx.
  - destruct (p y); [discriminate|]. now apply IH.
Qed.

Lemma find_weaken (p q : A -> bool) (l : list A) (x : A) :
  find (fun y => p y && q y) l = Some x -> exists z, find p l = Some z.
Proof.
  induction l as [|y l IH]; simpl; [discriminate|].
  destruct (p y); simpl; [eexists; reflexivity|]. exact IH.
Qed.
End ListFacts.

Section Publish.

Lemma fanout_length (i : Z) (fs : list Follow.t) (b now : Z) :
  List.length (fanout i fs b now) = List.length fs.
Proof. revert i; induction fs as [|f fs IH]; intros i; simpl; auto. Qed.

Lemma fanout_recipients (i : Z) (fs : list Follow.t) (b now : Z) :
  map Notification.userId (fanout i fs b now) = map Follow.followerId fs.
Proof. revert i; induction fs as [|f fs IH]; intros i; simpl; [|rewrite IH]; auto. Qed.

Lemma fanout_unseen (i : Z) (fs : list Follow.t) (b now : Z) :
  Forall (fun n => Notification.seen n = false /\ Notification.blogId n = b)
         (fanout i fs b now).
Proof. revert i; induction fs as [|f fs IH]; intros i; simpl; constructor; auto. Qed.

(** The fan-out loop writes one row per follower and cannot throw. *)
Lemma for_each_fanout (fs : list Follow.t) (b now : Z) (d : DB) :
  for_each fs
    (fun follower =>
       create db_notification (@no_clash Notification.t)
         (fun i => Notification.mk i (Follow.followerId follower) b false now)) d
  = (Ok tt,
     tset db_notification
       (mkTable (rows (notifications d) ++ fanout (nextId (notifications d)) fs b now)
                (nextId (notifications d) + Z.of_nat (List.length fs))) d).
Proof.
  revert d; induction fs as [|f fs IH]; intros d; simpl.
  - unfold ret. rewrite app_nil_r, Z.add_0_r. destruct d as [? ? ? ? ? ? [? ?] ?].
    reflexivity.
  - unfold bind, create. cbn [tget db_notification].
    rewrite (existsb_all_false _ _ (fun x _ => eq_refl)).
    rewrite IH. cbn [tset tget db_notification notifications rows nextId
                     users activateTokens passwordResetTokens deleteTokens blogs
                     follows searches].
    rewrite <- app_assoc. simpl.
    replace (nextId (notifications d) + 1 + Z.of_nat (List.length fs))
      with (nextId (notifications d) + Z.pos (Pos.of_succ_nat (List.length fs)))
      by lia.
    reflexivity.
Qed.

(** The guard [if (followers.length > 0)] around the loop is redundant. *)
Lemma guarded_for_each (A B : Type) (l : list A) (body_ : A -> M B) (d : DB) :
  (if 0 <? Z.of_nat (List.length l) then for_each l body_ else ret tt) d
  = for_each l body_ d.
Proof. destruct l; reflexivity. Qed.

Lemma publish_not_found (r : ReqUser.t) (blogId : string) (now : Z) (d : DB) :
  find (draft_with blogId) (rows (blogs d)) = None ->
  publishBlog r blogId now d = (send 404 "Blog not found", d).
Proof. intros Hf. unfold publishBlog. run. fold (draft_with blogId). now rewrite Hf. Qed.

Lemma publish_forbidden (r : ReqUser.t) (blogId : string) (now : Z) (d : DB)
      (b : Blog.t) :
  find (draft_with blogId) (rows (blogs d)) = Some b ->
  Blog.authorId b <> ReqUser.id r ->
  publishBlog r blogId now d = (send 403 "Forbidden", d).
Proof.
  intros Hf Ha. unfold publishBlog. run. fold (draft_with blogId). rewrite Hf.
  destruct (Z.eqb_spec (Blog.authorId b) (ReqUser.id r)); [contradiction|reflexivity].
Qed.

Lemma publish_invalid (r : ReqUser.t) (blogId : string) (now : Z) (d : DB)
      (b : Blog.t) :
  find (draft_with blogId) (rows (blogs d)) = Some b ->
  Blog.authorId b = ReqUser.id r ->
  Blog.title b = EmptyString \/ Blog.content b = EmptyString ->
  publishBlog r blogId now d
  = (send 400 "Blog title and content cannot be empty", d).
Proof.
  intros Hf Ha He. unfold publishBlog. run. fold (draft_with blogId). rewrite Hf, Ha.
  rewrite Z.eqb_refl. cbn [negb].
  destruct He as [-> | ->]; simpl; [|rewrite orb_true_r]; reflexivity.
Qed.

Lemma publish_runs (r : ReqUser.t) (blogId : string) (now : Z) (d : DB)
      (b : Blog.t) :
  find (draft_with blogId) (rows (blogs d)) = Some b ->
  Blog.authorId b = ReqUser.id r ->
  Blog.title b <> EmptyString -> Blog.content b <> EmptyString ->
  exists b' l',
    update_first (fun x => String.eqb (Blog.blogId x) blogId)
                 (blog_set_draft false now) (rows (blogs d)) = Some (b', l')
    /\ publishBlog r blogId now d
       = (json 200 (rest_json b'),
          mkDB (users d) (activateTokens d) (passwordResetTokens d) (deleteTokens d)
               (mkTable l' (nextId (blogs d))) (follows d)
               (mkTable (rows (notifications d)
                         ++ fanout (nextId (notifications d))
                              (followers_of (Blog.authorId b) d) (Blog.id b) now)
                        (nextId (notifications d)
                         + Z.of_nat (List.length (followers_of (Blog.authorId b) d))))
               (searches d)).
Proof.
  intros Hf Ha Ht Hc.
  destruct (find_weaken _ _ _ Hf) as [z Hz].
  destruct (update_first_found _ (blog_set_draft false now) _ Hz) as (l' & Hup & _).
  exists (blog_set_draft false now z), l'. split; [exact Hup|].
  unfold publishBlog. run_reads. fold (draft_with blogId). rewrite Hf, Ha, Z.eqb_refl.
  destruct (String.eqb_spec (Blog.title b) EmptyString); [contradiction|].
  destruct (String.eqb_spec (Blog.content b) EmptyString); [contradiction|].
  proj. rewrite Hup. proj. fold (followers_of (ReqUser.id r) d).
  rewrite guarded_for_each, for_each_fanout. reflexivity.
Qed.

(** Whatever the request, an answer other than 200 leaves the store as it
    was. *)
Lemma publish_failure_leaves_store (r : ReqUser.t) (blogId : string) (now : Z)
      (d : DB) :
  status (fst (publishBlog r blogId now d)) <> 200 ->
  snd (publishBlog r blogId now d) = d.
Proof.
  intros Hs.
  destruct (find (draft_with blogId) (rows (blogs d))) as [b|] eqn:Hf.
  - destruct (Z.eq_dec (Blog.authorId b) (ReqUser.id r)) as [Ha|Ha].
    + destruct (string_dec (Blog.title b) EmptyString) as [Ht|Ht].
      { now rewrite (publish_invalid r blogId now d Hf Ha (or_introl Ht)). }
      destruct (string_dec (Blog.content b) EmptyString) as [Hc|Hc].
      { now rewrite (publish_invalid r blogId now d Hf Ha (or_intror Hc)). }
      destruct (publish_runs r blogId now d Hf Ha Ht Hc) as (b' & l' & _ & E).
      rewrite E in Hs. simpl in Hs. congruence.
    + now rewrite (publish_forbidden r blogId now d Hf Ha).
  - now rewrite (publish_not_found r blogId now d Hf).
Qed.
End Publish.

(** C4. [publishBlog] answers 404 when no draft carries the id (in
    particular when every blog with that id is already published), 403 when
    the draft is not the requester's, 400 when its title or its content is
    empty; each of these answers, and any answer other than 200, leaves the
    store as it was: no notification is written and no draft flag
    changes. *)
Theorem publish_failures (r : ReqUser.t) (blogId : string) (now : Z) (d : DB) :
  (find (draft_with blogId) (rows (blogs d)) = None ->
   publishBlog r blogId now d = (send 404 "Blog not found", d))
  /\ ((forall b, In b (rows (blogs d)) -> Blog.blogId b = blogId ->
                 Blog.draft b = false) ->
      publishBlog r blogId now d = (send 404 "Blog not found", d))
  /\ (forall b,
        find (draft_with blogId) (rows (blogs d)) = Some b ->
        (Blog.authorId b <> ReqUser.id r ->
         publishBlog r blogId now d = (send 403 "Forbidden", d))
        /\ (Blog.authorId b = ReqUser.id r ->
            Blog.title b = EmptyString \/ Blog.content b = EmptyString ->
            publishBlog r blogId now d
            = (send 400 "Blog title and content cannot be empty", d)))
  /\ (status (fst (publishBlog r blogId now d)) <> 200 ->
      snd (publishBlog r blogId now d) = d).
Proof.
  split; [|split; [|split]].
  - apply publish_not_found.
  - intros Hpub. apply publish_not_found. apply find_all_false.
    intros b Hin. unfold draft_with.
    destruct (String.eqb_spec (Blog.blogId b) blogId) as [E|]; [|reflexivity].
    now rewrite (Hpub b Hin E).
  - intros b Hf; split.
    + now apply publish_forbidden.
    + now apply publish_invalid.
  - apply publish_failure_leaves_store.
Qed.

(** Instance of C4 on the sample store: an unknown id, the published post
    [post-3], Bob's draft requested by Alice, and Bob's untitled draft. *)
Lemma publish_failures_witness :
  publishBlog (Sample.req Sample.bob) "nope" 77 Sample.store
  = (send 404 "Blog not found", Sample.store)
  /\ publishBlog (Sample.req Sample.bob) "post-3" 77 Sample.store
     = (send 404 "Blog not found", Sample.store)
  /\ publishBlog (Sample.req Sample.alice) "draft-1" 77 Sample.store
     = (send 403 "Forbidden", Sample.store)
  /\ publishBlog (Sample.req Sample.bob) "draft-2" 77 Sample.store
     = (send 400 "Blog title and content cannot be empty", Sample.store)
  /\ snd (publishBlog (Sample.req Sample.bob) "draft-2" 77 Sample.store)
     = Sample.store.
Proof.
  split; [|split; [|split; [|split]]].
  - apply (proj1 (publish_failures (Sample.req Sample.bob) "nope" 77 Sample.store)).
    reflexivity.
  - apply (proj1 (proj2 (publish_failures (Sample.req Sample.bob) "post-3" 77
                           Sample.store))).
    intros b Hin Hid. simpl in Hin.
    destruct Hin as [<-|[<-|[<-|[]]]]; try reflexivity; discriminate.
  - apply (proj1 (proj1 (proj2 (proj2 (publish_failures (Sample.req Sample.alice)
                                          "draft-1" 77 Sample.store)))
                        _ eq_refl)).
    discriminate.
  - apply (proj2 (proj1 (proj2 (proj2 (publish_failures (Sample.req Sample.bob)
                                          "draft-2" 77 Sample.store)))
                        _ eq_refl)).
    + reflexivity.
    + left; reflexivity.
  - apply (proj2 (proj2 (proj2 (publish_failures (Sample.req Sample.bob)
                                  "draft-2" 77 Sample.store)))).
    discriminate.
Defined.


Section UniqueKey.
Variable A : Type.
Variable key : A -> string.

Lemma unique_find_refine (l : list A) (k : string) (q : A -> bool) (b : A) :
  NoDup (map key l) ->
  find (fun x => String.eqb (key x) k && q x) l = Some b ->
  find (fun x => String.eqb (key x) k) l = Some b.
Proof.
  induction l as [|x l IH]; simpl; intros Hnd Hf; [discriminate|].
  inversion Hnd as [|? ? Hnotin Hnd']; subst.
  destruct (String.eqb_spec (key x) k) as [E|E]; simpl in Hf.
  - destruct (q x); [exact Hf|].
    exfalso. apply find_some in Hf. destruct Hf as [Hin Hb].
    apply andb_prop in Hb. destruct Hb as [Hb _].
    apply String.eqb_eq in Hb. apply Hnotin. rewrite E, <- Hb. now apply in_map.
  - now apply IH.
Qed.

Lemma unique_update (l l' : list A) (k : string) (f : A -> A) (b y : A) :
  NoDup (map key l) ->
  find (fun x => String.eqb (key x) k) l = Some b ->
  update_first (fun x => String.eqb (key x) k) f l = Some (y, l') ->
  y = f b /\ forall x, In x l' -> key x = k -> x = f b.
Proof.
  revert l'; induction l as [|x l IH]; simpl; intros l' Hnd Hf Hu; [discriminate|].
  inversion Hnd as [|? ? Hnotin Hnd']; subst.
  destruct (String.eqb_spec (key x) k) as [E|E].
  - inversion Hf; inversion Hu; subst. split; [reflexivity|].
    intros z [<-|Hin] Hz; [reflexivity|].
    exfalso. apply Hnotin. rewrite <- Hz. now apply in_map.
  - destruct (update_first _ f l) as [[y' l'']|] eqn:U; [|discriminate].
    inversion Hu; subst.
    destruct (IH _ Hnd' Hf eq_refl) as [-> Hall]. split; [reflexivity|].
    intros z [<-|Hin] Hz; [contradiction|]. now apply Hall.
Qed.
End UniqueKey.

Section Follow.

Lemma follow_not_found (r : ReqUser.t) (name : string) (d : DB) :
  find (named name) (rows (users d)) = None ->
  followUser r name d = (send 404 "Account not found", d).
Proof. intros Hu. unfold followUser. run. fold (named name). now rewrite Hu. Qed.

Lemma follow_self (r : ReqUser.t) (name : string) (d : DB) (u : User.t) :
  find (named name) (rows (users d)) = Some u ->
  User.id u = ReqUser.id r ->
  followUser r name d = (send 403 "You cannot follow yourself", d).
Proof.
  intros Hu Hid. unfold followUser. run. fold (named name).
  now rewrite Hu, Hid, Z.eqb_refl.
Qed.

Lemma follow_already (r : ReqUser.t) (name : string) (d : DB) (u : User.t)
      (f : Follow.t) :
  find (named name) (rows (users d)) = Some u ->
  User.id u <> ReqUser.id r ->
  find (edge (User.id u) (ReqUser.id r)) (rows (follows d)) = Some f ->
  followUser r name d = (send 400 "You already follow this account", d).
Proof.
  intros Hu Hid Hf. unfold followUser. run. fold (named name). rewrite Hu.
  destruct (Z.eqb_spec (User.id u) (ReqUser.id r)); [contradiction|].
  fold (edge (User.id u) (ReqUser.id r)). now rewrite Hf.
Qed.

Lemma follow_created (r : ReqUser.t) (name : string) (d : DB) (u : User.t) :
  find (named name) (rows (users d)) = Some u ->
  User.id u <> ReqUser.id r ->
  find (edge (User.id u) (ReqUser.id r)) (rows (follows d)) = None ->
  followUser r name d
  = (json 200 (follow_json (Follow.mk (nextId (follows d)) (User.id u) (ReqUser.id r))),
     tset db_follow
       (mkTable (rows (follows d)
                 ++ [Follow.mk (nextId (follows d)) (User.id u) (ReqUser.id r)])
                (nextId (follows d) + 1)) d).
Proof.
  intros Hu Hid Hf. unfold followUser. run. fold (named name). rewrite Hu.
  destruct (Z.eqb_spec (User.id u) (ReqUser.id r)); [contradiction|].
  fold (edge (User.id u) (ReqUser.id r)). rewrite Hf.
  rewrite existsb_all_false; [reflexivity|].
  intros x Hin. pose proof (find_none _ _ Hf x Hin) as Hx.
  unfold follow_clashes, edge in *. simpl.
  now rewrite (Z.eqb_sym (User.id u)), (Z.eqb_sym (ReqUser.id r)).
Qed.

(** [followUser] writes to the [Follow] table only. *)
Lemma follow_frame (r : ReqUser.t) (name : string) (d : DB) :
  users (snd (followUser r name d)) = users d
  /\ blogs (snd (followUser r name d)) = blogs d
  /\ notifications (snd (followUser r name d)) = notifications d.
Proof.
  unfold followUser. run.
  destruct (find _ (rows (users d))) as [u|]; [|now simpl].
  destruct (User.id u =? ReqUser.id r); [now simpl|].
  destruct (find _ (rows (follows d))); [now simpl|].
  destruct (existsb _ (rows (follows d))); now simpl.
Qed.
End Follow.

(** C5. Publishing one's own draft with a title and a content answers 200,
    flips the draft flag of that blog, and appends to the notification
    table exactly one row per [Follow] row that pointed at the author when
    the handler ran: as many rows as followers, addressed to them in order,
    each unseen and each carrying the id of the blog. What happens later
    adds nothing for this post: [followUser] never writes a notification,
    and the post, no longer a draft, cannot be published again. *)
Theorem publish_notifies_followers (r : ReqUser.t) (blogId : string) (now : Z)
        (d : DB) (b : Blog.t) :
  unique_blogIds d ->
  find (draft_with blogId) (rows (blogs d)) = Some b ->
  Blog.authorId b = ReqUser.id r ->
  Blog.title b <> EmptyString -> Blog.content b <> EmptyString ->
  let fs := followers_of (Blog.authorId b) d in
  let sent := fanout (nextId (notifications d)) fs (Blog.id b) now in
  exists d',
    publishBlog r blogId now d
    = (json 200 (rest_json (blog_set_draft false now b)), d')
    /\ find (fun x => String.eqb (Blog.blogId x) blogId) (rows (blogs d'))
       = Some (blog_set_draft false now b)
    /\ rows (notifications d') = (rows (notifications d) ++ sent)%list
    /\ List.length sent = List.length fs
    /\ map Notification.userId sent = map Follow.followerId fs
    /\ Forall (fun n => Notification.seen n = false
                        /\ Notification.blogId n = Blog.id b) sent
    /\ forall r2 name,
         let d'' := snd (followUser r2 name d') in
         notifications d'' = notifications d'
         /\ forall r3 now3,
              publishBlog r3 blogId now3 d'' = (send 404 "Blog not found", d'').
Proof.
  intros Hnd Hf Ha Ht Hc fs sent. subst sent fs.
  destruct (publish_runs r blogId now d Hf Ha Ht Hc) as (b' & l' & Hup & E).
  assert (Hb : find (fun x => String.eqb (Blog.blogId x) blogId) (rows (blogs d))
               = Some b)
    by (eapply (@unique_find_refine Blog.t Blog.blogId); [exact Hnd | exact Hf]).
  destruct (@unique_update Blog.t Blog.blogId _ _ _ _ _ _ Hnd Hb Hup) as [-> Hall].
  destruct (update_first_found _ (blog_set_draft false now) _ Hb)
    as (l2 & Hup2 & Hin & _).
  rewrite Hup in Hup2. inversion Hup2; subst l2.
  eexists. split; [exact E|]. proj.
  assert (Hkey : Blog.blogId b = blogId).
  { apply find_some in Hb. destruct Hb as [_ Hk]. now apply String.eqb_eq in Hk. }
  split; [|split; [reflexivity|split; [apply fanout_length|split;
    [apply fanout_recipients|split; [apply fanout_unseen|]]]]].
  - destruct (find (fun x => String.eqb (Blog.blogId x) blogId) l') as [z|] eqn:Fz.
    + apply find_some in Fz. destruct Fz as [Hz Hk]. apply String.eqb_eq in Hk.
      now rewrite (Hall z Hz Hk).
    + apply (find_none _ _ Fz) in Hin. simpl in Hin. rewrite Hkey in Hin.
      now rewrite String.eqb_refl in Hin.
  - intros r2 name. cbv zeta.
    match goal with
    | |- context [followUser r2 name ?dd] =>
        destruct (follow_frame r2 name dd) as (_ & Hblogs & Hnot)
    end.
    split; [exact Hnot|].
    intros r3 now3. apply publish_not_found. rewrite Hblogs. proj.
    apply find_all_false. intros x Hx. unfold draft_with.
    destruct (String.eqb_spec (Blog.blogId x) blogId) as [Hk|]; [|reflexivity].
    now rewrite (Hall x Hx Hk).
Qed.

(** Instance of C5 on the sample store: Bob, followed by Alice, Carol and
    Dave, publishes [draft-1] (blog 1) at time 77. *)
Lemma publish_notifies_followers_witness :
  exists d',
    publishBlog (Sample.req Sample.bob) "draft-1" 77 Sample.store
    = (json 200 (rest_json (Blog.mk 1 "draft-1" "Hello" "World" None false 2 None 0 77)),
       d')
    /\ rows (notifications d')
       = [Notification.mk 1 1 1 false 77; Notification.mk 2 3 1 false 77;
          Notification.mk 3 4 1 false 77]
    /\ notifications (snd (followUser (Sample.req Sample.carol) "bob" d'))
       = notifications d'.
Proof.
  assert (Hnd : unique_blogIds Sample.store).
  { unfold unique_blogIds; simpl. repeat constructor; simpl; intuition discriminate. }
  destruct (@publish_notifies_followers (Sample.req Sample.bob) "draft-1" 77
              Sample.store _ Hnd eq_refl eq_refl)
    as (d' & E & _ & Hrows & _ & _ & _ & Hlater); try discriminate.
  exists d'. split; [exact E|]. split; [exact Hrows|].
  exact (proj1 (Hlater (Sample.req Sample.carol) "bob")).
Defined.

(** C6. A request to follow one's own account is refused (403) and writes
    nothing; and once a follow request has been answered 200, the same
    request on the resulting store is refused with [You already follow this
    account] (400) and leaves that store as it is. *)
Theorem follow_self_and_twice (r : ReqUser.t) (name : string) (d : DB) :
  (forall u,
      find (named name) (rows (users d)) = Some u ->
      User.id u = ReqUser.id r ->
      followUser r name d = (send 403 "You cannot follow yourself", d))
  /\ (status (fst (followUser r name d)) = 200 ->
      let d1 := snd (followUser r name d) in
      followUser r name d1 = (send 400 "You already follow this account", d1)).
Proof.
  split; [intros u; apply follow_self|].
  intros Hs d1.
  destruct (find (named name) (rows (users d))) as [u|] eqn:Hu.
  2:{ rewrite (follow_not_found r name d Hu) in Hs. discriminate. }
  destruct (Z.eq_dec (User.id u) (ReqUser.id r)) as [Hid|Hid].
  { rewrite (follow_self r name d Hu Hid) in Hs. discriminate. }
  destruct (find (edge (User.id u) (ReqUser.id r)) (rows (follows d))) as [f|] eqn:Hf.
  { rewrite (follow_already r name d Hu Hid Hf) in Hs. discriminate. }
  subst d1. rewrite (follow_created r name d Hu Hid Hf). proj.
  apply follow_already
    with (u := u) (f := Follow.mk (nextId (follows d)) (User.id u) (ReqUser.id r));
    proj; auto.
  apply find_app_last; [exact Hf|].
  unfold edge; simpl. now rewrite !Z.eqb_refl.
Qed.

(** Instance of C6 on the sample store: Alice asks to follow [alice], and
    asks twice to follow [carol]. *)
Lemma follow_self_and_twice_witness :
  followUser (Sample.req Sample.alice) "alice" Sample.store
  = (send 403 "You cannot follow yourself", Sample.store)
  /\ let d1 := snd (followUser (Sample.req Sample.alice) "carol" Sample.store) in
     followUser (Sample.req Sample.alice) "carol" d1
     = (send 400 "You already follow this account", d1).
Proof.
  split.
  - apply (proj1 (follow_self_and_twice (Sample.req Sample.alice) "alice"
                    Sample.store) Sample.alice); reflexivity.
  - apply (proj2 (follow_self_and_twice (Sample.req Sample.alice) "carol"
                    Sample.store)); reflexivity.
Defined.

(** ** Issuing tokens by mail *)

Section Mail.
Context `{Collaborators}.

Ltac branches :=
  repeat match goal with
         | |- context [if ?c then _ else _] => destruct c
         | |- context [match find ?p ?l with _ => _ end] => destruct (find p l) eqn:?
         | |- context [match transporter_sendMail ?m with _ => _ end] =>
             destruct (transporter_sendMail m) eqn:?
         end.

(** Rewrites the transporter's verdict [Hmail] on the message the handler
    has built. *)
Ltac mail_is Hmail :=
  match type of Hmail with
  | transporter_sendMail ?m' = _ =>
      match goal with
      | |- context [transporter_sendMail ?m] => change m with m'
      end
  end;
  rewrite Hmail.

(** A handler that answers with its success status has had its message
    accepted by the transporter. *)
Lemma register_success_needs_mail (email_ pw origin : option string)
      (uuid1 uuid2 : string) (now : Z) (d : DB) :
  status (fst (registerUser email_ pw origin uuid1 uuid2 now d)) = 201 ->
  transporter_sendMail
    (mailOptions_of (activation_mail (str email_) (str origin)
                                     (tokenString uuid1 uuid2))) = None.
Proof.
  unfold registerUser, sendMail. run. branches; run; branches; simpl;
    try discriminate. intros _. assumption.
Qed.

Lemma reset_request_success_needs_mail (email_ origin : option string)
      (uuid1 uuid2 : string) (now : Z) (d : DB) :
  status (fst (resetPasswordRequest email_ origin uuid1 uuid2 now d)) = 200 ->
  exists u,
    find (fun u => String.eqb (User.email u) (str email_)) (rows (users d)) = Some u
    /\ transporter_sendMail
         (mailOptions_of (reset_mail (User.email u) (str origin)
                                     (tokenString uuid1 uuid2))) = None.
Proof.
  unfold resetPasswordRequest, sendMail. run. branches; run; branches; simpl;
    try discriminate. intros _. eexists; split; [reflexivity|assumption].
Qed.

Lemma delete_request_success_needs_mail (r : ReqUser.t)
      (uuid1 uuid2 : string) (now : Z) (d : DB) :
  status (fst (sendAccountDeleteEmail r uuid1 uuid2 now d)) = 200 ->
  transporter_sendMail
    (mailOptions_of (deletion_mail (ReqUser.email r) (tokenString uuid1 uuid2)))
  = None.
Proof.
  unfold sendAccountDeleteEmail, sendMail. run. branches; run; branches; simpl;
    try discriminate. intros _. assumption.
Qed.

Lemma register_mail_error (email_ pw origin : option string)
      (uuid1 uuid2 : string) (now : Z) (d : DB) (err : string) :
  falsy email_ = false -> falsy pw = false ->
  emailRegex_test (str email_) = true ->
  find (fun u => String.eqb (User.email u) (str email_)) (rows (users d)) = None ->
  passwordRegex_test (str pw) = true ->
  find (fun t => String.eqb (ActivateToken.token t) (tokenString uuid1 uuid2))
       (rows (activateTokens d)) = None ->
  transporter_sendMail
    (mailOptions_of (activation_mail (str email_) (str origin)
                                     (tokenString uuid1 uuid2))) = Some err ->
  registerUser email_ pw origin uuid1 uuid2 now d
  = (json 500 (JObj [("message", JStr err)]),
     mkDB (mkTable (rows (users d)
                    ++ [User.mk (nextId (users d)) None None None None (str email_)
                          false (Some (bcrypt_hash (str pw) 12)) DEFAULT now now])
                   (nextId (users d) + 1))
          (mkTable (rows (activateTokens d)
                    ++ [ActivateToken.mk (nextId (activateTokens d))
                          (tokenString uuid1 uuid2) None (nextId (users d)) now now])
                   (nextId (activateTokens d) + 1))
          (passwordResetTokens d) (deleteTokens d) (blogs d) (follows d)
          (notifications d) (searches d)).
Proof.
  intros He Hp Hre Hu Hpre Ht Hmail. unfold registerUser, sendMail.
  rewrite He, Hp, Hre. run. rewrite Hu, Hpre. run.
  rewrite existsb_all_false.
  2:{ intros x Hx. pose proof (find_none _ _ Hu x Hx) as E. unfold user_clashes.
      simpl. now rewrite String.eqb_sym, E. }
  proj. rewrite existsb_all_false.
  2:{ intros x Hx. pose proof (find_none _ _ Ht x Hx) as E. simpl.
      now rewrite String.eqb_sym. }
  mail_is Hmail. reflexivity.
Qed.

Lemma reset_request_mail_error (email_ origin : option string)
      (uuid1 uuid2 : string) (now : Z) (d : DB) (u : User.t) (err : string) :
  falsy email_ = false ->
  emailRegex_test (str email_) = true ->
  find (fun u => String.eqb (User.email u) (str email_)) (rows (users d)) = Some u ->
  User.provider u = DEFAULT ->
  find (fun t => String.eqb (PasswordResetToken.token t) (tokenString uuid1 uuid2))
       (rows (passwordResetTokens d)) = None ->
  transporter_sendMail
    (mailOptions_of (reset_mail (User.email u) (str origin)
                                (tokenString uuid1 uuid2))) = Some err ->
  resetPasswordRequest email_ origin uuid1 uuid2 now d
  = (json 500 (JObj [("message", JStr err)]),
     tset db_passwordResetToken
       (mkTable (rows (passwordResetTokens d)
                 ++ [PasswordResetToken.mk (nextId (passwordResetTokens d))
                       (tokenString uuid1 uuid2) None (User.id u) now now])
                (nextId (passwordResetTokens d) + 1)) d).
Proof.
  intros He Hre Hu Hprov Ht Hmail. unfold resetPasswordRequest, sendMail.
  rewrite He, Hre. run. rewrite Hu, Hprov. run.
  rewrite existsb_all_false.
  2:{ intros x Hx. pose proof (find_none _ _ Ht x Hx) as E. simpl.
      now rewrite String.eqb_sym. }
  mail_is Hmail. reflexivity.
Qed.

Lemma delete_request_mail_error (r : ReqUser.t)
      (uuid1 uuid2 : string) (now : Z) (d : DB) (err : string) :
  find (fun t => String.eqb (DeleteToken.token t) (tokenString uuid1 uuid2))
       (rows (deleteTokens d)) = None ->
  transporter_sendMail
    (mailOptions_of (deletion_mail (ReqUser.email r) (tokenString uuid1 uuid2)))
  = Some err ->
  sendAccountDeleteEmail r uuid1 uuid2 now d
  = (json 500 (JObj [("message", JStr err)]),
     tset db_deleteToken
       (mkTable (rows (deleteTokens d)
                 ++ [DeleteToken.mk (nextId (deleteTokens d))
                       (tokenString uuid1 uuid2) None (ReqUser.id r) now now])
                (nextId (deleteTokens d) + 1)) d).
Proof.
  intros Ht Hmail. unfold sendAccountDeleteEmail, sendMail. run.
  rewrite existsb_all_false.
  2:{ intros x Hx. pose proof (find_none _ _ Ht x Hx) as E. simpl.
      now rewrite String.eqb_sym. }
  mail_is Hmail. reflexivity.
Qed.
End Mail.

(** C7, as the handlers have it. Each of the three token-issuing handlers
    sends one message, after its checks have passed and its rows are
    written. If the transporter reports an error [err] for that message,
    the handler answers with status 500 and the body [{ message: err }],
    without a session header, where it would have answered 201
    (registration) or 200 (the two others); the rows written before the
    mail stay in the store, which is otherwise as it was: the new account
    and its activation token, the password-reset token, the deletion
    token. And a handler that answers with its success status has had its
    message accepted. *)
Theorem mail_failure_fails_issuing `{Collaborators} :
  (forall email_ pw origin uuid1 uuid2 now d,
      let mail := mailOptions_of (activation_mail (str email_) (str origin)
                                                  (tokenString uuid1 uuid2)) in
      (status (fst (registerUser email_ pw origin uuid1 uuid2 now d)) = 201 ->
       transporter_sendMail mail = None)
      /\ (forall err,
            falsy email_ = false -> falsy pw = false ->
            emailRegex_test (str email_) = true ->
            find (fun u => String.eqb (User.email u) (str email_)) (rows (users d))
            = None ->
            passwordRegex_test (str pw) = true ->
            find (fun t => String.eqb (ActivateToken.token t)
                                      (tokenString uuid1 uuid2))
                 (rows (activateTokens d)) = None ->
            transporter_sendMail mail = Some err ->
            let newUser :=
              User.mk (nextId (users d)) None None None None (str email_) false
                      (Some (bcrypt_hash (str pw) 12)) DEFAULT now now in
            let authToken :=
              ActivateToken.mk (nextId (activateTokens d)) (tokenString uuid1 uuid2)
                               None (User.id newUser) now now in
            let res := fst (registerUser email_ pw origin uuid1 uuid2 now d) in
            let d' := snd (registerUser email_ pw origin uuid1 uuid2 now d) in
            status res = 500
            /\ authorization res = None
            /\ body res = JsonBody (JObj [("message", JStr err)])
            /\ d' = mkDB (mkTable (rows (users d) ++ [newUser])
                                  (nextId (users d) + 1))
                         (mkTable (rows (activateTokens d) ++ [authToken])
                                  (nextId (activateTokens d) + 1))
                         (passwordResetTokens d) (deleteTokens d) (blogs d)
                         (follows d) (notifications d) (searches d)))
  /\ (forall email_ origin uuid1 uuid2 now d,
      (status (fst (resetPasswordRequest email_ origin uuid1 uuid2 now d)) = 200 ->
       exists u,
         find (fun u => String.eqb (User.email u) (str email_)) (rows (users d))
         = Some u
         /\ transporter_sendMail
              (mailOptions_of (reset_mail (User.email u) (str origin)
                                          (tokenString uuid1 uuid2))) = None)
      /\ (forall u err,
            falsy email_ = false ->
            emailRegex_test (str email_) = true ->
            find (fun u => String.eqb (User.email u) (str email_)) (rows (users d))
            = Some u ->
            User.provider u = DEFAULT ->
            find (fun t => String.eqb (PasswordResetToken.token t)
                                      (tokenString uuid1 uuid2))
                 (rows (passwordResetTokens d)) = None ->
            transporter_sendMail
              (mailOptions_of (reset_mail (User.email u) (str origin)
                                          (tokenString uuid1 uuid2))) = Some err ->
            let passwordReset :=
              PasswordResetToken.mk (nextId (passwordResetTokens d))
                (tokenString uuid1 uuid2) None (User.id u) now now in
            let res := fst (resetPasswordRequest email_ origin uuid1 uuid2 now d) in
            let d' := snd (resetPasswordRequest email_ origin uuid1 uuid2 now d) in
            status res = 500
            /\ authorization res = None
            /\ body res = JsonBody (JObj [("message", JStr err)])
            /\ d' = mkDB (users d) (activateTokens d)
                         (mkTable (rows (passwordResetTokens d) ++ [passwordReset])
                                  (nextId (passwordResetTokens d) + 1))
                         (deleteTokens d) (blogs d) (follows d) (notifications d)
                         (searches d)))
  /\ (forall r uuid1 uuid2 now d,
      let mail := mailOptions_of (deletion_mail (ReqUser.email r)
                                                (tokenString uuid1 uuid2)) in
      (status (fst (sendAccountDeleteEmail r uuid1 uuid2 now d)) = 200 ->
       transporter_sendMail mail = None)
      /\ (forall err,
            find (fun t => String.eqb (DeleteToken.token t) (tokenString uuid1 uuid2))
                 (rows (deleteTokens d)) = None ->
            transporter_sendMail mail = Some err ->
            let deleteToken :=
              DeleteToken.mk (nextId (deleteTokens d)) (tokenString uuid1 uuid2)
                             None (ReqUser.id r) now now in
            let res := fst (sendAccountDeleteEmail r uuid1 uuid2 now d) in
            let d' := snd (sendAccountDeleteEmail r uuid1 uuid2 now d) in
            status res = 500
            /\ authorization res = None
            /\ body res = JsonBody (JObj [("message", JStr err)])
            /\ d' = mkDB (users d) (activateTokens d) (passwordResetTokens d)
                         (mkTable (rows (deleteTokens d) ++ [deleteToken])
                                  (nextId (deleteTokens d) + 1))
                         (blogs d) (follows d) (notifications d) (searches d))).
Proof.
  split; [|split].
  - intros; split; [apply register_success_needs_mail|].
    intros err He Hp Hre Hu Hpre Ht Hmail. cbv zeta.
    rewrite (register_mail_error email_ pw origin uuid1 uuid2 now d
               He Hp Hre Hu Hpre Ht Hmail).
    repeat split.
  - intros; split; [apply reset_request_success_needs_mail|].
    intros u err He Hre Hu Hprov Ht Hmail. cbv zeta.
    rewrite (reset_request_mail_error email_ origin uuid1 uuid2 now d
               He Hre Hu Hprov Ht Hmail).
    repeat split.
  - intros; split; [apply delete_request_success_needs_mail|].
    intros err Ht Hmail. cbv zeta.
    rewrite (delete_request_mail_error r uuid1 uuid2 now d Ht Hmail).
    repeat split.
Qed.

(** Instance of C7 on the sample store with a transporter that refuses
    every message: Eve registers, Alice asks for a password reset and for
    the deletion of her account. Each request is answered 500, and each
    leaves the rows it wrote before the mail. *)
Lemma mail_failure_fails_issuing_witness :
  let reg := @registerUser Sample.mail_down (Some "eve@example.com")
               (Some "Passw0rd!") (Some "http://localhost:3000")
               "1111-aaaa" "2222-bbbb" 5 Sample.store in
  let reset := @resetPasswordRequest Sample.mail_down (Some "alice@example.com")
                 (Some "http://localhost:3000") "1111-aaaa" "2222-bbbb" 5
                 Sample.store in
  let del := @sendAccountDeleteEmail Sample.mail_down (Sample.req Sample.alice)
               "1111-aaaa" "2222-bbbb" 5 Sample.store in
  (status (fst reg) = 500
   /\ body (fst reg) = JsonBody (JObj [("message", JStr "connect ECONNREFUSED")])
   /\ map User.email (rows (users (snd reg)))
      = ["alice@example.com"; "bob@example.com"; "carol@example.com";
         "dave@example.com"; "eve@example.com"]
   /\ map ActivateToken.token (rows (activateTokens (snd reg)))
      = ["act-alice"; "1111aaaa2222bbbb"])
  /\ (status (fst reset) = 500
      /\ map PasswordResetToken.token (rows (passwordResetTokens (snd reset)))
         = ["reset-alice"; "1111aaaa2222bbbb"])
  /\ (status (fst del) = 500
      /\ map DeleteToken.token (rows (deleteTokens (snd del)))
         = ["del-alice"; "1111aaaa2222bbbb"]).
Proof.
  destruct (@mail_failure_fails_issuing Sample.mail_down) as (R & P & D).
  cbv zeta. split; [|split].
  - destruct (proj2 (R (Some "eve@example.com") (Some "Passw0rd!")
                       (Some "http://localhost:3000") "1111-aaaa" "2222-bbbb" 5
                       Sample.store) "connect ECONNREFUSED"
                eq_refl eq_refl eq_refl eq_refl eq_refl eq_refl eq_refl)
      as (Hs & _ & Hb & Hd).
    rewrite Hs, Hb, Hd. repeat split.
  - destruct (proj2 (P (Some "alice@example.com") (Some "http://localhost:3000")
                       "1111-aaaa" "2222-bbbb" 5 Sample.store)
                Sample.alice "connect ECONNREFUSED"
                eq_refl eq_refl eq_refl eq_refl eq_refl eq_refl)
      as (Hs & _ & _ & Hd).
    rewrite Hs, Hd. repeat split.
  - destruct (proj2 (D (Sample.req Sample.alice) "1111-aaaa" "2222-bbbb" 5
                       Sample.store) "connect ECONNREFUSED" eq_refl eq_refl)
      as (Hs & _ & _ & Hd).
    rewrite Hs, Hd. repeat split.
Defined.

(** C7 as stated fails: the operation does not fail as a whole. With the
    transporter down Eve's registration is answered 500, yet her account
    and her activation token are in the store afterwards: the token
    activates the account, and registering again, with the transporter
    back, is refused because the account exists. *)
Lemma failed_registration_is_not_rolled_back :
  let failed := @registerUser Sample.mail_down (Some "eve@example.com")
                  (Some "Passw0rd!") (Some "http://localhost:3000")
                  "1111-aaaa" "2222-bbbb" 5 Sample.store in
  let d1 := snd failed in
  @transporter_sendMail Sample.mail_down
    (@mailOptions_of Sample.mail_down
       (activation_mail "eve@example.com" "http://localhost:3000"
                        "1111aaaa2222bbbb"))
  = Some "connect ECONNREFUSED"
  /\ status (fst failed) = 500
  /\ d1 <> Sample.store
  /\ map User.email (rows (users d1))
     = ["alice@example.com"; "bob@example.com"; "carol@example.com";
        "dave@example.com"; "eve@example.com"]
  /\ map ActivateToken.token (rows (activateTokens d1))
     = ["act-alice"; "1111aaaa2222bbbb"]
  /\ status (fst (activateAccount "1111aaaa2222bbbb" 6 d1)) = 200
  /\ fst (@registerUser Sample.mail_up (Some "eve@example.com") (Some "Passw0rd!")
            (Some "http://localhost:3000") "3333-cccc" "4444-dddd" 6 d1)
     = send 400 "User already exists".
Proof.
  cbv zeta. repeat split; try (vm_compute; reflexivity).
  vm_compute. discriminate.
Qed.

(** ** Sessions *)

Section Session.
Context `{Collaborators}.

Lemma protect_bearer (h tok : string) (now : Z) (d : DB) :
  prefix "Bearer" h = true ->
  nth_error (split_on " " h) 1 = Some tok ->
  tok <> EmptyString ->
  protect (Some h) now d
  = match jwt_verify tok JWT_SECRET now with
    | inl _ => (Ok (Reply (send 401 "Unauthorized")), d)
    | inr decoded_id =>
        match find (fun u => User.id u =? decoded_id) (rows (users d)) with
        | None => (Ok (Reply (send 401 "Unauthorized")), d)
        | Some u => (Ok (Next (select_req_user u)), d)
        end
    end.
Proof.
  intros Hp Hn Hne. unfold protect.
  assert (Hh : falsy (Some h) = false) by (destruct h; [discriminate|reflexivity]).
  rewrite Hh. cbn [negb andb str]. rewrite Hp, Hn. cbn [falsy str].
  destruct (String.eqb_spec tok EmptyString); [contradiction|].
  unfold unauthorized. run.
  destruct (jwt_verify tok JWT_SECRET now); [reflexivity|].
  destruct (find _ (rows (users d))); reflexivity.
Qed.
End Session.

(** C8, as the code has it. [generateToken] signs the payload [{ id }] with
    [JWT_SECRET] and the option [expiresIn: 30d]. For a [Bearer] header with
    a token after the space, [protect] answers 401 whenever [jwt.verify]
    throws (bad signature, expired token or any other of its errors); when
    it returns an id, [protect] looks the user up: the request goes on with
    that user, whose id is the embedded one, if the row exists, and is
    answered 401 otherwise. The store is never changed. *)
Theorem session_issue_and_verify `{Collaborators}
        (h tok : string) (now : Z) (d : DB) :
  prefix "Bearer" h = true ->
  nth_error (split_on " " h) 1 = Some tok ->
  tok <> EmptyString ->
  (forall id t, generateToken id t = jwt_sign id JWT_SECRET "30d" t)
  /\ (forall e, jwt_verify tok JWT_SECRET now = inl e ->
               protect (Some h) now d = (Ok (Reply (send 401 "Unauthorized")), d))
  /\ (forall id u,
        jwt_verify tok JWT_SECRET now = inr id ->
        find (fun u => User.id u =? id) (rows (users d)) = Some u ->
        protect (Some h) now d = (Ok (Next (select_req_user u)), d)
        /\ ReqUser.id (select_req_user u) = id)
  /\ (forall id,
        jwt_verify tok JWT_SECRET now = inr id ->
        find (fun u => User.id u =? id) (rows (users d)) = None ->
        protect (Some h) now d = (Ok (Reply (send 401 "Unauthorized")), d)).
Proof.
  intros Hp Hn Hne. rewrite (protect_bearer h now d Hp Hn Hne).
  split; [reflexivity|split; [|split]].
  - intros e ->. reflexivity.
  - intros id u -> Hu. rewrite Hu. split; [reflexivity|].
    apply find_some in Hu. destruct Hu as [_ Hid]. simpl. lia.
  - intros id -> Hu. now rewrite Hu.
Qed.

(** Instance of C8 with the sample collaborators: a session issued to Alice
    at time 0 is accepted one second later and refused after 31 days. *)
Lemma session_issue_and_verify_witness :
  let tok := @generateToken Sample.mail_up 1 0 in
  @protect Sample.mail_up (Some ("Bearer " ++ tok)) 1000 Sample.store
  = (Ok (Next (select_req_user Sample.alice)), Sample.store)
  /\ @protect Sample.mail_up (Some ("Bearer " ++ tok)) (31 * day) Sample.store
     = (Ok (Reply (send 401 "Unauthorized")), Sample.store).
Proof.
  split.
  - apply (proj1 (proj2 (proj2 (@session_issue_and_verify Sample.mail_up
             ("Bearer " ++ @generateToken Sample.mail_up 1 0)
             (@generateToken Sample.mail_up 1 0) 1000 Sample.store
             eq_refl eq_refl ltac:(discriminate)))) 1 Sample.alice eq_refl eq_refl).
  - apply (proj1 (proj2 (@session_issue_and_verify Sample.mail_up
             ("Bearer " ++ @generateToken Sample.mail_up 1 0)
             (@generateToken Sample.mail_up 1 0) (31 * day) Sample.store
             eq_refl eq_refl ltac:(discriminate))) TokenExpiredError eq_refl).
Defined.

(** C8 as stated fails when the user behind a session is gone: the token
    issued for id 7 verifies (good signature, not expired), and the request
    is answered 401 because no user 7 is stored. *)
Lemma valid_session_of_missing_user_is_refused :
  let tok := @generateToken Sample.mail_up 7 0 in
  @jwt_verify Sample.mail_up tok (@JWT_SECRET Sample.mail_up) 1000 = inr 7
  /\ fst (@protect Sample.mail_up (Some ("Bearer " ++ tok)) 1000 Sample.store)
     = Ok (Reply (send 401 "Unauthorized")).
Proof. vm_compute. split; reflexivity. Qed.

(** C9. A deletion token that is found and not expired, presented by a
    requester other than the user it is bound to, is answered 403 and the
    store is left as it was; and [deleteUser] answers 200 only for a stored
    token bound to the requester. *)
Theorem delete_token_bound_to_requester `{Collaborators}
        (r : ReqUser.t) (p : string) (now : Z) (d : DB) :
  (forall tok,
      find (fun t => String.eqb (DeleteToken.token t) p) (rows (deleteTokens d))
      = Some tok ->
      now - DeleteToken.createdAt tok <= day ->
      DeleteToken.userId tok <> ReqUser.id r ->
      deleteUser r p now d = (send 403 "Forbidden", d))
  /\ (status (fst (deleteUser r p now d)) = 200 ->
      exists tok,
        find (fun t => String.eqb (DeleteToken.token t) p) (rows (deleteTokens d))
        = Some tok
        /\ DeleteToken.userId tok = ReqUser.id r).
Proof.
  split.
  - intros tok Hf Hage Hne. rewrite (delete_token_in_time r p now d Hf Hage).
    destruct (Z.eqb_spec (DeleteToken.userId tok) (ReqUser.id r));
      [contradiction|reflexivity].
  - intros Hs.
    destruct (find (fun t => String.eqb (DeleteToken.token t) p)
                (rows (deleteTokens d))) as [tok|] eqn:Hf.
    + exists tok. split; [reflexivity|].
      destruct (Z_le_gt_dec (now - DeleteToken.createdAt tok) day) as [Hage|Hage].
      * rewrite (delete_token_in_time r p now d Hf Hage) in Hs.
        destruct (Z.eqb_spec (DeleteToken.userId tok) (ReqUser.id r));
          [assumption|discriminate].
      * rewrite (delete_token_expired r p now d Hf Hage) in Hs. discriminate.
    + assert (E : deleteUser r p now d = (send 404 "Token not found", d))
        by (unfold deleteUser; run; now rewrite Hf).
      rewrite E in Hs. discriminate.
Qed.

(** Instance of C9 on the sample store: Bob presents Alice's deletion
    token one hour after its creation. *)
Lemma delete_token_bound_to_requester_witness :
  @deleteUser Sample.mail_up (Sample.req Sample.bob) "del-alice" Sample.hour
     Sample.store
  = (send 403 "Forbidden", Sample.store).
Proof.
  apply (proj1 (@delete_token_bound_to_requester Sample.mail_up
                  (Sample.req Sample.bob) "del-alice" Sample.hour Sample.store)
           (DeleteToken.mk 1 "del-alice" None 1 0 0) eq_refl).
  - vm_compute; discriminate.
  - discriminate.
Defined.


(** ** Recent searches *)

Section MoreListFacts.
Variables A B : Type.

Lemma filter_filter_and (p q : A -> bool) (l : list A) :
  filter p (filter q l) = filter (fun x => q x && p x) l.
Proof.
  induction l as [|x l IH]; simpl; [reflexivity|].
  destruct (q x); simpl; [destruct (p x)|]; now rewrite IH.
Qed.

Lemma filter_all_true (p : A -> bool) (l : list A) :
  (forall x, In x l -> p x = true) -> filter p l = l.
Proof.
  induction l as [|x l IH]; simpl; intros Hall; [reflexivity|].
  rewrite (Hall x (or_introl eq_refl)). f_equal. apply IH. intros; apply Hall; now right.
Qed.

(** Filtering keeps the images under [g] distinct. *)
Lemma distinct_images_filter (g : A -> B) (keep : A -> bool) (xs : list A)
      (Hd : NoDup (map g xs)) :
  NoDup (map g (filter keep xs)).
Proof.
  induction xs as [|x xs IH]; simpl in *; [constructor|].
  inversion Hd as [|? ? Hnotin Hd']; subst.
  destruct (keep x); simpl; [constructor|]; auto.
  intros Hin. apply Hnotin. apply in_map_iff in Hin. destruct Hin as (y & <- & Hy).
  apply filter_In in Hy. apply in_map, Hy.
Qed.

Lemma NoDup_map_injective (f : A -> B) (l : list A) (x y : A) :
  NoDup (map f l) -> In x l -> In y l -> f x = f y -> x = y.
Proof.
  induction l as [|z l IH]; simpl; intros Hnd Hx Hy E; [contradiction|].
  inversion Hnd as [|? ? Hnotin Hnd']; subst.
  destruct Hx as [<-|Hx], Hy as [<-|Hy]; auto.
  - exfalso. apply Hnotin. rewrite E. now apply in_map.
  - exfalso. apply Hnotin. rewrite <- E. now apply in_map.
Qed.
End MoreListFacts.

Section Ordering.
Variable A : Type.
Variable key : A -> Z.

Lemma insert_desc_perm (x : A) (l : list A) :
  Permutation (insert_desc key x l) (x :: l).
Proof.
  induction l as [|y l IH]; simpl; [reflexivity|].
  destruct (key y <=? key x); [reflexivity|].
  rewrite IH. apply perm_swap.
Qed.

Lemma orderBy_desc_perm (l : list A) : Permutation (orderBy_desc key l) l.
Proof.
  induction l as [|x l IH]; simpl; [constructor|].
  rewrite insert_desc_perm. now constructor.
Qed.

Lemma insert_desc_sorted (x : A) (l : list A) :
  StronglySorted (descending key) l -> StronglySorted (descending key) (insert_desc key x l).
Proof.
  induction 1 as [|y l Hs IH Hall]; simpl.
  - repeat constructor.
  - destruct (Z.leb_spec (key y) (key x)) as [Hle|Hgt].
    + constructor; [now constructor|].
      constructor; [exact Hle|].
      eapply Forall_impl; [|exact Hall]. unfold descending; intros; lia.
    + constructor; [exact IH|].
      eapply Permutation_Forall; [symmetry; apply insert_desc_perm|].
      constructor; [unfold descending; lia|exact Hall].
Qed.

Lemma orderBy_desc_sorted (l : list A) : StronglySorted (descending key) (orderBy_desc key l).
Proof.
  induction l as [|x l IH]; simpl; [constructor|]. now apply insert_desc_sorted.
Qed.

Lemma sorted_split (l1 l2 : list A) (a b : A) :
  StronglySorted (descending key) (l1 ++ l2) -> In a l1 -> In b l2 -> key b <= key a.
Proof.
  induction l1 as [|x l1 IH]; simpl; intros Hs Ha Hb; [contradiction|].
  inversion Hs as [|? ? Hs' Hall]; subst.
  destruct Ha as [<-|Ha]; [|now apply IH].
  rewrite Forall_forall in Hall. apply Hall, in_or_app. now right.
Qed.
End Ordering.

Section Searches.
Context `{Collaborators}.

Lemma kept_nil (x : Searches.t) : kept [] x = true.
Proof. reflexivity. Qed.

Lemma kept_cons (s : Searches.t) (del : list Searches.t) (x : Searches.t) :
  kept (s :: del) x = negb (Searches.id x =? Searches.id s) && kept del x.
Proof. unfold kept; simpl. apply negb_orb. Qed.

Lemma delete_search_present (s : Searches.t) (d : DB) :
  In s (rows (searches d)) ->
  exists y,
    delete db_searches (fun x => Searches.id x =? Searches.id s) d
    = (Ok y,
       tset db_searches
         (mkTable (filter (fun x => negb (Searches.id x =? Searches.id s))
                          (rows (searches d)))
                  (nextId (searches d))) d).
Proof.
  intros Hin. unfold delete. proj.
  destruct (find _ (rows (searches d))) as [y|] eqn:Hf; [now exists y|].
  apply (find_none _ _ Hf) in Hin. rewrite Z.eqb_refl in Hin. discriminate.
Qed.

(** The trimming loop deletes exactly the rows it is given and cannot
    throw, provided they are stored and have distinct ids. *)
Lemma for_each_delete (del : list Searches.t) (d : DB) :
  NoDup (map Searches.id del) ->
  (forall s, In s del -> In s (rows (searches d))) ->
  exists d',
    for_each del
      (fun s => delete db_searches (fun x => Searches.id x =? Searches.id s)) d
    = (Ok tt, d')
    /\ rows (searches d') = filter (kept del) (rows (searches d))
    /\ nextId (searches d') = nextId (searches d)
    /\ users d' = users d.
Proof.
  revert d; induction del as [|s del IH]; intros d Hnd Hin; simpl.
  - exists d. repeat split. symmetry. apply filter_all_true. intros; apply kept_nil.
  - inversion Hnd as [|? ? Hnotin Hnd']; subst.
    destruct (delete_search_present s d (Hin s (or_introl eq_refl))) as (y & E).
    unfold bind. rewrite E.
    destruct (IH (tset db_searches
                    (mkTable (filter (fun x => negb (Searches.id x =? Searches.id s))
                                     (rows (searches d)))
                             (nextId (searches d))) d) Hnd')
      as (d' & E' & Hrows & Hnext & Husers).
    { intros s' Hs'. proj. apply filter_In. split; [apply Hin; now right|].
      destruct (Z.eqb_spec (Searches.id s') (Searches.id s)) as [Eid|]; [|reflexivity].
      exfalso. apply Hnotin. rewrite <- Eid. now apply in_map. }
    exists d'. split; [exact E'|]. proj. split; [|split; assumption].
    rewrite Hrows. proj. rewrite filter_filter_and. apply filter_ext.
    intros x. now rewrite kept_cons.
Qed.

Lemma in_skipn (A : Type) (n : nat) (l : list A) (x : A) :
  In x (skipn n l) -> In x l.
Proof. intros Hx. rewrite <- (firstn_skipn n l). apply in_or_app. now right. Qed.

Lemma in_firstn (A : Type) (n : nat) (l : list A) (x : A) :
  In x (firstn n l) -> In x l.
Proof. intros Hx. rewrite <- (firstn_skipn n l). apply in_or_app. now left. Qed.

Lemma recent_ids_distinct (uid : Z) (d : DB) :
  NoDup (map Searches.id (rows (searches d))) ->
  NoDup (map Searches.id (orderBy_desc Searches.createdAt (searches_of uid d))).
Proof.
  intros Hnd. eapply Permutation_NoDup.
  - apply Permutation_map. symmetry. apply orderBy_desc_perm.
  - now apply distinct_images_filter.
Qed.

Lemma dropped_stored (uid : Z) (d : DB) (s : Searches.t) :
  In s (dropped uid d) -> In s (searches_of uid d).
Proof.
  unfold dropped. destruct (5 <=? _); [|contradiction].
  intros Hs. apply in_skipn in Hs.
  eapply Permutation_in; [apply orderBy_desc_perm|exact Hs].
Qed.

Lemma dropped_ids_distinct (uid : Z) (d : DB) :
  NoDup (map Searches.id (rows (searches d))) ->
  NoDup (map Searches.id (dropped uid d)).
Proof.
  intros Hnd. unfold dropped. destruct (5 <=? _); [|constructor].
  rewrite <- skipn_map.
  pose proof (recent_ids_distinct uid d Hnd) as Hr.
  rewrite <- (firstn_skipn 4) in Hr. exact (NoDup_app_remove_l _ _ Hr).
Qed.

Lemma search_trims (uid : Z) (d : DB) :
  NoDup (map Searches.id (rows (searches d))) ->
  let recent := orderBy_desc Searches.createdAt (searches_of uid d) in
  exists d1,
    (if 5 <=? Z.of_nat (List.length recent)
     then for_each (skipn 4 recent)
            (fun s => delete db_searches (fun x => Searches.id x =? Searches.id s))
     else ret tt) d
    = (Ok tt, d1)
    /\ rows (searches d1) = filter (kept (dropped uid d)) (rows (searches d))
    /\ nextId (searches d1) = nextId (searches d)
    /\ users d1 = users d.
Proof.
  intros Hnd recent.
  destruct (for_each_delete (dropped uid d) d (dropped_ids_distinct uid d Hnd))
    as (d1 & E & Hrows & Hnext & Husers).
  { intros s Hs. apply dropped_stored in Hs. apply filter_In in Hs. apply Hs. }
  exists d1. split; [|repeat split; assumption].
  rewrite <- E. unfold dropped. fold recent.
  destruct (5 <=? Z.of_nat (List.length recent)); reflexivity.
Qed.

Lemma search_runs (r : ReqUser.t) (q : string) (skip : option string) (now : Z)
      (d : DB) :
  q <> EmptyString ->
  NoDup (map Searches.id (rows (searches d))) ->
  let uid := ReqUser.id r in
  let rows1 := filter (kept (dropped uid d)) (rows (searches d)) in
  let new := Searches.mk (nextId (searches d)) uid q now in
  exists view d',
    searchBlogs r (Some q) skip now d = (json 200 view, d')
    /\ rows (searches d')
       = match find (same_search q uid) rows1 with
         | Some dup =>
             filter (fun x => negb (Searches.id x =? Searches.id dup))
                    (rows1 ++ [new])%list
         | None => (rows1 ++ [new])%list
         end.
Proof.
  intros Hq Hnd uid rows1 new.
  destruct (search_trims uid d Hnd) as (d1 & E & Hrows & Hnext & _).
  unfold searchBlogs. cbn [falsy str].
  destruct (String.eqb_spec q EmptyString); [contradiction|].
  unfold try_catch, bind, read, findMany, findFirst. proj.
  fold uid. fold (searches_of uid d). rewrite E.
  fold (same_search q uid). rewrite Hrows. fold rows1. unfold ret.
  unfold create. proj. rewrite existsb_all_false by reflexivity.
  rewrite Hrows, Hnext. fold rows1. fold new.
  destruct (find (same_search q uid) rows1) as [dup|] eqn:Hdup.
  - unfold delete. proj.
    destruct (find (fun x => Searches.id x =? Searches.id dup) (rows1 ++ [new])%list)
      as [y|] eqn:Hy.
    + eexists _, _. split; reflexivity.
    + apply find_some in Hdup. destruct Hdup as [Hin _].
      assert (Hin' : In dup (rows1 ++ [new])%list) by (apply in_or_app; now left).
      apply (find_none _ _ Hy) in Hin'. rewrite Z.eqb_refl in Hin'. discriminate.
  - eexists _, _. split; reflexivity.
Qed.

Lemma filter_and_length (A : Type) (p q : A -> bool) (l : list A) :
  (List.length (filter (fun x => p x && q x) l) <= List.length (filter p l))%nat.
Proof.
  induction l as [|x l IH]; simpl; [lia|].
  destruct (p x); simpl; [destruct (q x); simpl; lia|exact IH].
Qed.

Lemma NoDup_app_disjoint (A : Type) (l1 l2 : list A) (x : A) :
  NoDup (l1 ++ l2) -> In x l1 -> In x l2 -> False.
Proof.
  induction l1 as [|y l1 IH]; simpl; intros Hnd H1 H2; [contradiction|].
  inversion Hnd as [|? ? Hnotin Hnd']; subst.
  destruct H1 as [<-|H1]; [|now apply IH].
  apply Hnotin, in_or_app. now right.
Qed.

Lemma kept_false (del : list Searches.t) (x : Searches.t) :
  In x del -> kept del x = false.
Proof.
  intros Hx. unfold kept. apply negb_false_iff, existsb_exists.
  exists x. split; [exact Hx|apply Z.eqb_refl].
Qed.

(** Of the requester's rows, trimming keeps only some of the four most
    recent ones. *)
Lemma trim_keeps_recent (uid : Z) (d : DB) (x : Searches.t) :
  let recent := orderBy_desc Searches.createdAt (searches_of uid d) in
  (5 <= List.length recent)%nat ->
  In x (searches_of uid d) -> kept (dropped uid d) x = true ->
  In x (firstn 4 recent).
Proof.
  intros recent Hlen Hx Hk.
  assert (Hr : In x recent)
    by (eapply Permutation_in; [symmetry; apply orderBy_desc_perm|exact Hx]).
  rewrite <- (firstn_skipn 4 recent) in Hr. apply in_app_or in Hr.
  destruct Hr as [Hr|Hr]; [exact Hr|].
  rewrite kept_false in Hk; [discriminate|].
  unfold dropped. fold recent.
  destruct (Z.leb_spec 5 (Z.of_nat (List.length recent))); [exact Hr|lia].
Qed.

(** It keeps all four of them. *)
Lemma trim_spares_recent (uid : Z) (d : DB) (x : Searches.t) :
  NoDup (map Searches.id (rows (searches d))) ->
  In x (firstn 4 (orderBy_desc Searches.createdAt (searches_of uid d))) ->
  kept (dropped uid d) x = true.
Proof.
  intros Hnd Hx. unfold kept. apply negb_true_iff.
  destruct (existsb _ (dropped uid d)) eqn:Ex; [|reflexivity].
  exfalso. apply existsb_exists in Ex. destruct Ex as (s & Hs & Eid).
  apply Z.eqb_eq in Eid.
  pose proof (recent_ids_distinct uid d Hnd) as Hr.
  unfold dropped in Hs.
  destruct (5 <=? _); [|contradiction].
  assert (x = s).
  { eapply (NoDup_map_injective Searches.id) with (l := orderBy_desc _ _);
      eauto using in_firstn, in_skipn. }
  subst s. apply NoDup_map_inv in Hr. rewrite <- (firstn_skipn 4) in Hr.
  exact (NoDup_app_disjoint _ _ _ Hr Hx Hs).
Qed.

Lemma trim_bound (uid : Z) (d : DB) :
  NoDup (map Searches.id (rows (searches d))) ->
  (List.length (filter (kept (dropped uid d)) (searches_of uid d)) <= 4)%nat.
Proof.
  intros Hnd.
  set (recent := orderBy_desc Searches.createdAt (searches_of uid d)).
  destruct (Nat.le_gt_cases 5 (List.length recent)) as [Hlen|Hlen].
  - transitivity (List.length (firstn 4 recent)); [|apply firstn_le_length].
    apply NoDup_incl_length.
    + apply NoDup_filter, NoDup_filter. now apply NoDup_map_inv in Hnd.
    + intros x Hx. apply filter_In in Hx. destruct Hx as [Hx Hk].
      now apply trim_keeps_recent.
  - etransitivity; [apply filter_length_le|].
    rewrite <- (Permutation_length (orderBy_desc_perm Searches.createdAt _)).
    fold recent. lia.
Qed.

(** A row of another user has the id of none of the requester's rows. *)
Lemma foreign_id (uid : Z) (d : DB) (x s : Searches.t) :
  NoDup (map Searches.id (rows (searches d))) ->
  In x (rows (searches d)) -> Searches.userId x <> uid ->
  In s (searches_of uid d) ->
  (Searches.id x =? Searches.id s) = false.
Proof.
  intros Hnd Hx Hne Hs. apply filter_In in Hs. destruct Hs as [Hs Hu].
  apply Z.eqb_eq in Hu.
  destruct (Z.eqb_spec (Searches.id x) (Searches.id s)) as [E|]; [|reflexivity].
  exfalso. apply Hne. rewrite <- Hu. f_equal.
  now apply (NoDup_map_injective Searches.id (rows (searches d))).
Qed.

Lemma search_shape (r : ReqUser.t) (q : string) (skip : option string) (now : Z)
      (d : DB) :
  q <> EmptyString -> searches_wf d ->
  let uid := ReqUser.id r in
  let del := dropped uid d in
  let dup := find (same_search q uid) (filter (kept del) (rows (searches d))) in
  let new := Searches.mk (nextId (searches d)) uid q now in
  exists view d',
    searchBlogs r (Some q) skip now d = (json 200 view, d')
    /\ searches_of uid d'
       = (filter (survives del dup) (searches_of uid d) ++ [new])%list
    /\ forall other, other <> uid -> searches_of other d' = searches_of other d.
Proof.
  intros Hq [Hnd Hfresh] uid del dup new.
  destruct (search_runs r skip now d Hq Hnd) as (view & d' & E & Hrows).
  fold uid del dup new in Hrows.
  set (rows1 := filter (kept del) (rows (searches d))) in *.
  assert (Hdup : forall s, dup = Some s ->
                           In s (searches_of uid d) /\ Searches.content s = q).
  { intros s Hs. apply find_some in Hs. destruct Hs as [Hin Hsel].
    apply filter_In in Hin. destruct Hin as [Hin _].
    apply andb_prop in Hsel. destruct Hsel as [Hc Hu].
    split; [apply filter_In; now split|now apply String.eqb_eq]. }
  assert (Hnew : not_row dup new = true).
  { destruct dup as [s|] eqn:Ed; [|reflexivity]. simpl.
    destruct (Hdup s eq_refl) as [Hin _]. apply filter_In in Hin.
    rewrite Forall_forall in Hfresh. pose proof (Hfresh s (proj1 Hin)).
    apply negb_true_iff, Z.eqb_neq. lia. }
  assert (Hshape : rows (searches d') = filter (not_row dup) (rows1 ++ [new])).
  { rewrite Hrows. destruct dup; [reflexivity|].
    symmetry. now apply filter_all_true. }
  exists view, d'. split; [exact E|]. unfold searches_of. rewrite Hshape.
  rewrite filter_app. simpl. rewrite Hnew. rewrite !filter_app. split.
  - simpl. unfold uid at 2. rewrite Z.eqb_refl. f_equal.
    unfold rows1. rewrite !filter_filter_and. apply filter_ext.
    intros x. unfold survives.
    destruct (kept del x), (not_row dup x), (Searches.userId x =? uid); reflexivity.
  - intros other Hother. rewrite filter_app. simpl.
    destruct (Z.eqb_spec uid other) as [Hu|_]; [now symmetry in Hu|].
    rewrite app_nil_r. unfold rows1. rewrite !filter_filter_and.
    apply filter_ext_in. intros x Hx.
    destruct (Z.eqb_spec (Searches.userId x) other) as [Hx'|];
      [|now rewrite !andb_false_r].
    rewrite andb_true_r.
    assert (Hkept : kept del x = true).
    { unfold kept. apply negb_true_iff. apply existsb_all_false.
      intros s Hs.
      apply (@foreign_id uid d x s Hnd Hx); [lia|now apply dropped_stored]. }
    rewrite Hkept. simpl. destruct dup as [s|] eqn:Ed; [|reflexivity]. simpl.
    destruct (Hdup s eq_refl) as [Hs _].
    rewrite (@foreign_id uid d x s Hnd Hx); [reflexivity|lia|exact Hs].
Qed.

Lemma duplicate_found (q : string) (uid : Z) (d : DB) (s : Searches.t) :
  find (same_search q uid) (filter (kept (dropped uid d)) (rows (searches d)))
  = Some s ->
  In s (searches_of uid d) /\ Searches.content s = q.
Proof.
  intros Hs. apply find_some in Hs. destruct Hs as [Hin Hsel].
  apply filter_In in Hin. destruct Hin as [Hin _].
  apply andb_prop in Hsel. destruct Hsel as [Hc Hu].
  split; [apply filter_In; now split|now apply String.eqb_eq].
Qed.

(** A row of the requester that is not trimmed and carries another text
    than the query passes. *)
Lemma other_text_survives (q : string) (uid : Z) (d : DB) (x : Searches.t) :
  NoDup (map Searches.id (rows (searches d))) ->
  In x (searches_of uid d) -> kept (dropped uid d) x = true ->
  Searches.content x <> q ->
  survives (dropped uid d)
    (find (same_search q uid) (filter (kept (dropped uid d)) (rows (searches d))))
    x = true.
Proof.
  intros Hnd Hx Hk Hc. unfold survives. rewrite Hk. simpl.
  destruct (find _ _) as [s|] eqn:Hs; [|reflexivity]. simpl.
  destruct (duplicate_found q uid d Hs) as [Hin Hq].
  apply negb_true_iff, Z.eqb_neq. intros Eid. apply Hc. rewrite <- Hq. f_equal.
  apply filter_In in Hx. apply filter_In in Hin.
  now apply (NoDup_map_injective Searches.id (rows (searches d))).
Qed.

(** When the requester's texts are distinct, no row that passes carries
    the query. *)
Lemma no_old_duplicate (q : string) (uid : Z) (d : DB) (x : Searches.t) :
  NoDup (map Searches.content (searches_of uid d)) ->
  In x (searches_of uid d) ->
  survives (dropped uid d)
    (find (same_search q uid) (filter (kept (dropped uid d)) (rows (searches d))))
    x = true ->
  Searches.content x <> q.
Proof.
  intros Hnd Hx Hsurv Hc. unfold survives in Hsurv.
  apply andb_prop in Hsurv. destruct Hsurv as [Hk Hn].
  destruct (find _ _) as [s|] eqn:Hs.
  - destruct (duplicate_found q uid d Hs) as [Hin Hq].
    assert (x = s)
      by (apply (NoDup_map_injective Searches.content (searches_of uid d));
          auto; congruence).
    subst s. simpl in Hn. rewrite Z.eqb_refl in Hn. discriminate.
  - apply filter_In in Hx. destruct Hx as [Hx Hu].
    assert (Hin : In x (filter (kept (dropped uid d)) (rows (searches d))))
      by (apply filter_In; now split).
    apply (find_none _ _ Hs) in Hin. unfold same_search in Hin.
    rewrite Hu, Hc, String.eqb_refl in Hin. discriminate.
Qed.
End Searches.

(** C10. A search with a non-empty query on a store whose search ids are
    distinct and below the sequence completes with 200 and leaves the
    requester with at most five recent searches, the new one last and the
    others taken from the earlier ones. When five or more existed, the
    earlier ones that remain are among the four most recent (which are no
    older than the trimmed ones), and each of those four remains unless it
    carries the query; when fewer existed, each remains unless it carries
    the query. If the requester's texts were distinct before they are
    distinct after, and the only row carrying the query is the new one.
    The searches of other users are untouched. *)
Theorem recent_searches_bounded `{Collaborators}
        (r : ReqUser.t) (q : string) (skip : option string) (now : Z) (d : DB) :
  q <> EmptyString -> searches_wf d ->
  let uid := ReqUser.id r in
  let before := searches_of uid d in
  let recent := orderBy_desc Searches.createdAt before in
  let new := Searches.mk (nextId (searches d)) uid q now in
  exists view d',
    searchBlogs r (Some q) skip now d = (json 200 view, d')
    /\ (List.length (searches_of uid d') <= 5)%nat
    /\ (exists old, searches_of uid d' = (old ++ [new])%list /\ incl old before)
    /\ ((5 <= List.length recent)%nat ->
        (forall s, In s (searches_of uid d') -> s = new \/ In s (firstn 4 recent))
        /\ (forall s, In s (firstn 4 recent) -> Searches.content s <> q ->
                      In s (searches_of uid d'))
        /\ (forall a b, In a (firstn 4 recent) -> In b (skipn 4 recent) ->
                        Searches.createdAt b <= Searches.createdAt a))
    /\ ((List.length recent < 5)%nat ->
        forall s, In s before -> Searches.content s <> q ->
                  In s (searches_of uid d'))
    /\ (NoDup (map Searches.content before) ->
        NoDup (map Searches.content (searches_of uid d'))
        /\ forall s, In s (searches_of uid d') -> Searches.content s = q -> s = new)
    /\ (forall other, other <> uid -> searches_of other d' = searches_of other d).
Proof.
  intros Hq Hwf uid before recent new.
  destruct (search_shape r skip now Hq Hwf) as (view & d' & E & Hmine & Hothers).
  destruct Hwf as [Hnd Hfresh]. fold uid before new in Hmine.
  set (dup := find (same_search q uid)
                (filter (kept (dropped uid d)) (rows (searches d)))) in *.
  exists view, d'. split; [exact E|]. rewrite Hmine.
  split; [|split; [|split; [|split; [|split]]]].
  - rewrite length_app. simpl.
    assert (B1 : (List.length (filter (survives (dropped uid d) dup) before)
                  <= List.length (filter (kept (dropped uid d)) before))%nat)
      by apply filter_and_length.
    assert (B2 : (List.length (filter (kept (dropped uid d)) before) <= 4)%nat)
      by now apply trim_bound.
    lia.
  - eexists; split; [reflexivity|]. intros x Hx. now apply filter_In in Hx.
  - intros Hlen. split; [|split].
    + intros s Hs. apply in_app_or in Hs. destruct Hs as [Hs|[<-|[]]]; [|now left].
      right. apply filter_In in Hs. destruct Hs as [Hs Hsurv].
      apply andb_prop in Hsurv. now apply trim_keeps_recent.
    + intros s Hs Hc. apply in_or_app. left.
      assert (Hb : In s before)
        by (eapply Permutation_in; [apply orderBy_desc_perm|];
            eapply in_firstn; exact Hs).
      apply filter_In. split; [exact Hb|].
      apply other_text_survives; auto. now apply trim_spares_recent.
    + intros a b Ha Hb.
      apply (@sorted_split _ Searches.createdAt (firstn 4 recent) (skipn 4 recent));
        auto.
      rewrite firstn_skipn. apply orderBy_desc_sorted.
  - intros Hlen s Hs Hc. apply in_or_app. left.
    apply filter_In. split; [exact Hs|].
    apply other_text_survives; auto.
    unfold dropped. fold before recent.
    destruct (Z.leb_spec 5 (Z.of_nat (List.length recent))); [lia|reflexivity].
  - intros Hdistinct. split.
    + rewrite map_app. apply NoDup_app.
      * now apply distinct_images_filter.
      * simpl. repeat constructor. intros [].
      * intros a Ha [<-|[]]. apply in_map_iff in Ha.
        destruct Ha as (x & Hc & Hx). apply filter_In in Hx.
        destruct Hx as [Hx Hsurv].
        exact (@no_old_duplicate q uid d x Hdistinct Hx Hsurv Hc).
    + intros s Hs Hc. apply in_app_or in Hs. destruct Hs as [Hs|[<-|[]]]; [|reflexivity].
      apply filter_In in Hs. destruct Hs as [Hs Hsurv].
      destruct (@no_old_duplicate q uid d s Hdistinct Hs Hsurv Hc).
  - exact Hothers.
Qed.

(** Instance of C10 on the sample store: Alice, who has the five searches
    [a] to [e], searches for [c] again. *)
Lemma recent_searches_bounded_witness :
  exists view d',
    @searchBlogs Sample.mail_up (Sample.req Sample.alice) (Some "c") None 100
       Sample.store = (json 200 view, d')
    /\ (List.length (searches_of 1 d') <= 5)%nat
    /\ NoDup (map Searches.content (searches_of 1 d')).
Proof.
  assert (Hwf : searches_wf Sample.store).
  { split; simpl.
    - repeat constructor; simpl; intuition discriminate.
    - repeat constructor. }
  assert (Hq : "c" <> EmptyString) by discriminate.
  destruct (@recent_searches_bounded Sample.mail_up (Sample.req Sample.alice) "c"
              None 100 Sample.store Hq Hwf)
    as (view & d' & E & Hlen & _ & _ & _ & Hdistinct & _).
  exists view, d'. split; [exact E|]. split; [exact Hlen|].
  apply Hdistinct. simpl. repeat constructor; simpl; intuition discriminate.
Defined.

(** The same request, run: [a], the oldest of the five, is trimmed, the
    earlier [c] is removed and the new [c] comes last. *)
Example search_again_for_c :
  map Searches.content
      (searches_of 1
         (snd (@searchBlogs Sample.mail_up (Sample.req Sample.alice) (Some "c")
                 None 100 Sample.store)))
  = ["b"; "d"; "e"; "c"].
Proof. reflexivity. Qed.

(** * Further properties of the handlers *)

(** ** Lists and keys *)

Section KeyFacts.
Variable A : Type.

Lemma find_present (p : A -> bool) (l : list A) (x : A) :
  In x l -> p x = true -> exists y, find p l = Some y.
Proof.
  intros Hin Hp. destruct (find p l) as [y|] eqn:E; [now exists y|].
  rewrite (find_none _ _ E x Hin) in Hp. discriminate.
Qed.

(** In a list with distinct integer keys, looking a member up by its key
    finds it. *)
Lemma find_by_key (key : A -> Z) (l : list A) (x : A) :
  NoDup (map key l) -> In x l -> find (fun y => key y =? key x) l = Some x.
Proof.
  intros Hnd Hin.
  destruct (find_present (fun y => key y =? key x) l x Hin (Z.eqb_refl _)) as [y E].
  rewrite E. f_equal. apply find_some in E. destruct E as [Hy Hk].
  apply Z.eqb_eq in Hk. now apply (NoDup_map_injective key l).
Qed.

(** Rewriting the first row selected by [q] does not disturb a lookup by
    [p] that found the same row, when the rewritten row still satisfies
    [p]. *)
Lemma update_first_keeps_lookup (p q : A -> bool) (f : A -> A)
      (l l' : list A) (u y : A) :
  find p l = Some u -> find q l = Some u -> p (f u) = true ->
  update_first q f l = Some (y, l') ->
  y = f u /\ find p l' = Some (f u).
Proof.
  revert l'; induction l as [|x l IH]; simpl; intros l' Hp Hq Hfu Hup;
    [discriminate|].
  destruct (q x) eqn:Qx.
  - inversion Hq; inversion Hup; subst. simpl. now rewrite Hfu.
  - destruct (p x) eqn:Px.
    + inversion Hp; subst. apply find_some in Hq. destruct Hq as [_ Hq].
      congruence.
    + destruct (update_first q f l) as [[z l'']|] eqn:U; [|discriminate].
      inversion Hup; subst. simpl. rewrite Px. now apply IH.
Qed.

Lemma update_first_missing (p : A -> bool) (f : A -> A) (l : list A) :
  find p l = None -> update_first p f l = None.
Proof.
  induction l as [|y l IH]; simpl; [reflexivity|].
  destruct (p y); [discriminate|]. intros Hx; now rewrite IH.
Qed.

Lemma fresh_lookup (key : A -> string) (l : list A) (x : A) :
  existsb (fun b => String.eqb (key x) (key b)) l = false ->
  find (fun t => String.eqb (key t) (key x)) (l ++ [x]) = Some x.
Proof.
  intros Hfresh. apply find_app_last; [|apply String.eqb_refl].
  apply find_all_false. intros y Hy. rewrite String.eqb_sym.
  destruct (String.eqb (key x) (key y)) eqn:E; [|reflexivity].
  assert (existsb (fun b => String.eqb (key x) (key b)) l = true)
    by (apply existsb_exists; now exists y).
  congruence.
Qed.
End KeyFacts.

(** ** The session middleware *)

(** [protect] never writes to the store, and a request without a header
    that starts with [Bearer] is answered 401 [Unauthorized, no token]. *)
Theorem protect_reads_only `{Collaborators}
        (authorization_ : option string) (now : Z) (d : DB) :
  snd (protect authorization_ now d) = d
  /\ (falsy authorization_ = true \/ prefix "Bearer" (str authorization_) = false ->
      fst (protect authorization_ now d)
      = Ok (Reply (send 401 "Unauthorized, no token"))).
Proof.
  unfold protect, unauthorized. split.
  - destruct (negb (falsy authorization_) && prefix "Bearer" (str authorization_));
      [|reflexivity].
    run. destruct (falsy _); [reflexivity|].
    destruct (jwt_verify _ _ _); [reflexivity|].
    destruct (find _ _); reflexivity.
  - intros [-> | ->]; [reflexivity|]. now rewrite andb_false_r.
Qed.

Lemma protect_reads_only_witness :
  @protect Sample.mail_up (Some "Basic YWxpY2U6c2VjcmV0") 5 Sample.store
  = (Ok (Reply (send 401 "Unauthorized, no token")), Sample.store).
Proof.
  pose proof (@protect_reads_only Sample.mail_up (Some "Basic YWxpY2U6c2VjcmV0") 5
                Sample.store) as [Hs Hf].
  rewrite (surjective_pairing (protect _ _ _)), Hs, Hf; [reflexivity|].
  right; reflexivity.
Defined.

(** ** Registration, activation and login *)

Section Accounts.
Context `{Collaborators}.

(** What a registration answered 201 has checked and written. *)
Lemma register_success (email_ pw origin : option string)
      (uuid1 uuid2 : string) (now : Z) (d : DB) :
  status (fst (registerUser email_ pw origin uuid1 uuid2 now d)) = 201 ->
  let newUser := User.mk (nextId (users d)) None None None None (str email_) false
                         (Some (bcrypt_hash (str pw) 12)) DEFAULT now now in
  let authToken := ActivateToken.mk (nextId (activateTokens d))
                     (tokenString uuid1 uuid2) None (nextId (users d)) now now in
  falsy email_ = false /\ falsy pw = false
  /\ emailRegex_test (str email_) = true
  /\ passwordRegex_test (str pw) = true
  /\ find (with_email (str email_)) (rows (users d)) = None
  /\ existsb (fun b => String.eqb (tokenString uuid1 uuid2) (ActivateToken.token b))
             (rows (activateTokens d)) = false
  /\ registerUser email_ pw origin uuid1 uuid2 now d
     = (setHeader_Authorization ("Bearer " ++ generateToken (nextId (users d)) now)
          (json 201 (new_user_json newUser)),
        mkDB (mkTable (rows (users d) ++ [newUser]) (nextId (users d) + 1))
             (mkTable (rows (activateTokens d) ++ [authToken])
                      (nextId (activateTokens d) + 1))
             (passwordResetTokens d) (deleteTokens d) (blogs d) (follows d)
             (notifications d) (searches d)).
Proof.
  unfold registerUser, sendMail.
  destruct (falsy email_) eqn:He; [discriminate|].
  destruct (falsy pw) eqn:Hp; [discriminate|].
  destruct (emailRegex_test (str email_)) eqn:Hre; [|discriminate].
  run. fold (with_email (str email_)).
  destruct (find (with_email (str email_)) (rows (users d))) eqn:Hu; [discriminate|].
  destruct (passwordRegex_test (str pw)) eqn:Hpre; [|discriminate].
  run. destruct (existsb _ (rows (users d))) eqn:Hclash; [discriminate|].
  proj. cbn [ActivateToken.token User.id User.email].
  destruct (existsb _ (rows (activateTokens d))) eqn:Htok; [discriminate|].
  proj. destruct (transporter_sendMail _) eqn:Hm; [discriminate|].
  intros _. repeat split; auto.
Qed.

(** A rejected registration (400 or 422) has written nothing. *)
Lemma register_rejected (email_ pw origin : option string)
      (uuid1 uuid2 : string) (now : Z) (d : DB) :
  status (fst (registerUser email_ pw origin uuid1 uuid2 now d)) = 400
  \/ status (fst (registerUser email_ pw origin uuid1 uuid2 now d)) = 422 ->
  snd (registerUser email_ pw origin uuid1 uuid2 now d) = d.
Proof.
  unfold registerUser, sendMail.
  destruct (falsy email_ || falsy pw); [reflexivity|].
  destruct (negb (emailRegex_test (str email_))); [reflexivity|].
  run. destruct (find _ (rows (users d))); [reflexivity|].
  destruct (negb (passwordRegex_test (str pw))); [reflexivity|].
  run. destruct (existsb _ (rows (users d))); [simpl; intros [?|?]; discriminate|].
  proj. destruct (existsb _ (rows (activateTokens d)));
    [simpl; intros [?|?]; discriminate|].
  proj. destruct (transporter_sendMail _); simpl; intros [?|?]; discriminate.
Qed.
End Accounts.

(** A registration answered 201 can log in right away, before any
    activation: with the same email and password, [loginUser] answers 200
    with a session for the new, still unverified, account. (The password
    library is assumed to accept the password against the hash it made from
    it, and to make non-empty hashes.) *)
Theorem register_then_login `{Collaborators}
        (email_ pw origin : option string) (uuid1 uuid2 : string)
        (now later : Z) (d : DB) :
  status (fst (registerUser email_ pw origin uuid1 uuid2 now d)) = 201 ->
  bcrypt_compare (str pw) (bcrypt_hash (str pw) 12) = true ->
  bcrypt_hash (str pw) 12 <> EmptyString ->
  let d1 := snd (registerUser email_ pw origin uuid1 uuid2 now d) in
  let newUser := User.mk (nextId (users d)) None None None None (str email_) false
                         (Some (bcrypt_hash (str pw) 12)) DEFAULT now now in
  loginUser email_ pw later d1
  = (setHeader_Authorization ("Bearer " ++ generateToken (nextId (users d)) later)
       (json 200 (account_json newUser)), d1).
Proof.
  intros Hs Hcmp Hne.
  destruct (register_success email_ pw origin uuid1 uuid2 now d Hs)
    as (He & Hp & Hre & _ & Hu & _ & E).
  rewrite E. cbv zeta. proj. unfold loginUser. rewrite He, Hp, Hre. run.
  fold (with_email (str email_)).
  rewrite (find_app_last _ _ _ Hu) by apply String.eqb_refl.
  proj. cbn [User.provider User.hashedPassword falsy str User.id].
  destruct (String.eqb_spec (bcrypt_hash (str pw) 12) EmptyString);
    [contradiction|].
  rewrite Hcmp. reflexivity.
Qed.

Lemma register_then_login_witness :
  let d1 := snd (@registerUser Sample.mail_up (Some "eve@example.com")
                   (Some "Passw0rd!") None "1111-aaaa" "2222-bbbb" 5 Sample.store) in
  status (fst (@loginUser Sample.mail_up (Some "eve@example.com") (Some "Passw0rd!")
                 9 d1)) = 200.
Proof.
  cbv zeta.
  rewrite (@register_then_login Sample.mail_up (Some "eve@example.com")
             (Some "Passw0rd!") None "1111-aaaa" "2222-bbbb" 5 9 Sample.store
             eq_refl eq_refl ltac:(discriminate)).
  reflexivity.
Defined.

(** A registration answered 400 or 422 has written nothing. *)
Theorem register_rejection_writes_nothing `{Collaborators}
        (email_ pw origin : option string) (uuid1 uuid2 : string)
        (now : Z) (d : DB) :
  status (fst (registerUser email_ pw origin uuid1 uuid2 now d)) = 400
  \/ status (fst (registerUser email_ pw origin uuid1 uuid2 now d)) = 422 ->
  snd (registerUser email_ pw origin uuid1 uuid2 now d) = d.
Proof. apply register_rejected. Qed.

Lemma register_rejection_writes_nothing_witness :
  snd (@registerUser Sample.mail_up (Some "bob@example.com") (Some "Passw0rd!")
         None "1111-aaaa" "2222-bbbb" 5 Sample.store) = Sample.store.
Proof.
  apply (@register_rejection_writes_nothing Sample.mail_up). left. reflexivity.
Defined.

(** The token mailed by a registration answered 201 activates the new
    account, at any later time: [activateAccount] answers 200 and the
    account is verified. *)
Theorem register_then_activate `{Collaborators}
        (email_ pw origin : option string) (uuid1 uuid2 : string)
        (now later : Z) (d : DB) :
  status (fst (registerUser email_ pw origin uuid1 uuid2 now d)) = 201 ->
  table_wf User.id (users d) ->
  let d1 := snd (registerUser email_ pw origin uuid1 uuid2 now d) in
  let newUser := User.mk (nextId (users d)) None None None None (str email_) false
                         (Some (bcrypt_hash (str pw) 12)) DEFAULT now now in
  exists d2,
    activateAccount (tokenString uuid1 uuid2) later d1
    = (json 200 (account_json (user_set_isEmailVerified true later newUser)), d2)
    /\ In (user_set_isEmailVerified true later newUser) (rows (users d2)).
Proof.
  intros Hs [_ Hfresh].
  destruct (register_success email_ pw origin uuid1 uuid2 now d Hs)
    as (_ & _ & _ & _ & _ & Htok & E).
  rewrite E. cbv zeta. proj. rewrite Forall_forall in Hfresh.
  assert (Hold : forall x, In x (rows (users d)) ->
                           (User.id x =? nextId (users d)) = false)
    by (intros x Hx; apply Z.eqb_neq; specialize (Hfresh x Hx); lia).
  apply activation_token_any_age
    with (tok := ActivateToken.mk (nextId (activateTokens d))
                   (tokenString uuid1 uuid2) None (nextId (users d)) now now); proj.
  - exact (@fresh_lookup _ ActivateToken.token (rows (activateTokens d))
             (ActivateToken.mk (nextId (activateTokens d))
                (tokenString uuid1 uuid2) None (nextId (users d)) now now) Htok).
  - apply find_all_false. intros x Hx. apply in_app_or in Hx.
    destruct Hx as [Hx|[<-|[]]]; simpl.
    + now rewrite (Hold x Hx).
    + apply andb_false_r.
  - apply find_app_last; [|apply Z.eqb_refl].
    apply find_all_false. intros x Hx. simpl. now apply Hold.
Qed.

Lemma register_then_activate_witness :
  let d1 := snd (@registerUser Sample.mail_up (Some "eve@example.com")
                   (Some "Passw0rd!") None "1111-aaaa" "2222-bbbb" 5 Sample.store) in
  status (fst (activateAccount "1111aaaa2222bbbb" (100 * day) d1)) = 200.
Proof.
  cbv zeta.
  destruct (@register_then_activate Sample.mail_up (Some "eve@example.com")
              (Some "Passw0rd!") None "1111-aaaa" "2222-bbbb" 5 (100 * day)
              Sample.store eq_refl) as (d2 & E & _).
  - split; simpl.
    + repeat constructor; simpl; intuition discriminate.
    + repeat constructor.
  - change (tokenString "1111-aaaa" "2222-bbbb") with "1111aaaa2222bbbb" in E.
    rewrite E. reflexivity.
Defined.

Section TokenFlows.
Context `{Collaborators}.

Lemma activate_success (p : string) (now : Z) (d : DB) :
  status (fst (activateAccount p now d)) = 200 ->
  exists tok u l',
    find (fun t => String.eqb (ActivateToken.token t) p) (rows (activateTokens d))
    = Some tok
    /\ User.id u = ActivateToken.userId tok
    /\ In (user_set_isEmailVerified true now u) l'
    /\ activateAccount p now d
       = (json 200 (account_json (user_set_isEmailVerified true now u)),
          tset db_user (mkTable l' (nextId (users d))) d).
Proof.
  unfold activateAccount. run.
  destruct (find _ (rows (activateTokens d))) as [tok|] eqn:Ht; [|discriminate].
  destruct (find _ (rows (users d))) as [v|] eqn:Hv; [discriminate|].
  destruct (find (fun u => User.id u =? ActivateToken.userId tok) (rows (users d)))
    as [u|] eqn:Hu.
  - destruct (update_first_found _ (user_set_isEmailVerified true now) _ Hu)
      as (l' & -> & Hin & _).
    intros _. exists tok, u, l'. apply find_some in Hu. destruct Hu as [_ Hid].
    apply Z.eqb_eq in Hid. repeat split; auto.
  - rewrite (update_first_missing _ _ _ Hu). discriminate.
Qed.

Lemma reset_request_success (email_ origin : option string)
      (uuid1 uuid2 : string) (now : Z) (d : DB) :
  status (fst (resetPasswordRequest email_ origin uuid1 uuid2 now d)) = 200 ->
  exists u,
    find (with_email (str email_)) (rows (users d)) = Some u
    /\ User.provider u = DEFAULT
    /\ existsb (fun b => String.eqb (tokenString uuid1 uuid2)
                                    (PasswordResetToken.token b))
               (rows (passwordResetTokens d)) = false
    /\ resetPasswordRequest email_ origin uuid1 uuid2 now d
       = (send 200 "Password reset link sent to email",
          tset db_passwordResetToken
            (mkTable (rows (passwordResetTokens d)
                      ++ [PasswordResetToken.mk (nextId (passwordResetTokens d))
                            (tokenString uuid1 uuid2) None (User.id u) now now])
                     (nextId (passwordResetTokens d) + 1)) d).
Proof.
  unfold resetPasswordRequest, sendMail.
  destruct (falsy email_); [discriminate|].
  destruct (negb (emailRegex_test (str email_))); [discriminate|].
  run. fold (with_email (str email_)).
  destruct (find (with_email (str email_)) (rows (users d))) as [u|] eqn:Hu;
    [|discriminate].
  destruct (User.provider u) eqn:Hprov; try discriminate.
  run. cbn [PasswordResetToken.token].
  destruct (existsb _ (rows (passwordResetTokens d))) eqn:Htok; [discriminate|].
  proj. destruct (transporter_sendMail _); [discriminate|].
  intros _. exists u. repeat split; auto.
Qed.

Lemma delete_request_success (r : ReqUser.t) (uuid1 uuid2 : string) (now : Z)
      (d : DB) :
  status (fst (sendAccountDeleteEmail r uuid1 uuid2 now d)) = 200 ->
  existsb (fun b => String.eqb (tokenString uuid1 uuid2) (DeleteToken.token b))
          (rows (deleteTokens d)) = false
  /\ sendAccountDeleteEmail r uuid1 uuid2 now d
     = (send 200 "email sent",
        tset db_deleteToken
          (mkTable (rows (deleteTokens d)
                    ++ [DeleteToken.mk (nextId (deleteTokens d))
                          (tokenString uuid1 uuid2) None (ReqUser.id r) now now])
                   (nextId (deleteTokens d) + 1)) d).
Proof.
  unfold sendAccountDeleteEmail, sendMail. run. cbn [DeleteToken.token].
  destruct (existsb _ (rows (deleteTokens d))) eqn:Htok; [discriminate|].
  proj. destruct (transporter_sendMail _); [discriminate|].
  intros _. split; reflexivity.
Qed.

(** A reset that passes all checks, spelled out. *)
Lemma reset_runs (p : string) (pw : option string) (now : Z) (d : DB)
      (tok : PasswordResetToken.t) (u : User.t) :
  falsy pw = false ->
  find (fun t => String.eqb (PasswordResetToken.token t) p)
       (rows (passwordResetTokens d)) = Some tok ->
  now - PasswordResetToken.createdAt tok <= day ->
  passwordRegex_test (str pw) = true ->
  find (with_id (PasswordResetToken.userId tok)) (rows (users d)) = Some u ->
  exists l' toks',
    update_first (with_id (PasswordResetToken.userId tok))
      (user_set_hashedPassword (bcrypt_hash (str pw) 12) now) (rows (users d))
    = Some (user_set_hashedPassword (bcrypt_hash (str pw) 12) now u, l')
    /\ resetAccountPassword p pw now d
       = (json 200 (profile_json
                      (user_set_hashedPassword (bcrypt_hash (str pw) 12) now u)),
          mkDB (mkTable l' (nextId (users d))) (activateTokens d)
               (mkTable toks' (nextId (passwordResetTokens d)))
               (deleteTokens d) (blogs d) (follows d) (notifications d)
               (searches d)).
Proof.
  intros Hpw Hf Hage Hre Hu. unfold resetAccountPassword. rewrite Hpw. run.
  rewrite Hf, more_than_24_hours_spec. unfold day in Hage.
  destruct (Z.ltb_spec (24 * 3600 * 1000) (now - PasswordResetToken.createdAt tok));
    [lia|].
  rewrite Hre. cbn [negb]. fold (with_id (PasswordResetToken.userId tok)).
  destruct (update_first_found _ (user_set_hashedPassword (bcrypt_hash (str pw) 12) now)
              _ Hu) as (l' & Hup & _).
  rewrite Hup. proj.
  destruct (find_present (fun t => PasswordResetToken.id t =? PasswordResetToken.id tok)
              (rows (passwordResetTokens d)) tok) as [tk Ft].
  { apply find_some in Hf. apply Hf. }
  { apply Z.eqb_refl. }
  destruct (update_first_found _ (token_set_resetAt now now) _ Ft) as (l2 & -> & _).
  exists l', l2. split; reflexivity.
Qed.
End TokenFlows.

(** An activation answered 200 cannot be repeated: presenting the same
    token again, at any time, is answered 400 [Email is already verified]
    and writes nothing. *)
Theorem activation_is_single_use (p : string) (now later : Z) (d : DB) :
  status (fst (activateAccount p now d)) = 200 ->
  let d1 := snd (activateAccount p now d) in
  activateAccount p later d1 = (send 400 "Email is already verified", d1).
Proof.
  intros Hs. destruct (activate_success p now d Hs) as (tok & u & l' & Ht & Hid & Hin & E).
  rewrite E. cbv zeta. proj. unfold activateAccount. run. rewrite Ht. proj.
  destruct (find_present
              (fun x => (User.id x =? ActivateToken.userId tok)
                        && Bool.eqb (User.isEmailVerified x) true)
              l' _ Hin) as [v ->]; [|reflexivity].
  simpl. rewrite Hid, Z.eqb_refl. reflexivity.
Qed.

Lemma activation_is_single_use_witness :
  let d1 := snd (activateAccount "act-alice" 5 Sample.store) in
  activateAccount "act-alice" 6 d1 = (send 400 "Email is already verified", d1).
Proof. apply (activation_is_single_use "act-alice" 5 6 Sample.store). reflexivity. Defined.

(** [resetPasswordRequest] gives the same answer, 404 with the same text,
    for an address that is not registered and for the address of an account
    created through a provider, and writes nothing in either case. *)
Theorem reset_request_does_not_tell `{Collaborators}
        (email_ origin : option string) (uuid1 uuid2 : string) (now : Z) (d : DB) :
  falsy email_ = false -> emailRegex_test (str email_) = true ->
  (find (with_email (str email_)) (rows (users d)) = None ->
   resetPasswordRequest email_ origin uuid1 uuid2 now d
   = (send 404 "Email cannot be found or signed in using a provider", d))
  /\ (forall u,
        find (with_email (str email_)) (rows (users d)) = Some u ->
        User.provider u <> DEFAULT ->
        resetPasswordRequest email_ origin uuid1 uuid2 now d
        = (send 404 "Email cannot be found or signed in using a provider", d)).
Proof.
  intros He Hre. unfold resetPasswordRequest. rewrite He, Hre. run.
  fold (with_email (str email_)). split.
  - intros ->. reflexivity.
  - intros u -> Hprov. destruct (User.provider u); [contradiction| | |]; reflexivity.
Qed.

Lemma reset_request_does_not_tell_witness :
  @resetPasswordRequest Sample.mail_up (Some "nobody@example.com") None
     "1111-aaaa" "2222-bbbb" 5 Sample.store
  = @resetPasswordRequest Sample.mail_up (Some "carol@example.com") None
      "1111-aaaa" "2222-bbbb" 5 Sample.store.
Proof.
  rewrite (proj1 (@reset_request_does_not_tell Sample.mail_up
                    (Some "nobody@example.com") None "1111-aaaa" "2222-bbbb" 5
                    Sample.store eq_refl eq_refl) eq_refl).
  rewrite (proj2 (@reset_request_does_not_tell Sample.mail_up
                    (Some "carol@example.com") None "1111-aaaa" "2222-bbbb" 5
                    Sample.store eq_refl eq_refl) Sample.carol eq_refl);
    [reflexivity|discriminate].
Defined.

(** The token mailed by a reset request answered 200 is accepted by
    [resetAccountPassword] up to 24 hours later: with a password that meets
    the policy it answers 200 and replaces the hash of the account the
    request was made for. *)
Theorem reset_request_then_reset `{Collaborators}
        (email_ origin pw : option string) (uuid1 uuid2 : string)
        (now later : Z) (d : DB) :
  status (fst (resetPasswordRequest email_ origin uuid1 uuid2 now d)) = 200 ->
  NoDup (map User.id (rows (users d))) ->
  falsy pw = false -> passwordRegex_test (str pw) = true ->
  later - now <= day ->
  let d1 := snd (resetPasswordRequest email_ origin uuid1 uuid2 now d) in
  exists u d2,
    find (with_email (str email_)) (rows (users d)) = Some u
    /\ resetAccountPassword (tokenString uuid1 uuid2) pw later d1
       = (json 200 (profile_json
                      (user_set_hashedPassword (bcrypt_hash (str pw) 12) later u)),
          d2)
    /\ In (user_set_hashedPassword (bcrypt_hash (str pw) 12) later u)
          (rows (users d2)).
Proof.
  intros Hs Hnd Hpw Hre Hage.
  destruct (reset_request_success email_ origin uuid1 uuid2 now d Hs)
    as (u & Hu & Hprov & Hfresh & E).
  rewrite E. cbv zeta. proj.
  assert (Hin : In u (rows (users d))) by (apply find_some in Hu; apply Hu).
  destruct (reset_token_in_time (tokenString uuid1 uuid2) pw later
              (tset db_passwordResetToken
                 (mkTable (rows (passwordResetTokens d)
                           ++ [PasswordResetToken.mk (nextId (passwordResetTokens d))
                                 (tokenString uuid1 uuid2) None (User.id u) now now])
                          (nextId (passwordResetTokens d) + 1)) d)
              (tok := PasswordResetToken.mk (nextId (passwordResetTokens d))
                        (tokenString uuid1 uuid2) None (User.id u) now now)
              (u := u) Hpw) as (d2 & E2 & Hin2); proj; auto.
  - exact (@fresh_lookup _ PasswordResetToken.token (rows (passwordResetTokens d))
             (PasswordResetToken.mk (nextId (passwordResetTokens d))
                (tokenString uuid1 uuid2) None (User.id u) now now) Hfresh).
  - now apply (find_by_key User.id).
  - exists u, d2. auto.
Qed.

Lemma reset_request_then_reset_witness :
  let d1 := snd (@resetPasswordRequest Sample.mail_up (Some "bob@example.com") None
                   "1111-aaaa" "2222-bbbb" 5 Sample.store) in
  status (fst (@resetAccountPassword Sample.mail_up "1111aaaa2222bbbb"
                 (Some "N3w-pass!") (5 + day) d1)) = 200.
Proof.
  assert (Hnd : NoDup (map User.id (rows (users Sample.store))))
    by (simpl; repeat constructor; simpl; intuition discriminate).
  assert (Hage : 5 + day - 5 <= day) by lia.
  destruct (@reset_request_then_reset Sample.mail_up (Some "bob@example.com") None
              (Some "N3w-pass!") "1111-aaaa" "2222-bbbb" 5 (5 + day) Sample.store
              eq_refl Hnd eq_refl eq_refl Hage) as (u & d2 & _ & E & _).
  change (tokenString "1111-aaaa" "2222-bbbb") with "1111aaaa2222bbbb" in E.
  cbv zeta. rewrite E. reflexivity.
Defined.

(** ** Deleting an account *)

Section Deletion.
Context `{Collaborators}.

Lemma references_member (A : Type) (owner : A -> Z) (t : Table A) (x : A) :
  In x (rows t) -> Sample.references owner (owner x) t = true.
Proof.
  intros Hin. unfold Sample.references. apply existsb_exists.
  exists x. split; [exact Hin | apply Z.eqb_refl].
Qed.

End Deletion.

(** Under the referential actions of schema.prisma a confirmed deletion
    never goes through: whatever the token and whoever presents it,
    [deleteUser] does not answer 200 and leaves the store as it was. When
    all checks pass, the deletion token that was just found still
    references the account, and its relation to the user carries no
    [onDelete], so [db.user.delete] is refused and the handler answers
    500. *)
Theorem schema_refuses_account_deletion `{Collaborators}
        (r : ReqUser.t) (p : string) (now : Z) (d : DB) :
  (forall id d0, referential_actions id d0 = Sample.onDelete id d0) ->
  status (fst (deleteUser r p now d)) <> 200
  /\ snd (deleteUser r p now d) = d
  /\ forall tok,
       find (fun t => String.eqb (DeleteToken.token t) p) (rows (deleteTokens d))
       = Some tok ->
       now - DeleteToken.createdAt tok <= day ->
       DeleteToken.userId tok = ReqUser.id r ->
       In (ReqUser.id r) (map User.id (rows (users d))) ->
       deleteUser r p now d
       = (json 500
            (JObj [("message",
                    JStr (Sample.foreign_key
                            "AccountDeleteToken_userId_fkey (index)"))]), d).
Proof.
  intros Hra.
  assert (Hlast : forall tok,
             find (fun t => String.eqb (DeleteToken.token t) p)
                  (rows (deleteTokens d)) = Some tok ->
             referential_actions (DeleteToken.userId tok) d
             = Throw (Sample.foreign_key "AccountDeleteToken_userId_fkey (index)")).
  { intros tok Hf. rewrite Hra. unfold Sample.onDelete.
    apply find_some in Hf. destruct Hf as [Hin _].
    now rewrite (references_member DeleteToken.userId (deleteTokens d) tok Hin). }
  assert (Hne : status (fst (deleteUser r p now d)) <> 200
                /\ snd (deleteUser r p now d) = d).
  { unfold deleteUser. run.
    destruct (find (fun t => String.eqb (DeleteToken.token t) p)
                (rows (deleteTokens d))) as [tok|] eqn:Hf; [|simpl; split; [lia|easy]].
    destruct (DeleteToken.createdAt tok <? _); [simpl; split; [lia|easy]|].
    destruct (negb _); [simpl; split; [lia|easy]|].
    unfold user_delete.
    destruct (find _ (rows (users d))) as [u|]; [|simpl; split; [lia|easy]].
    rewrite (Hlast tok eq_refl). simpl. split; [lia|easy]. }
  split; [exact (proj1 Hne)|]. split; [exact (proj2 Hne)|].
  intros tok Hf Hage Hown Hin.
  apply in_map_iff in Hin. destruct Hin as (u0 & Hid & Hin0).
  destruct (find (fun u => User.id u =? DeleteToken.userId tok) (rows (users d)))
    as [u|] eqn:Hu.
  - pose proof (delete_token_in_time_outcome r p now d Hf Hage Hown Hu) as E.
    now rewrite (Hlast tok Hf) in E.
  - apply (find_none _ _ Hu) in Hin0. rewrite Hown, Hid, Z.eqb_refl in Hin0.
    discriminate.
Qed.

Lemma schema_refuses_account_deletion_witness :
  @deleteUser Sample.mail_up (Sample.req Sample.alice) "del-alice" Sample.hour
    Sample.store
  = (json 500
       (JObj [("message",
               JStr (Sample.foreign_key "AccountDeleteToken_userId_fkey (index)"))]),
     Sample.store).
Proof.
  apply (proj2 (proj2 (@schema_refuses_account_deletion Sample.mail_up
                         (Sample.req Sample.alice) "del-alice" Sample.hour
                         Sample.store (fun _ _ => eq_refl)))
           (DeleteToken.mk 1 "del-alice" None 1 0 0)).
  - reflexivity.
  - vm_compute. discriminate.
  - reflexivity.
  - simpl. tauto.
Defined.

(** The token mailed by a deletion request answered 200 is bound to the
    requester and lives 24 hours: presented later than that it is refused
    as expired, presented in time by another user it is refused with 403,
    both without a write; presented in time by the requester it reaches
    [db.user.delete], whose outcome decides the answer. *)
Theorem delete_request_then_delete `{Collaborators}
        (r r' : ReqUser.t) (uuid1 uuid2 : string) (now later : Z) (d : DB) :
  status (fst (sendAccountDeleteEmail r uuid1 uuid2 now d)) = 200 ->
  let d1 := snd (sendAccountDeleteEmail r uuid1 uuid2 now d) in
  let p := tokenString uuid1 uuid2 in
  (later - now > day -> deleteUser r' p later d1 = (send 400 "Token is expired", d1))
  /\ (later - now <= day -> ReqUser.id r' <> ReqUser.id r ->
      deleteUser r' p later d1 = (send 403 "Forbidden", d1))
  /\ (later - now <= day -> ReqUser.id r' = ReqUser.id r ->
      forall u,
        find (fun u => User.id u =? ReqUser.id r) (rows (users d)) = Some u ->
        match referential_actions (ReqUser.id r) d1 with
        | Throw e =>
            deleteUser r' p later d1 = (json 500 (JObj [("message", JStr e)]), d1)
        | Ok d2 =>
            users d2 = users d1 ->
            status (fst (deleteUser r' p later d1)) = 200
            /\ find (fun u => User.id u =? ReqUser.id r)
                    (rows (users (snd (deleteUser r' p later d1)))) = None
        end).
Proof.
  intros Hs. destruct (delete_request_success r uuid1 uuid2 now d Hs) as [Hfresh E].
  cbv zeta. rewrite E. cbn [snd].
  set (tok := DeleteToken.mk (nextId (deleteTokens d)) (tokenString uuid1 uuid2)
                             None (ReqUser.id r) now now).
  set (d1 := tset db_deleteToken _ d).
  assert (Hf : find (fun t => String.eqb (DeleteToken.token t)
                                         (tokenString uuid1 uuid2))
                    (rows (deleteTokens d1)) = Some tok)
    by exact (@fresh_lookup _ DeleteToken.token (rows (deleteTokens d)) tok Hfresh).
  split; [|split].
  - intros Hage. now apply (delete_token_expired r' _ later d1 Hf).
  - intros Hage Hne.
    rewrite (delete_token_in_time r' _ later d1 Hf Hage). simpl.
    destruct (Z.eqb_spec (ReqUser.id r) (ReqUser.id r')); [congruence|reflexivity].
  - intros Hage Hown u Hu.
    assert (Hu1 : find (fun u => User.id u =? DeleteToken.userId tok)
                       (rows (users d1)) = Some u) by exact Hu.
    pose proof (delete_token_in_time_outcome r' _ later d1 Hf Hage
                  (eq_sym Hown) Hu1) as O.
    change (DeleteToken.userId tok) with (ReqUser.id r) in O.
    destruct (referential_actions (ReqUser.id r) d1) as [d2|e]; [|exact O].
    intros Husers. rewrite (O Husers). split; [reflexivity|]. proj.
    apply find_all_false. intros x Hx. apply filter_In in Hx.
    destruct Hx as [_ Hx]. now apply negb_true_iff in Hx.
Qed.

Lemma delete_request_then_delete_witness :
  let d1 := snd (@sendAccountDeleteEmail Sample.mail_up (Sample.req Sample.bob)
                   "1111-aaaa" "2222-bbbb" 5 Sample.store) in
  @deleteUser Sample.mail_up (Sample.req Sample.carol) "1111aaaa2222bbbb" 9 d1
  = (send 403 "Forbidden", d1)
  /\ @deleteUser Sample.mail_up (Sample.req Sample.bob) "1111aaaa2222bbbb"
       (6 + day) d1
     = (send 400 "Token is expired", d1).
Proof.
  pose proof (@delete_request_then_delete Sample.mail_up (Sample.req Sample.bob)
                (Sample.req Sample.carol) "1111-aaaa" "2222-bbbb" 5 9 Sample.store
                eq_refl) as (_ & F & _).
  pose proof (@delete_request_then_delete Sample.mail_up (Sample.req Sample.bob)
                (Sample.req Sample.bob) "1111-aaaa" "2222-bbbb" 5 (6 + day)
                Sample.store eq_refl) as (X & _ & _).
  cbv zeta in *. split.
  - apply F; [vm_compute; discriminate | simpl; lia].
  - apply X. unfold day. lia.
Defined.

(** ** Following and unfollowing *)

Section FreshRow.
Variable A : Type.
Variable id : A -> Z.

(** A row appended with the next id of the sequence is the one found by
    that id, and removing it gives back the rows that were there. *)
Lemma appended_row_found (t : Table A) (x : A) :
  Forall (fun y => id y < nextId t) (rows t) -> id x = nextId t ->
  find (fun y => id y =? id x) (rows t ++ [x]) = Some x.
Proof.
  intros Hlt Hx. apply find_app_last; [|apply Z.eqb_refl].
  apply find_all_false. intros y Hy. rewrite Forall_forall in Hlt.
  specialize (Hlt y Hy). lia.
Qed.

Lemma appended_row_removed (t : Table A) (x : A) :
  Forall (fun y => id y < nextId t) (rows t) -> id x = nextId t ->
  filter (fun y => negb (id y =? id x)) (rows t ++ [x]) = rows t.
Proof.
  intros Hlt Hx. rewrite filter_app. simpl. rewrite Z.eqb_refl. simpl.
  rewrite app_nil_r. apply filter_all_true. intros y Hy.
  rewrite Forall_forall in Hlt. specialize (Hlt y Hy).
  apply negb_true_iff. lia.
Qed.
End FreshRow.

Lemma follow_success (r : ReqUser.t) (name : string) (d : DB) :
  status (fst (followUser r name d)) = 200 ->
  exists u,
    find (named name) (rows (users d)) = Some u
    /\ User.id u <> ReqUser.id r
    /\ find (edge (User.id u) (ReqUser.id r)) (rows (follows d)) = None.
Proof.
  unfold followUser. run. fold (named name).
  destruct (find (named name) (rows (users d))) as [u|] eqn:Hu; [|discriminate].
  destruct (Z.eqb_spec (User.id u) (ReqUser.id r)); [discriminate|].
  fold (edge (User.id u) (ReqUser.id r)).
  destruct (find (edge (User.id u) (ReqUser.id r)) (rows (follows d))) eqn:He;
    [discriminate|].
  intros _. exists u. auto.
Qed.

(** Unfollowing right after a follow answered 200 removes the row that the
    follow has written, and only that one: the answer carries the same
    row, and the store is the one before the follow except that the id
    sequence of the Follow table has advanced. *)
Theorem unfollow_undoes_follow (r : ReqUser.t) (name : string) (d : DB) :
  status (fst (followUser r name d)) = 200 ->
  Forall (fun f => Follow.id f < nextId (follows d)) (rows (follows d)) ->
  let d1 := snd (followUser r name d) in
  unFollowUser r name d1
  = (fst (followUser r name d),
     tset db_follow (mkTable (rows (follows d)) (nextId (follows d) + 1)) d).
Proof.
  intros Hs Hlt. destruct (follow_success r name d Hs) as (u & Hu & Hne & He).
  cbv zeta. rewrite (follow_created r name d Hu Hne He). cbn [fst snd].
  set (f := Follow.mk (nextId (follows d)) (User.id u) (ReqUser.id r)).
  unfold unFollowUser. run. rewrite Hu. proj.
  rewrite (find_app_last _ _ f He)
    by (unfold edge, f; simpl; now rewrite !Z.eqb_refl).
  proj.
  pose proof (@appended_row_found _ Follow.id (follows d) f Hlt eq_refl) as Hfound.
  pose proof (@appended_row_removed _ Follow.id (follows d) f Hlt eq_refl) as Hrem.
  rewrite Hfound. proj. rewrite Hrem. reflexivity.
Qed.

Lemma unfollow_undoes_follow_witness :
  let d1 := snd (followUser (Sample.req Sample.alice) "carol" Sample.store) in
  rows (follows (snd (unFollowUser (Sample.req Sample.alice) "carol" d1)))
  = rows (follows Sample.store).
Proof.
  cbv zeta.
  rewrite (@unfollow_undoes_follow (Sample.req Sample.alice) "carol" Sample.store
             eq_refl).
  - reflexivity.
  - simpl. repeat constructor.
Defined.

(** Unfollowing an account one does not follow, or an account that does
    not exist, is refused and writes nothing; so is a second unfollow. *)
Theorem unfollow_refusals (r : ReqUser.t) (name : string) (d : DB) :
  (status (fst (unFollowUser r name d)) <> 200 -> snd (unFollowUser r name d) = d)
  /\ (find (named name) (rows (users d)) = None ->
      unFollowUser r name d = (send 404 "Account not found", d))
  /\ (forall u,
        find (named name) (rows (users d)) = Some u ->
        find (edge (User.id u) (ReqUser.id r)) (rows (follows d)) = None ->
        unFollowUser r name d = (send 400 "You do not follow this account", d))
  /\ (status (fst (unFollowUser r name d)) = 200 ->
      NoDup (map Follow.id (rows (follows d))) ->
      (forall f g, In f (rows (follows d)) -> In g (rows (follows d)) ->
                   follow_clashes f g = true -> f = g) ->
      let d1 := snd (unFollowUser r name d) in
      unFollowUser r name d1 = (send 400 "You do not follow this account", d1)).
Proof.
  split; [|split; [|split]].
  - unfold unFollowUser. run.
    destruct (find (named name) (rows (users d))) as [u|]; [|reflexivity].
    destruct (find (edge _ _) (rows (follows d))) as [f|] eqn:He; [|reflexivity].
    unfold delete. proj.
    destruct (find (fun g => Follow.id g =? Follow.id f) (rows (follows d)));
      [|reflexivity].
    simpl. intros Hs. now contradiction Hs.
  - intros Hu. unfold unFollowUser. run. now rewrite Hu.
  - intros u Hu He. unfold unFollowUser. run. now rewrite Hu, He.
  - unfold unFollowUser. run.
    destruct (find (named name) (rows (users d))) as [u|] eqn:Hu; [|discriminate].
    destruct (find (edge _ _) (rows (follows d))) as [f|] eqn:He; [|discriminate].
    unfold delete. proj.
    destruct (find (fun g => Follow.id g =? Follow.id f) (rows (follows d)))
      as [g|] eqn:Hg; [|discriminate].
    intros _ Hnd Hpair. proj. rewrite Hu.
    rewrite find_all_false; [reflexivity|].
    intros x Hx. apply filter_In in Hx. destruct Hx as [Hx Hid].
    destruct (edge (User.id u) (ReqUser.id r) x) eqn:Ex; [|reflexivity].
    exfalso. apply find_some in He. destruct He as [Hf Ef].
    assert (x = f).
    { apply Hpair; auto. unfold follow_clashes. unfold edge in Ex, Ef.
      apply andb_prop in Ex. apply andb_prop in Ef.
      destruct Ex as [E1 E2], Ef as [F1 F2].
      apply Z.eqb_eq in E1, E2, F1, F2. rewrite E1, E2, F1, F2, !Z.eqb_refl.
      reflexivity. }
    subst x. rewrite Z.eqb_refl in Hid. discriminate.
Qed.

Lemma unfollow_refusals_witness :
  let d1 := snd (unFollowUser (Sample.req Sample.alice) "bob" Sample.store) in
  status (fst (unFollowUser (Sample.req Sample.alice) "bob" Sample.store)) = 200
  /\ unFollowUser (Sample.req Sample.alice) "bob" d1
     = (send 400 "You do not follow this account", d1).
Proof.
  cbv zeta. split; [reflexivity|].
  apply (proj2 (proj2 (proj2 (@unfollow_refusals (Sample.req Sample.alice) "bob"
                                 Sample.store)))).
  - reflexivity.
  - simpl. repeat constructor; simpl; intuition discriminate.
  - intros f g Hf Hg. simpl in Hf, Hg.
    destruct Hf as [<-|[<-|[<-|[]]]], Hg as [<-|[<-|[<-|[]]]];
      simpl; intros E; try reflexivity; discriminate.
Defined.

(** ** Notifications *)

Section MarkSeen.
Variable rid : Z.

Lemma seen_keeps_owner (n : Notification.t) :
  Notification.userId (seen_by_requester rid n) = Notification.userId n.
Proof. unfold seen_by_requester. now destruct (Notification.userId n =? rid). Qed.

Lemma filter_owner_marked (uid : Z) (l : list Notification.t) :
  filter (fun n => Notification.userId n =? uid) (map (seen_by_requester rid) l)
  = map (seen_by_requester rid) (filter (fun n => Notification.userId n =? uid) l).
Proof.
  induction l as [|n l IH]; simpl; [reflexivity|].
  rewrite seen_keeps_owner.
  destruct (Notification.userId n =? uid); simpl; now rewrite IH.
Qed.

Lemma marked_twice (l : list Notification.t) :
  map (seen_by_requester rid) (map (seen_by_requester rid) l)
  = map (seen_by_requester rid) l.
Proof.
  rewrite map_map. apply map_ext. intros n. unfold seen_by_requester.
  destruct (Notification.userId n =? rid) eqn:E; simpl; rewrite E; reflexivity.
Qed.

Lemma mark_seen_runs (r : ReqUser.t) (d : DB) :
  ReqUser.id r = rid ->
  markNotificationsAsSeen r d
  = (json 200 (JObj [("count",
                      JNum (Z.of_nat (List.length (notifications_of rid d))))]),
     tset db_notification
       (mkTable (map (seen_by_requester rid) (rows (notifications d)))
                (nextId (notifications d))) d).
Proof. intros <-. reflexivity. Qed.
End MarkSeen.

(** [markNotificationsAsSeen] answers with the number of notifications of
    the requester and marks exactly those as seen: afterwards every
    notification of the requester is seen, the notifications of every
    other user are what they were, no row is added, removed or moved, and
    no other column changes. Asking again changes nothing more. *)
Theorem mark_seen_marks_own_only (r : ReqUser.t) (d : DB) :
  let uid := ReqUser.id r in
  let d' := snd (markNotificationsAsSeen r d) in
  fst (markNotificationsAsSeen r d)
  = json 200 (JObj [("count", JNum (Z.of_nat (List.length (notifications_of uid d))))])
  /\ Forall (fun n => Notification.seen n = true) (notifications_of uid d')
  /\ (forall other, other <> uid ->
         notifications_of other d' = notifications_of other d)
  /\ map (fun n => (Notification.id n, Notification.userId n, Notification.blogId n,
                    Notification.createdAt n)) (rows (notifications d'))
     = map (fun n => (Notification.id n, Notification.userId n, Notification.blogId n,
                      Notification.createdAt n)) (rows (notifications d))
  /\ snd (markNotificationsAsSeen r d') = d'.
Proof.
  cbv zeta. rewrite (@mark_seen_runs (ReqUser.id r) r d eq_refl). cbn [fst snd].
  split; [reflexivity|]. split; [|split; [|split]].
  - unfold notifications_of. proj. rewrite filter_owner_marked.
    apply Forall_forall. intros n Hn. apply in_map_iff in Hn.
    destruct Hn as (m & <- & Hm). apply filter_In in Hm. destruct Hm as [_ Hm].
    unfold seen_by_requester. now rewrite Hm.
  - intros other Hne. unfold notifications_of. proj. rewrite filter_owner_marked.
    rewrite <- (map_id (filter _ (rows (notifications d)))) at 2.
    apply map_ext_in. intros n Hn. apply filter_In in Hn. destruct Hn as [_ Hn].
    unfold seen_by_requester. apply Z.eqb_eq in Hn.
    destruct (Z.eqb_spec (Notification.userId n) (ReqUser.id r)); [lia|reflexivity].
  - proj. rewrite map_map. apply map_ext. intros n. unfold seen_by_requester.
    now destruct (Notification.userId n =? ReqUser.id r).
  - rewrite (@mark_seen_runs (ReqUser.id r) r _ eq_refl). cbn [snd]. proj.
    now rewrite marked_twice.
Qed.

(** ** Recent searches *)

Section NewestFirst.
Variable A : Type.
Variable key : A -> Z.

(** A row newer than all the others comes first under
    [orderBy: { key: desc }], wherever it stands in the table. *)
Lemma newest_first (l : list A) (x : A) :
  Forall (fun y => key y < key x) l ->
  orderBy_desc key (l ++ [x]) = x :: orderBy_desc key l.
Proof.
  induction 1 as [|y l Hy Hall IH]; simpl; [reflexivity|].
  fold (orderBy_desc key (l ++ [x])). fold (orderBy_desc key l).
  rewrite IH. simpl.
  destruct (Z.leb_spec (key x) (key y)); [lia|reflexivity].
Qed.
End NewestFirst.

(** [recentSearches] answers 200 with the searches of the requester, all
    of them and no other row, ordered from the newest to the oldest, and
    writes nothing. *)
Theorem recent_searches_newest_first (r : ReqUser.t) (d : DB) :
  exists l,
    recentSearches r d = (json 200 (JArr (map search_json l)), d)
    /\ Permutation l (searches_of (ReqUser.id r) d)
    /\ StronglySorted (descending Searches.createdAt) l.
Proof.
  exists (orderBy_desc Searches.createdAt (searches_of (ReqUser.id r) d)).
  split; [reflexivity|]. split.
  - apply orderBy_desc_perm.
  - apply orderBy_desc_sorted.
Qed.

(** After a search, the query heads the recent searches of the requester,
    followed by at most four of the searches that were there, none of them
    with the same text: on a store whose search ids are distinct and below
    the sequence, when the search is newer than the earlier ones of the
    requester. *)
Theorem search_then_recent `{Collaborators}
        (r : ReqUser.t) (q : string) (skip : option string) (now : Z) (d : DB) :
  q <> EmptyString -> searches_wf d ->
  Forall (fun s => Searches.createdAt s < now) (searches_of (ReqUser.id r) d) ->
  let d' := snd (searchBlogs r (Some q) skip now d) in
  let new := Searches.mk (nextId (searches d)) (ReqUser.id r) q now in
  exists rest,
    recentSearches r d'
    = (json 200 (JArr (search_json new :: map search_json rest)), d')
    /\ (List.length rest <= 4)%nat
    /\ (forall s, In s rest -> In s (searches_of (ReqUser.id r) d))
    /\ (NoDup (map Searches.content (searches_of (ReqUser.id r) d)) ->
        forall s, In s rest -> Searches.content s <> q).
Proof.
  intros Hq Hwf Hnew.
  destruct (search_shape r skip now Hq Hwf) as (view & d' & E & Hmine & _).
  cbv zeta. rewrite E. cbn [snd].
  set (uid := ReqUser.id r) in *.
  set (del := dropped uid d) in *.
  set (dup := find (same_search q uid) (filter (kept del) (rows (searches d)))) in *.
  set (new := Searches.mk (nextId (searches d)) uid q now) in *.
  set (old := filter (survives del dup) (searches_of uid d)) in *.
  exists (orderBy_desc Searches.createdAt old).
  assert (Hsub : forall s, In s (orderBy_desc Searches.createdAt old) ->
                           In s old).
  { intros s Hs. eapply Permutation_in; [apply orderBy_desc_perm|exact Hs]. }
  split; [|split; [|split]].
  - unfold recentSearches, try_catch, bind, ret, findMany_desc. proj.
    fold uid. fold (searches_of uid d'). rewrite Hmine.
    rewrite newest_first; [reflexivity|].
    apply Forall_forall. intros s Hs. apply filter_In in Hs.
    rewrite Forall_forall in Hnew. exact (Hnew s (proj1 Hs)).
  - rewrite (Permutation_length (orderBy_desc_perm Searches.createdAt old)).
    etransitivity; [apply filter_and_length|].
    apply trim_bound. exact (proj1 Hwf).
  - intros s Hs. apply Hsub in Hs. apply filter_In in Hs. exact (proj1 Hs).
  - intros Hdistinct s Hs Hc. apply Hsub in Hs. apply filter_In in Hs.
    destruct Hs as [Hs Hsurv].
    exact (@no_old_duplicate q uid d s Hdistinct Hs Hsurv Hc).
Qed.

Lemma search_then_recent_witness :
  let d' := snd (@searchBlogs Sample.mail_up (Sample.req Sample.alice) (Some "c")
                   None 100 Sample.store) in
  exists rest,
    fst (recentSearches (Sample.req Sample.alice) d')
    = json 200 (JArr (search_json (Searches.mk 7 1 "c" 100)
                      :: map search_json rest))
    /\ (List.length rest <= 4)%nat.
Proof.
  destruct (@search_then_recent Sample.mail_up (Sample.req Sample.alice) "c" None
              100 Sample.store) as (rest & E & Hlen & _).
  - discriminate.
  - split; simpl; repeat constructor; simpl; intuition discriminate.
  - simpl. repeat constructor.
  - cbv zeta in *. exists rest. rewrite E. split; [reflexivity|exact Hlen].
Defined.

(** [deleteSearch] removes a search only for its owner. An answer other
    than 200 leaves the store as it was; a search of another user is
    answered 403; and an answer 200 has removed the one row whose id the
    parameter parses to, a row of the requester, and nothing else:
    with distinct ids, the searches of every other user are what they
    were. *)
Theorem delete_search_owner_only (r : ReqUser.t) (p : string) (d : DB) :
  let res := fst (deleteSearch r p d) in
  let d' := snd (deleteSearch r p d) in
  (status res <> 200 -> d' = d)
  /\ (forall s,
        parseInt_js p = Some (Searches.id s) ->
        - 2 ^ 31 <= Searches.id s < 2 ^ 31 ->
        find (fun x => Searches.id x =? Searches.id s) (rows (searches d)) = Some s ->
        Searches.userId s <> ReqUser.id r ->
        deleteSearch r p d = (send 403 "Forbidden", d))
  /\ (status res = 200 ->
      exists s,
        parseInt_js p = Some (Searches.id s)
        /\ In s (rows (searches d))
        /\ Searches.userId s = ReqUser.id r
        /\ res = json 200 (search_json s)
        /\ d' = tset db_searches
                  (mkTable (without_search (Searches.id s) d) (nextId (searches d)))
                  d
        /\ (NoDup (map Searches.id (rows (searches d))) ->
            forall x, In x (rows (searches d')) <-> In x (rows (searches d)) /\ x <> s)).
Proof.
  cbv zeta. unfold deleteSearch, int_arg. split; [|split].
  - destruct (parseInt_js p) as [z|]; [|reflexivity].
    destruct ((- 2 ^ 31 <=? z) && (z <? 2 ^ 31)); [|reflexivity].
    run. destruct (find _ (rows (searches d))) as [s|] eqn:Hf; [|reflexivity].
    destruct (negb _); [reflexivity|]. run. 
    destruct (find (fun x => Searches.id x =? Searches.id s) (rows (searches d)));
      [|reflexivity].
    simpl. intros Hs. now contradiction Hs.
  - intros s Hp Hrange Hf Hne. rewrite Hp.
    destruct (Z.leb_spec (- 2 ^ 31) (Searches.id s)); [|lia].
    destruct (Z.ltb_spec (Searches.id s) (2 ^ 31)); [|lia].
    run. rewrite Hf.
    destruct (Z.eqb_spec (Searches.userId s) (ReqUser.id r)); [contradiction|].
    reflexivity.
  - destruct (parseInt_js p) as [z|]; [|discriminate].
    destruct ((- 2 ^ 31 <=? z) && (z <? 2 ^ 31)); [|discriminate].
    run. destruct (find _ (rows (searches d))) as [s|] eqn:Hf; [|discriminate].
    destruct (Z.eqb_spec (Searches.userId s) (ReqUser.id r)) as [Hown|];
      [|discriminate].
    run. pose proof (find_some _ _ Hf) as [Hin Hid]. apply Z.eqb_eq in Hid.
    destruct (find (fun x => Searches.id x =? Searches.id s) (rows (searches d)))
      eqn:Hf2; [|discriminate].
    intros _. exists s. subst z.
    split; [reflexivity|]. split; [exact Hin|]. split; [exact Hown|].
    split; [reflexivity|]. split; [reflexivity|].
    intros Hnd x. proj. rewrite filter_In. split.
    + intros [Hx Hne]. split; [exact Hx|]. intros ->.
      rewrite Z.eqb_refl in Hne. discriminate.
    + intros [Hx Hne]. split; [exact Hx|].
      apply negb_true_iff, Z.eqb_neq. intros Heq. apply Hne.
      now apply (NoDup_map_injective Searches.id (rows (searches d))).
Qed.

Lemma delete_search_owner_only_witness :
  deleteSearch (Sample.req Sample.alice) "6" Sample.store
  = (send 403 "Forbidden", Sample.store)
  /\ map Searches.id
       (rows (searches (snd (deleteSearch (Sample.req Sample.alice) " 3rd"
                               Sample.store))))
     = [1; 2; 4; 5; 6].
Proof.
  split.
  - apply (proj1 (proj2 (@delete_search_owner_only (Sample.req Sample.alice) "6"
                           Sample.store)) (Searches.mk 6 2 "a" 60));
      [reflexivity | simpl; lia | reflexivity | simpl; lia].
  - destruct (proj2 (proj2 (@delete_search_owner_only (Sample.req Sample.alice)
                              " 3rd" Sample.store)) eq_refl)
      as (s & Hp & _ & _ & _ & E & _).
    cbv zeta in E. rewrite E. injection Hp as <-. reflexivity.
Defined.

(** ** Editing a profile *)

Section UpdateFrame.
Variable A B : Type.
Variable p : A -> bool.
Variable f : A -> A.
Variable g : A -> B.

(** Rewriting one row with a function that preserves [g] preserves the
    list of [g]-images, and leaves alone every row not selected. *)
Lemma update_first_preserves (l l' : list A) (y : A) :
  (forall x, g (f x) = g x) ->
  update_first p f l = Some (y, l') -> map g l' = map g l.
Proof.
  intros Hg. revert l'. induction l as [|x l IH]; simpl; intros l' Hu;
    [discriminate|].
  destruct (p x).
  - inversion Hu; subst. simpl. now rewrite Hg.
  - destruct (update_first p f l) as [[y' l'']|]; [|discriminate].
    inversion Hu; subst. simpl. f_equal. now apply IH.
Qed.

Lemma update_first_others (l l' : list A) (y x : A) :
  update_first p f l = Some (y, l') -> In x l -> p x = false -> In x l'.
Proof.
  revert l'. induction l as [|z l IH]; simpl; intros l' Hu Hin Hp; [contradiction|].
  destruct (p z) eqn:Ez.
  - inversion Hu; subst. destruct Hin as [<-|Hin]; [congruence|now right].
  - destruct (update_first p f l) as [[y' l'']|]; [|discriminate].
    inversion Hu; subst. destruct Hin as [<-|Hin]; [now left|right; now apply IH].
Qed.
End UpdateFrame.

Lemma user_update_unique_frame (id : Z) (data : User.t -> User.t) (d : DB) :
  (forall u, credentials (data u) = credentials u) ->
  let d' := snd (user_update_unique id data d) in
  map credentials (rows (users d')) = map credentials (rows (users d))
  /\ nextId (users d') = nextId (users d)
  /\ (forall u, In u (rows (users d)) -> User.id u <> id -> In u (rows (users d')))
  /\ d' = tset db_user (users d') d.
Proof.
  intros Hdata. cbv zeta. unfold user_update_unique.
  destruct (find _ (rows (users d))) as [u|]; [|now destruct d as [[] ? ? ? ? ? ? ?]].
  destruct (existsb _ (rows (users d))); [now destruct d as [[] ? ? ? ? ? ? ?]|].
  unfold update. proj.
  destruct (update_first _ data (rows (users d))) as [[y l']|] eqn:U;
    [|now destruct d as [[] ? ? ? ? ? ? ?]].
  proj. repeat split.
  - eapply update_first_preserves; [exact Hdata | exact U].
  - intros v Hv Hne. eapply update_first_others; [exact U | exact Hv |].
    now apply Z.eqb_neq.
Qed.

(** [editUser] touches the profile columns of the requester and nothing
    else. Whatever the request and its answer, the users table keeps its
    rows in place with their id, email, verification flag, password hash,
    provider and creation time; the rows of the other users are unchanged;
    and every other table is what it was. *)
Theorem edit_changes_profile_only (r : ReqUser.t)
        (fullname_ username_ bio_ imageUrl_ : option string) (now : Z) (d : DB) :
  let d' := snd (editUser r fullname_ username_ bio_ imageUrl_ now d) in
  map credentials (rows (users d')) = map credentials (rows (users d))
  /\ nextId (users d') = nextId (users d)
  /\ (forall u, In u (rows (users d)) -> User.id u <> ReqUser.id r ->
                In u (rows (users d')))
  /\ d' = tset db_user (users d') d.
Proof.
  assert (Hsame : map credentials (rows (users d)) = map credentials (rows (users d))
                  /\ nextId (users d) = nextId (users d)
                  /\ (forall u, In u (rows (users d)) -> User.id u <> ReqUser.id r ->
                                In u (rows (users d)))
                  /\ d = tset db_user (users d) d)
    by (repeat split; auto; now destruct d as [[] ? ? ? ? ? ? ?]).
  assert (Hupd : forall fn un bi im,
             let d' := snd (try_catch
                              (bind (user_update_unique (ReqUser.id r)
                                       (user_set_profile fn un bi im now))
                                    (fun user => ret (json 200 (edited_json user))))
                              d) in
             map credentials (rows (users d')) = map credentials (rows (users d))
             /\ nextId (users d') = nextId (users d)
             /\ (forall u, In u (rows (users d)) -> User.id u <> ReqUser.id r ->
                           In u (rows (users d')))
             /\ d' = tset db_user (users d') d).
  { intros fn un bi im.
    pose proof (@user_update_unique_frame (ReqUser.id r)
                  (user_set_profile fn un bi im now) d (fun _ => eq_refl)) as F.
    cbv zeta in *. unfold try_catch, bind, ret.
    destruct (user_update_unique _ _ d) as [[y|e] d1]; exact F. }
  cbv zeta in *. unfold editUser.
  destruct (falsy fullname_ && falsy username_ && falsy bio_ && falsy imageUrl_);
    [exact Hsame|].
  destruct (negb (falsy fullname_) && _); [exact Hsame|].
  destruct (negb (falsy username_)).
  - destruct (negb (usernameRegex_test (str username_)) || _ || _); [exact Hsame|].
    run_reads.
    destruct (find (named (str username_)) (rows (users d))); [exact Hsame|].
    destruct (negb (falsy bio_) && _); [exact Hsame|]. apply Hupd.
  - destruct (negb (falsy bio_) && _); [exact Hsame|]. apply Hupd.
Qed.

(** A username that some account already has is refused, also when that
    account is the requester's own: sending one's current username again
    is answered 400 [Username is taken] and writes nothing. *)
Theorem edit_refuses_own_username (r : ReqUser.t) (name : string)
        (bio_ imageUrl_ : option string) (now : Z) (d : DB) (u : User.t) :
  find (named name) (rows (users d)) = Some u ->
  usernameRegex_test name = true -> 3 <= len name <= 50 ->
  editUser r None (Some name) bio_ imageUrl_ now d = (send 400 "Username is taken", d).
Proof.
  intros Hu Hre Hlen. unfold editUser.
  assert (Hf : falsy (Some name) = false)
    by (destruct name; [discriminate Hre | reflexivity]).
  rewrite Hf. cbn [falsy andb negb str]. rewrite Hre. cbn [negb orb].
  destruct (Z.ltb_spec 50 (len name)); [lia|].
  destruct (Z.ltb_spec (len name) 3); [lia|].
  run_reads. now rewrite Hu.
Qed.

Lemma edit_refuses_own_username_witness :
  editUser (Sample.req Sample.alice) None (Some "alice") None None 5 Sample.store
  = (send 400 "Username is taken", Sample.store).
Proof.
  apply (@edit_refuses_own_username (Sample.req Sample.alice) "alice" None None 5
           Sample.store Sample.alice); [reflexivity | reflexivity | ].
  unfold len. simpl. lia.
Defined.

(** ** Signing in with a provider *)

Section Provider.
Context `{Collaborators}.

Lemma provider_created (token provider_ : option string)
      (userRes : Outcome (option string)) (now : Z) (d : DB) :
  status (fst (authorizeUserWithProvider token provider_ userRes now d)) = 201 ->
  exists e,
    userRes = Ok (Some e)
    /\ find (with_email e) (rows (users d)) = None
    /\ snd (authorizeUserWithProvider token provider_ userRes now d)
       = tset db_user
           (mkTable (rows (users d)
                     ++ [User.mk (nextId (users d)) None None None None e true None
                           GOOGLE now now])
                    (nextId (users d) + 1)) d.
Proof.
  unfold authorizeUserWithProvider.
  destruct (falsy token || falsy provider_); [discriminate|].
  destruct (String.eqb _ "google"); [|discriminate].
  destruct userRes as [[e|]|err]; run; try discriminate.
  - fold (with_email e).
    destruct (find (with_email e) (rows (users d))) eqn:Hu; [discriminate|].
    run. destruct (existsb _ (rows (users d))); [discriminate|].
    intros _. exists e. auto.
  - destruct (find _ (rows (users d))); discriminate.
Qed.
End Provider.

(** An account made by a provider sign-in (201) is verified, carries the
    provider tag and has no password hash, and no password route opens it:
    a login with its email is refused, whatever the password, and so is a
    password-reset request; neither writes. *)
Theorem provider_account_has_no_password `{Collaborators}
        (token provider_ : option string) (userRes : Outcome (option string))
        (now later : Z) (d : DB) :
  status (fst (authorizeUserWithProvider token provider_ userRes now d)) = 201 ->
  let d1 := snd (authorizeUserWithProvider token provider_ userRes now d) in
  exists e,
    userRes = Ok (Some e)
    /\ rows (users d1)
       = (rows (users d)
          ++ [User.mk (nextId (users d)) None None None None e true None GOOGLE
                now now])%list
    /\ (forall pw,
          status (fst (loginUser (Some e) pw later d1)) <> 200
          /\ authorization (fst (loginUser (Some e) pw later d1)) = None
          /\ snd (loginUser (Some e) pw later d1) = d1)
    /\ (forall origin uuid1 uuid2,
          status (fst (resetPasswordRequest (Some e) origin uuid1 uuid2 later d1))
          <> 200
          /\ snd (resetPasswordRequest (Some e) origin uuid1 uuid2 later d1) = d1).
Proof.
  intros Hs. destruct (provider_created _ _ _ _ _ Hs) as (e & -> & Hu & E).
  cbv zeta. rewrite E. exists e. split; [reflexivity|]. split; [reflexivity|].
  set (new := User.mk (nextId (users d)) None None None None e true None GOOGLE
                      now now).
  assert (Hfound : find (with_email e) (rows (users d) ++ [new]) = Some new).
  { apply find_app_last; [exact Hu|]. unfold with_email, new. simpl.
    apply String.eqb_refl. }
  split.
  - intros pw. unfold loginUser.
    destruct (falsy (Some e) || falsy pw); [simpl; repeat split; lia|].
    destruct (negb (emailRegex_test (str (Some e)))); [simpl; repeat split; lia|].
    run_reads. fold (with_email e). cbn [str]. fold (with_email e).
    rewrite Hfound. simpl. repeat split; lia.
  - intros origin uuid1 uuid2. unfold resetPasswordRequest.
    destruct (falsy (Some e)); [simpl; split; [lia|reflexivity]|].
    destruct (negb (emailRegex_test (str (Some e))));
      [simpl; split; [lia|reflexivity]|].
    run_reads. cbn [str]. fold (with_email e).
    rewrite Hfound. simpl. split; [lia|reflexivity].
Qed.

Lemma provider_account_has_no_password_witness :
  let d1 := snd (@authorizeUserWithProvider Sample.mail_up (Some "ya29.token")
                   (Some "Google") (Ok (Some "erin@example.com")) 5 Sample.store) in
  @loginUser Sample.mail_up (Some "erin@example.com") (Some "Passw0rd!") 9 d1
  = (send 400 "Account signed up using a provider", d1).
Proof.
  destruct (@provider_account_has_no_password Sample.mail_up (Some "ya29.token")
              (Some "Google") (Ok (Some "erin@example.com")) 5 9 Sample.store
              eq_refl) as (e & He & _ & L & _).
  injection He as <-. cbv zeta in *.
  destruct (L (Some "Passw0rd!")) as (_ & _ & Hd).
  rewrite (surjective_pairing (loginUser _ _ _ _)), Hd. reflexivity.
Defined.



(** ** Blogs: drafts, publication and deletion *)

Section Blogs.
Context `{Collaborators}.
Context `{Relations}.

Lemma create_blog_success (r : ReqUser.t) (title_ content_ : option string)
      (draws : list string) (now : Z) (d : DB) :
  status (fst (createBlog r title_ content_ draws now d)) = 201 ->
  let blog := Blog.mk (nextId (blogs d)) (randomBlogId draws) (str title_)
                      (str content_) None true (ReqUser.id r) None now now in
  falsy title_ = false /\ falsy content_ = false
  /\ existsb (fun b => String.eqb (Blog.blogId blog) (Blog.blogId b))
             (rows (blogs d)) = false
  /\ createBlog r title_ content_ draws now d
     = (json 201 (blog_json blog),
        tset db_blog (mkTable (rows (blogs d) ++ [blog]) (nextId (blogs d) + 1)) d).
Proof.
  unfold createBlog.
  destruct (falsy title_); [discriminate|].
  destruct (falsy content_); [discriminate|].
  run. destruct (existsb _ (rows (blogs d))) eqn:E; [discriminate|].
  intros _. auto.
Qed.

(** [getBlog] only reads. *)
Lemma get_blog_reads_only (authorization_ : option string) (blogId : string)
      (now : Z) (d : DB) :
  snd (getBlog authorization_ blogId now d) = d.
Proof.
  unfold getBlog. run.
  repeat match goal with
         | |- context [match jwt_verify ?t ?s ?n with _ => _ end] =>
             destruct (jwt_verify t s n); proj
         | |- context [option_map _ (find ?p ?l)] =>
             destruct (find p l); cbn [option_map]; proj
         | |- context [match find ?p ?l with _ => _ end] => destruct (find p l); proj
         | |- context [if ?c then _ else _] => destruct c; proj
         end; reflexivity.
Qed.
End Blogs.



(** A blog answered 201 by [createBlog] is a draft of the requester under
    the id drawn for it. Nobody else can publish it (403, nothing
    written); its author can, as long as title and content are not empty:
    the answer is 200 and every follower the author has at that time gets
    one notification that carries the id of the new blog. *)
Theorem create_then_publish (r : ReqUser.t) (title_ content_ : option string)
        (draws : list string) (now later : Z) (d : DB) :
  status (fst (createBlog r title_ content_ draws now d)) = 201 ->
  let d1 := snd (createBlog r title_ content_ draws now d) in
  let blog := Blog.mk (nextId (blogs d)) (randomBlogId draws) (str title_)
                      (str content_) None true (ReqUser.id r) None now now in
  rows (blogs d1) = (rows (blogs d) ++ [blog])%list
  /\ (forall r', ReqUser.id r' <> ReqUser.id r ->
                 publishBlog r' (randomBlogId draws) later d1
                 = (send 403 "Forbidden", d1))
  /\ exists d2,
       publishBlog r (randomBlogId draws) later d1
       = (json 200 (rest_json (blog_set_draft false later blog)), d2)
       /\ rows (notifications d2)
          = (rows (notifications d)
             ++ fanout (nextId (notifications d)) (followers_of (ReqUser.id r) d)
                       (nextId (blogs d)) later)%list
       /\ In (blog_set_draft false later blog) (rows (blogs d2)).
Proof.
  intros Hs. destruct (create_blog_success r title_ content_ draws now d Hs)
    as (Ht & Hc & Hfresh & E).
  cbv zeta in *. rewrite E. cbn [snd].
  set (blog := Blog.mk (nextId (blogs d)) (randomBlogId draws) (str title_)
                       (str content_) None true (ReqUser.id r) None now now) in *.
  set (d1 := tset db_blog _ d).
  assert (Hkey : find (fun x => String.eqb (Blog.blogId x) (randomBlogId draws))
                      (rows (blogs d1)) = Some blog)
    by exact (@fresh_lookup _ Blog.blogId (rows (blogs d)) blog Hfresh).
  assert (Hdraft : find (draft_with (randomBlogId draws)) (rows (blogs d1))
                   = Some blog).
  { unfold d1. proj. apply find_app_last; [|unfold draft_with; simpl;
                                            now rewrite String.eqb_refl].
    apply find_all_false. intros x Hx. unfold draft_with.
    pose proof (existsb_exists (fun b => String.eqb (Blog.blogId blog) (Blog.blogId b))
                  (rows (blogs d))) as Ex.
    destruct (String.eqb_spec (Blog.blogId x) (randomBlogId draws)) as [Eq|];
      [|reflexivity].
    exfalso. assert (existsb (fun b => String.eqb (Blog.blogId blog) (Blog.blogId b))
                       (rows (blogs d)) = true).
    { apply Ex. exists x. split; [exact Hx|]. simpl. rewrite Eq.
      apply String.eqb_refl. }
    congruence. }
  assert (Hnonempty : forall o, falsy o = false -> str o <> EmptyString).
  { intros [[|c s]|]; simpl; intros F; congruence. }
  split; [reflexivity|]. split.
  - intros r' Hne. unfold publishBlog. run_reads. fold (draft_with (randomBlogId draws)).
    rewrite Hdraft. simpl.
    destruct (Z.eqb_spec (ReqUser.id r) (ReqUser.id r')); [congruence|reflexivity].
  - destruct (@publish_runs r (randomBlogId draws) later d1 blog Hdraft eq_refl
                (Hnonempty _ Ht) (Hnonempty _ Hc)) as (b' & l' & U & P).
    destruct (update_first_found _ (blog_set_draft false later) _ Hkey)
      as (l2 & U2 & Hin & _).
    rewrite U2 in U. inversion U; subst b' l'.
    eexists. split; [exact P|]. split; [reflexivity|exact Hin].
Qed.

Lemma create_then_publish_witness :
  let d1 := snd (createBlog (Sample.req Sample.bob) (Some "Title") (Some "Text")
                   ["0.k3"; "0.9z"] 5 Sample.store) in
  publishBlog (Sample.req Sample.alice) "k9" 6 d1 = (send 403 "Forbidden", d1)
  /\ map Notification.userId
       (rows (notifications (snd (publishBlog (Sample.req Sample.bob) "k9" 6 d1))))
     = [1; 3; 4].
Proof.
  destruct (@create_then_publish (Sample.req Sample.bob) (Some "Title")
              (Some "Text") ["0.k3"; "0.9z"] 5 6 Sample.store eq_refl)
    as (_ & F & d2 & P & N & _).
  cbv zeta in *. split.
  - apply (F (Sample.req Sample.alice)). simpl. lia.
  - change (randomBlogId ["0.k3"; "0.9z"]) with "k9" in P. rewrite P. cbn [snd].
    rewrite N. reflexivity.
Defined.

(** [deleteBlog] deletes a blog only for its author. Any answer other than
    200 leaves the store as it was; a blog of another user is answered
    403; and an answer 200 has removed a blog of the requester, the one
    whose id the parameter parses to, together with the notifications that
    referred to it, and nothing else. *)
Theorem delete_blog_author_only (r : ReqUser.t) (p : string) (d : DB) :
  let res := fst (deleteBlog r p d) in
  let d' := snd (deleteBlog r p d) in
  (status res <> 200 -> d' = d)
  /\ (forall b,
        parseInt_js p = Some (Blog.id b) -> - 2 ^ 31 <= Blog.id b < 2 ^ 31 ->
        find (fun x => Blog.id x =? Blog.id b) (rows (blogs d)) = Some b ->
        Blog.authorId b <> ReqUser.id r ->
        deleteBlog r p d = (send 403 "Forbidden", d))
  /\ (status res = 200 ->
      exists b,
        parseInt_js p = Some (Blog.id b)
        /\ In b (rows (blogs d))
        /\ Blog.authorId b = ReqUser.id r
        /\ res = json 200 (blog_json b)
        /\ d' = mkDB (users d) (activateTokens d) (passwordResetTokens d)
                     (deleteTokens d)
                     (mkTable (filter (fun x => negb (Blog.id x =? Blog.id b))
                                      (rows (blogs d)))
                              (nextId (blogs d)))
                     (follows d)
                     (mkTable (filter (fun n => negb (Notification.blogId n
                                                      =? Blog.id b))
                                      (rows (notifications d)))
                              (nextId (notifications d)))
                     (searches d)).
Proof.
  cbv zeta. unfold deleteBlog, int_arg, blog_delete. split; [|split].
  - destruct (parseInt_js p) as [z|]; [|reflexivity].
    destruct ((- 2 ^ 31 <=? z) && (z <? 2 ^ 31)); [|reflexivity].
    run. destruct (find (fun x => Blog.id x =? z) (rows (blogs d))) as [b|] eqn:Hf;
      [|rewrite ?Hf; reflexivity].
    destruct (negb _); [reflexivity|]. cbv beta. rewrite Hf. simpl. intros Hs.
    now contradiction Hs.
  - intros b Hp Hrange Hf Hne. rewrite Hp.
    destruct (Z.leb_spec (- 2 ^ 31) (Blog.id b)); [|lia].
    destruct (Z.ltb_spec (Blog.id b) (2 ^ 31)); [|lia].
    run. rewrite Hf.
    destruct (Z.eqb_spec (Blog.authorId b) (ReqUser.id r)); [contradiction|].
    reflexivity.
  - destruct (parseInt_js p) as [z|]; [|discriminate].
    destruct ((- 2 ^ 31 <=? z) && (z <? 2 ^ 31)); [|discriminate].
    run. destruct (find (fun x => Blog.id x =? z) (rows (blogs d))) as [b|] eqn:Hf;
      [|rewrite ?Hf; discriminate].
    destruct (Z.eqb_spec (Blog.authorId b) (ReqUser.id r)) as [Hown|];
      [|discriminate].
    pose proof (find_some _ _ Hf) as [Hin Hid]. apply Z.eqb_eq in Hid. subst z.
    proj. cbv beta. rewrite Hf. proj. intros _. exists b. repeat split; auto.
Qed.

Lemma delete_blog_author_only_witness :
  deleteBlog (Sample.req Sample.alice) "1" Sample.store
  = (send 403 "Forbidden", Sample.store)
  /\ map Blog.id (rows (blogs (snd (deleteBlog (Sample.req Sample.bob) "0x1"
                                      Sample.store))))
     = [2; 3].
Proof.
  split.
  - apply (proj1 (proj2 (@delete_blog_author_only (Sample.req Sample.alice) "1"
                           Sample.store))
             (Blog.mk 1 "draft-1" "Hello" "World" None true 2 None 0 0));
      [reflexivity | simpl; lia | reflexivity | simpl; lia].
  - destruct (proj2 (proj2 (@delete_blog_author_only (Sample.req Sample.bob) "0x1"
                              Sample.store)) eq_refl)
      as (b & Hp & _ & _ & _ & E).
    cbv zeta in E. rewrite E. injection Hp as <-. reflexivity.
Defined.

(** ** Password reset, then login *)

(** After a password reset that passes its checks, the account logs in
    with the new password, and a password that the library does not accept
    against the new hash is refused, the old one included. (The password
    library is assumed to accept a password against the hash it made from
    it, and to make non-empty hashes; the email lookup is assumed to find
    the row of the token's user, as it does when emails are unique.) *)
Theorem reset_then_login `{Collaborators}
        (p : string) (pw : option string) (now later : Z) (d : DB)
        (tok : PasswordResetToken.t) (u : User.t) :
  falsy pw = false ->
  find (fun t => String.eqb (PasswordResetToken.token t) p)
       (rows (passwordResetTokens d)) = Some tok ->
  now - PasswordResetToken.createdAt tok <= day ->
  passwordRegex_test (str pw) = true ->
  find (with_id (PasswordResetToken.userId tok)) (rows (users d)) = Some u ->
  find (with_email (User.email u)) (rows (users d)) = Some u ->
  User.provider u = DEFAULT ->
  emailRegex_test (User.email u) = true ->
  bcrypt_compare (str pw) (bcrypt_hash (str pw) 12) = true ->
  bcrypt_hash (str pw) 12 <> EmptyString ->
  let d1 := snd (resetAccountPassword p pw now d) in
  let u' := user_set_hashedPassword (bcrypt_hash (str pw) 12) now u in
  status (fst (resetAccountPassword p pw now d)) = 200
  /\ loginUser (Some (User.email u)) pw later d1
     = (setHeader_Authorization ("Bearer " ++ generateToken (User.id u) later)
          (json 200 (account_json u')), d1)
  /\ forall other,
       bcrypt_compare (str other) (bcrypt_hash (str pw) 12) = false ->
       status (fst (loginUser (Some (User.email u)) other later d1)) = 400
       /\ snd (loginUser (Some (User.email u)) other later d1) = d1.
Proof.
  intros Hpw Hf Hage Hre Hu He Hprov Hmail Hcmp Hhash.
  destruct (reset_runs p pw now d Hpw Hf Hage Hre Hu) as (l' & toks' & U & E).
  cbv zeta. rewrite E. cbn [fst snd]. split; [reflexivity|].
  set (u' := user_set_hashedPassword (bcrypt_hash (str pw) 12) now u) in *.
  pose proof (@update_first_keeps_lookup _ (with_email (User.email u))
                (with_id (PasswordResetToken.userId tok))
                (user_set_hashedPassword (bcrypt_hash (str pw) 12) now)
                (rows (users d)) l' u _ He Hu (String.eqb_refl (User.email u)) U)
    as [_ Hlook].
  assert (Hne : falsy (Some (User.email u)) = false).
  { destruct (User.email u); [discriminate Hmail|reflexivity]. }
  assert (Hh : falsy (Some (bcrypt_hash (str pw) 12)) = false).
  { destruct (bcrypt_hash (str pw) 12); [congruence|reflexivity]. }
  split.
  - unfold loginUser. rewrite Hne, Hpw. cbn [orb str]. rewrite Hmail. cbn [negb].
    run_reads. fold (with_email (User.email u)). rewrite Hlook.
    cbn [User.provider u' user_set_hashedPassword User.hashedPassword].
    rewrite Hprov. cbn [AccountType_eqb negb orb]. rewrite Hh. cbn [str].
    rewrite Hcmp. reflexivity.
  - intros other Hno. unfold loginUser. rewrite Hne. cbn [orb str].
    destruct (falsy other); [split; reflexivity|].
    rewrite Hmail. cbn [negb]. run_reads. fold (with_email (User.email u)).
    rewrite Hlook.
    cbn [User.provider u' user_set_hashedPassword User.hashedPassword].
    rewrite Hprov. cbn [AccountType_eqb negb orb]. rewrite Hh. cbn [str].
    rewrite Hno. split; reflexivity.
Qed.

Lemma reset_then_login_witness :
  let d1 := snd (@resetAccountPassword Sample.mail_up "reset-alice"
                   (Some "N3w-pass!") 5 Sample.store) in
  status (fst (@loginUser Sample.mail_up (Some "alice@example.com")
                 (Some "N3w-pass!") 9 d1)) = 200
  /\ status (fst (@loginUser Sample.mail_up (Some "alice@example.com")
                    (Some "Old-pass1") 9 d1)) = 400.
Proof.
  destruct (@reset_then_login Sample.mail_up "reset-alice" (Some "N3w-pass!") 5 9
              Sample.store (PasswordResetToken.mk 1 "reset-alice" None 1 0 0)
              Sample.alice eq_refl eq_refl) as (_ & L & O);
    try reflexivity; try (vm_compute; discriminate).
  cbv zeta in *. split.
  - exact (f_equal (fun x => status (fst x)) L).
  - exact (proj1 (O (Some "Old-pass1") eq_refl)).
Defined.

(** ** A session from login to the middleware *)

Section Header.
Variable sep : ascii.

Lemma split_on_no_sep (s : string) :
  string_forallb (fun c => negb (Ascii.eqb c sep)) s = true ->
  split_on sep s = [s].
Proof.
  unfold string_forallb. induction s as [|c s IH]; simpl; [reflexivity|].
  intros Hs. apply andb_prop in Hs. destruct Hs as [Hc Hs].
  apply negb_true_iff in Hc. rewrite Hc, (IH Hs). reflexivity.
Qed.

Lemma split_on_first (a b : string) :
  string_forallb (fun c => negb (Ascii.eqb c sep)) a = true ->
  split_on sep (a ++ String sep b) = a :: split_on sep b.
Proof.
  unfold string_forallb. induction a as [|c a IH]; simpl.
  - intros _. now rewrite Ascii.eqb_refl.
  - intros Hs. apply andb_prop in Hs. destruct Hs as [Hc Hs].
    apply negb_true_iff in Hc. rewrite Hc, (IH Hs). reflexivity.
Qed.
End Header.

(** The header that a login answered 200 sets is accepted by [protect]:
    the request goes on as the account that logged in, and [getUser]
    answers with that account. (The token library is assumed to make a
    non-empty token without a space and to verify, at the later time, the
    token it signed; user ids are distinct.) *)
Theorem login_session_opens_protect `{Collaborators}
        (email_ pw : option string) (now later : Z) (d : DB) (u : User.t) :
  status (fst (loginUser email_ pw now d)) = 200 ->
  find (with_email (str email_)) (rows (users d)) = Some u ->
  NoDup (map User.id (rows (users d))) ->
  let tok := generateToken (User.id u) now in
  tok <> EmptyString ->
  string_forallb (fun c => negb (Ascii.eqb c " ")) tok = true ->
  jwt_verify tok JWT_SECRET later = inr (User.id u) ->
  authorization (fst (loginUser email_ pw now d)) = Some ("Bearer " ++ tok)
  /\ snd (loginUser email_ pw now d) = d
  /\ protect (Some ("Bearer " ++ tok)) later d = (Ok (Next (select_req_user u)), d)
  /\ getUser (select_req_user u) d
     = (json 200
          (JObj [("id", JNum (User.id u));
                 ("imageUrl", JOptStr (User.imageUrl u));
                 ("fullname", JOptStr (User.fullname u));
                 ("username", JOptStr (User.username u));
                 ("email", JStr (User.email u));
                 ("createdAt", JDate (User.createdAt u));
                 ("updatedAt", JDate (User.updatedAt u))]), d).
Proof.
  intros Hs Hu Hnd tok Hne Hsp Hver.
  assert (Hlogin : authorization (fst (loginUser email_ pw now d))
                   = Some ("Bearer " ++ tok)
                   /\ snd (loginUser email_ pw now d) = d).
  { revert Hs. unfold loginUser.
    destruct (falsy email_ || falsy pw); [discriminate|].
    destruct (negb (emailRegex_test (str email_))); [discriminate|].
    run_reads. fold (with_email (str email_)). rewrite Hu.
    destruct (negb (AccountType_eqb (User.provider u) DEFAULT) || _);
      [discriminate|].
    destruct (negb (bcrypt_compare _ _)); [discriminate|].
    intros _. split; reflexivity. }
  split; [exact (proj1 Hlogin)|]. split; [exact (proj2 Hlogin)|]. split.
  - rewrite (@protect_bearer _ ("Bearer " ++ tok) tok later d).
    + rewrite Hver.
      apply find_some in Hu. destruct Hu as [Hin _].
      pose proof (@find_by_key _ User.id (rows (users d)) u Hnd Hin) as Hk.
      now rewrite Hk.
    + reflexivity.
    + change ("Bearer " ++ tok) with ("Bearer" ++ String " " tok).
      rewrite split_on_first by reflexivity.
      now rewrite (@split_on_no_sep " " tok Hsp).
    + exact Hne.
  - reflexivity.
Qed.

Lemma login_session_opens_protect_witness :
  let h := "Bearer " ++ @generateToken Sample.mail_up 2 5 in
  authorization (fst (@loginUser Sample.mail_up (Some "bob@example.com")
                        (Some "Bobs-pass2") 5 Sample.store)) = Some h
  /\ @protect Sample.mail_up (Some h) (5 + day) Sample.store
     = (Ok (Next (Sample.req Sample.bob)), Sample.store).
Proof.
  destruct (@login_session_opens_protect Sample.mail_up (Some "bob@example.com")
              (Some "Bobs-pass2") 5 (5 + day) Sample.store Sample.bob
              eq_refl eq_refl) as (A & _ & P & _).
  - simpl. repeat constructor; simpl; intuition discriminate.
  - vm_compute. discriminate.
  - vm_compute. reflexivity.
  - vm_compute. reflexivity.
  - cbv zeta. split; [exact A | exact P].
Defined.

(** ** Profiles and notification lists *)



Lemma all_some_complete (A B : Type) (f : A -> option B) (l : list A) :
  (forall x, In x l -> f x <> None) ->
  exists l', all_some (map f l) = Some l' /\ List.length l' = List.length l.
Proof.
  induction l as [|x l IH]; simpl; intros Hall.
  - exists []. auto.
  - destruct (f x) as [y|] eqn:E; [|now destruct (Hall x (or_introl eq_refl))].
    destruct IH as (l' & -> & Hlen); [intros z Hz; apply Hall; now right|].
    exists (y :: l'). simpl. auto.
Qed.

(** [getNotifications] writes nothing, and on a store where every
    notification of the requester refers to a stored blog with a stored
    author (the foreign keys of the schema) it answers 200 with one entry
    per notification of the requester, seen or not. *)
Theorem notifications_listed (r : ReqUser.t) (d : DB) :
  snd (getNotifications r d) = d
  /\ ((forall n, In n (notifications_of (ReqUser.id r) d) ->
                 notification_json d n <> None) ->
      exists l,
        fst (getNotifications r d) = json 200 (JArr l)
        /\ List.length l = List.length (notifications_of (ReqUser.id r) d)).
Proof.
  unfold getNotifications, try_catch, bind, ret, throw, read, findMany_desc.
  proj. fold (notifications_of (ReqUser.id r) d). split.
  - destruct (all_some _); reflexivity.
  - intros Hfk.
    destruct (@all_some_complete _ _ (notification_json d)
                (orderBy_desc Notification.createdAt
                   (notifications_of (ReqUser.id r) d))) as (l & -> & Hlen).
    + intros n Hn. apply Hfk.
      eapply Permutation_in; [apply orderBy_desc_perm|exact Hn].
    + exists l. split; [reflexivity|]. rewrite Hlen.
      apply Permutation_length, orderBy_desc_perm.
Qed.

Lemma notifications_listed_witness :
  let d1 := snd (publishBlog (Sample.req Sample.bob) "draft-1" 77 Sample.store) in
  exists l,
    fst (getNotifications (Sample.req Sample.carol) d1) = json 200 (JArr l)
    /\ List.length l = 1%nat.
Proof.
  cbv zeta.
  destruct (proj2 (@notifications_listed (Sample.req Sample.carol)
                     (snd (publishBlog (Sample.req Sample.bob) "draft-1" 77
                             Sample.store))))
    as (l & E & Hlen).
  - intros n Hn. simpl in Hn. destruct Hn as [<-|[]]. discriminate.
  - exists l. split; [exact E | exact Hlen].
Defined.
